(** * epcis2.js: the EPCIS document entity model and its validation engine

    A shallow embedding of [src/entity/epcis/EPCISDocument.js], of the
    list accessors of [TransactionEvent], and of the validation engine the
    test-suite [test/validator.spec.js] exercises.

    JavaScript objects are free-form property tables that keep insertion
    order; entities are such tables with an identity.  Methods that mutate
    [this] and return it for chaining become functions from the property
    table to the updated table; code that can throw returns a [result]. *)

From Stdlib Require Import ZArith Ascii String List Bool Lia DecimalString.
From stdpp Require Import gmap strings.
Import ListNotations.
Local Open Scope string_scope.
Set Warnings "-register-all".

(** ** JavaScript values *)

Module JS.

(** Object identity: what [===] and [!==] compare on objects. *)
Definition loc := nat.

(** The values this program handles.  Numbers are restricted to integers
    (no arithmetic is performed on them).  [VObj] is a plain object (an
    object literal or a parsed JSON object); [VEnt] is an instance of
    [Entity] or of one of its subclasses, with its identity, the name of
    its class and its own enumerable properties in insertion order. *)
Inductive value : Type :=
| VUndefined
| VNull
| VBool (b : bool)
| VNum (n : Z)
| VStr (s : string)
| VArr (xs : list value)
| VObj (fields : list (string * value))
| VEnt (oid : loc) (cls : string) (fields : list (string * value)).

(** Own properties of an object, in insertion order. *)
Definition props : Type := list (string * value).

(** A violation found by the validation engine: its kind, the path of the
    offending node and a message. *)
Inductive violation_kind : Type := StructuralViolation | ExtensionViolation.

Record violation : Type := {
  kind : violation_kind;
  path : list string;
  message : string
}.

(** Errors thrown by the code under study; the aggregate error of the
    validation carries the violations. *)
Inductive error : Type :=
| TypeError
| UnknownEventType
| UnknownDocumentType
| UnknownSchemaError
| UnknownFieldSetError
| ValidationError (errors : list violation).

Inductive result (A : Type) : Type :=
| Ok (a : A)
| Throw (e : error).
Arguments Ok {A} a.
Arguments Throw {A} e.

Definition rbind {A B} (r : result A) (k : A -> result B) : result B :=
  match r with
  | Ok a => k a
  | Throw e => Throw e
  end.

Declare Scope js_scope.
Delimit Scope js_scope with js.
Notation "x <- r ;; k" := (rbind r (fun x => k))
  (at level 62, r at next level, right associativity) : js_scope.

(** Constructors allocate objects: a computation that may throw and that
    threads the next free identity. *)
Definition M (A : Type) : Type := loc -> result (A * loc).

Definition ret {A} (a : A) : M A := fun n => Ok (a, n).

Definition sbind {A B} (m : M A) (k : A -> M B) : M B :=
  fun n =>
    match m n with
    | Ok (a, n') => k a n'
    | Throw e => Throw e
    end.

Definition lift {A} (r : result A) : M A :=
  fun n =>
    match r with
    | Ok a => Ok (a, n)
    | Throw e => Throw e
    end.

(** [new C(...)] gives the instance a fresh identity. *)
Definition fresh : M loc := fun n => Ok (n, S n).

Notation "x <~ m ;; k" := (sbind m (fun x => k))
  (at level 62, m at next level, right associativity) : js_scope.

(** [xs.forEach(f)] where [f] updates [this]. *)
Fixpoint forEach {A S} (f : S -> A -> M S) (xs : list A) (this : S) : M S :=
  match xs with
  | [] => ret this
  | x :: rest => sbind (f this x) (forEach f rest)
  end.

(** [make raw] returns, whatever the next free identity, an object that
    [post] relates to [raw]. *)
Definition builds (make : value -> M value) (post : value -> value -> Prop)
    (raw : value) : Prop :=
  forall n, exists x n', make raw n = Ok (x, n') /\ post raw x.

(** [ToBoolean]: what [if (v)] and [!v] test. *)
Definition truthy (v : value) : bool :=
  match v with
  | VUndefined | VNull => false
  | VBool b => b
  | VNum n => negb (n =? 0)%Z
  | VStr s => negb (s =? "")
  | VArr _ | VObj _ | VEnt _ _ _ => true
  end.

(** [a === b] when one operand at least is a primitive or an entity:
    primitives compare by value, entities by identity.  The identity of
    plain objects and of arrays is not tracked, and between two of them
    the answer [false] is that of two distinct objects only: a statement
    about [===] or [!==] carries the proviso [strict_eq e e = true] on the
    value that is compared, which holds of primitives and entities and
    leaves plain objects and arrays out. *)
Definition strict_eq (a b : value) : bool :=
  match a, b with
  | VUndefined, VUndefined => true
  | VNull, VNull => true
  | VBool x, VBool y => Bool.eqb x y
  | VNum x, VNum y => (x =? y)%Z
  | VStr x, VStr y => (x =? y)
  | VEnt o _ _, VEnt o' _ _ => Nat.eqb o o'
  | _, _ => false
  end.

Definition is_entity (v : value) : bool :=
  match v with
  | VEnt _ _ _ => true
  | _ => false
  end.

(** *** Property tables *)

Fixpoint lookup_prop (k : string) (ps : props) : option value :=
  match ps with
  | [] => None
  | (k', v) :: rest => if (k =? k') then Some v else lookup_prop k rest
  end.

(** [o.k] on the property table of [o]: a missing property reads
    [undefined]. *)
Definition get (k : string) (ps : props) : value :=
  match lookup_prop k ps with
  | Some v => v
  | None => VUndefined
  end.

(** [o.k = v]: an existing property keeps its place, a new one is added
    last. *)
Fixpoint set (k : string) (v : value) (ps : props) : props :=
  match ps with
  | [] => [(k, v)]
  | (k', v') :: rest =>
      if (k =? k') then (k, v) :: rest else (k', v') :: set k v rest
  end.

(** [delete o.k]. *)
Definition del (k : string) (ps : props) : props :=
  List.filter (fun kv => negb (fst kv =? k)) ps.

Definition keys (ps : props) : list string := List.map fst ps.

(** An object has each key once. *)
Fixpoint unique_keys (ps : props) : bool :=
  match ps with
  | [] => true
  | (k, _) :: rest =>
      negb (existsb (String.eqb k) (keys rest)) && unique_keys rest
  end.

(** [v.k] for a property name [k] that is not an array index: reading a
    property of [undefined] or [null] throws; arrays and primitives have no
    such own property. *)
Definition prop_read (v : value) (k : string) : result value :=
  match v with
  | VUndefined | VNull => Throw TypeError
  | VObj ps | VEnt _ _ ps => Ok (get k ps)
  | _ => Ok VUndefined
  end.

(** [v.length], as a number when there is one.  Arrays and strings have a
    length; objects that carry a property named [length] of their own are
    outside the model and read as having none. *)
Definition js_length (v : value) : result (option nat) :=
  match v with
  | VUndefined | VNull => Throw TypeError
  | VArr xs => Ok (Some (List.length xs))
  | VStr s => Ok (Some (String.length s))
  | _ => Ok None
  end.

(** [arr.push(x)] *)
Definition push (x : value) (arr : value) : result value :=
  match arr with
  | VArr xs => Ok (VArr (xs ++ [x]))
  | _ => Throw TypeError
  end.

(** [arr.filter(f)] *)
Definition js_filter (f : value -> bool) (arr : value) : result value :=
  match arr with
  | VArr xs => Ok (VArr (List.filter f xs))
  | _ => Throw TypeError
  end.

(** The key of array index [i]. *)
Definition index_key (i : nat) : string :=
  NilEmpty.string_of_uint (Nat.to_uint i).

Fixpoint indexed (i : nat) (xs : list value) : props :=
  match xs with
  | [] => []
  | x :: rest => (index_key i, x) :: indexed (S i) rest
  end.

Fixpoint chars (s : string) : list value :=
  match s with
  | EmptyString => []
  | String c rest => VStr (String c EmptyString) :: chars rest
  end.

(** The elements that [...v] spreads: those of an array, the characters
    of a string; nothing else that occurs here is iterable. *)
Definition iterate (v : value) : result (list value) :=
  match v with
  | VArr xs => Ok xs
  | VStr s => Ok (chars s)
  | _ => Throw TypeError
  end.

(** [[...a, ...b]] *)
Definition spread2 (a b : value) : result value :=
  rbind (iterate a) (fun xs =>
  rbind (iterate b) (fun ys =>
  Ok (VArr (xs ++ ys)))).

(** [Object.entries(v)] for a value that is neither [undefined] nor
    [null]. *)
Definition entries (v : value) : props :=
  match v with
  | VObj ps | VEnt _ _ ps => ps
  | VArr xs => indexed 0 xs
  | VStr s => indexed 0 (chars s)
  | _ => []
  end.

(** Values without entity instances: parsed JSON. *)
Fixpoint is_json (v : value) : bool :=
  match v with
  | VEnt _ _ _ => false
  | VArr xs => forallb is_json xs
  | VObj ps => forallb (fun kv => is_json (snd kv)) ps
  | _ => true
  end.

(** Deep equality as the test-suite uses it ([to.deep.equal]): arrays
    element by element, plain objects key by key whatever the order of the
    keys. *)
Inductive deep_eq : value -> value -> Prop :=
| deep_eq_same v : deep_eq v v
| deep_eq_arr xs ys :
    Forall2 deep_eq xs ys -> deep_eq (VArr xs) (VArr ys)
| deep_eq_obj ps qs :
    (forall k, option_Forall2 deep_eq (lookup_prop k ps) (lookup_prop k qs)) ->
    deep_eq (VObj ps) (VObj qs).

End JS.
Export JS.
Local Open Scope js_scope.

(** ** The base class [Entity] *)

Module Entity.

(** Modelled from the spec: the constructor of the base class [Entity]
    ([src/entity/Entity.js] is not among the sources).  Without an
    argument the entity is empty; otherwise every key of the raw value is
    copied unchanged.  The subclasses rely on it: [TransactionEvent] clears
    the raw lists it has just inherited before rebuilding them, and
    [EPCISDocument] reads [@context] straight after [super]. *)
Definition init (entity : value) : props :=
  if truthy entity
  then fold_left (fun this kv => set (fst kv) (snd kv) this) (entries entity) []
  else [].

(** Modelled from the spec: what [Entity.toObject] stores in the output
    for a property value: an entity is serialized in turn, the entities of
    an array likewise, anything else passes through unchanged. *)
Fixpoint plain (v : value) : value :=
  match v with
  | VEnt _ _ ps => VObj (List.map (fun kv => (fst kv, plain (snd kv))) ps)
  | VArr xs =>
      VArr (List.map (fun e => match e with
                               | VEnt _ _ _ => plain e
                               | _ => e
                               end) xs)
  | _ => v
  end.

(** Modelled from the spec: [Entity.toObject], a plain object with the
    keys of [this] in their order. *)
Definition toObject (this : props) : props :=
  List.map (fun kv => (fst kv, plain (snd kv))) this.

(** [v.toObject()] on a value: only entities have the method. *)
Definition call_toObject (v : value) : result value :=
  match v with
  | VEnt _ _ ps => Ok (VObj (toObject ps))
  | _ => Throw TypeError
  end.

End Entity.

(** ** List fields

    Every list field of every entity comes with the same accessors,
    written out once per field in the sources ([addEPC], [clearEPCList],
    [removeEPC], [getEPCList], [addEvent], ...).  [field] is the name of
    the property. *)

Module ListField.
Section Accessors.
Variable field : string.

(** [if (!this.f) { this.f = []; } this.f.push(x); return this;] *)
Definition add (x : value) (this : props) : result props :=
  let this := if truthy (get field this) then this
              else set field (VArr []) this in
  xs <- push x (get field this) ;;
  Ok (set field xs this).

(** [if (!this.f) { this.f = []; } this.f = [...this.f, ...xs];] *)
Definition addAll (xs : value) (this : props) : result props :=
  let this := if truthy (get field this) then this
              else set field (VArr []) this in
  l <- spread2 (get field this) xs ;;
  Ok (set field l this).

(** [delete this.f; return this;] *)
Definition clear (this : props) : props := del field this.

(** [this.f = this.f.filter((elem) => elem !== x); return this;] *)
Definition remove (x : value) (this : props) : result props :=
  xs <- js_filter (fun elem => negb (strict_eq elem x)) (get field this) ;;
  Ok (set field xs this).

(** [return this.f;] *)
Definition getList (this : props) : value := get field this.

(** [xs.forEach((x) => this.remove(x)); return this;] *)
Fixpoint removeEach (xs : list value) (this : props) : result props :=
  match xs with
  | [] => Ok this
  | x :: rest => this <- remove x this ;; removeEach rest this
  end.

Definition removeAll (xs : value) (this : props) : result props :=
  match xs with
  | VArr xs => removeEach xs this
  | _ => Throw TypeError
  end.
End Accessors.
End ListField.

(** ** [TransactionEvent]: the accessors of [epcList] *)

Module TransactionEvent.
Definition addEPC := ListField.add "epcList".
Definition addEPCList := ListField.addAll "epcList".
Definition clearEPCList := ListField.clear "epcList".
Definition removeEPC := ListField.remove "epcList".
Definition getEPCList := ListField.getList "epcList".
(** [toObject] is inherited from [Entity]. *)
Definition toObject (this : props) : value := VObj (Entity.toObject this).

Definition removeEPCList := ListField.removeAll "epcList".

Definition addBizTransaction := ListField.add "bizTransactionList".
Definition clearBizTransactionList := ListField.clear "bizTransactionList".
Definition addQuantity := ListField.add "quantityList".
Definition clearQuantityList := ListField.clear "quantityList".
Definition addSource := ListField.add "sourceList".
Definition clearSourceList := ListField.clear "sourceList".
Definition addDestination := ListField.add "destinationList".
Definition clearDestinationList := ListField.clear "destinationList".
Definition addSensorElement := ListField.add "sensorElementList".
Definition clearSensorElementList := ListField.clear "sensorElementList".

Definition setPersistentDisposition (persistentDisposition : value)
    (this : props) : props :=
  set "persistentDisposition" persistentDisposition this.

Section Constructor.
(** The superclass [Event] and the value-object classes are not among the
    sources.  [newEvent raw] stands for [super(raw)] and gives the own
    properties that the constructor of [Event] leaves; the other
    parameters stand for [new C(raw)], and [readPointOfId id] and
    [bizLocationOfId id] for [new ReadPoint().setId(id)] and
    [new BizLocation().setId(id)]. *)
Variable newEvent : value -> M props.
Variables newBizTransactionElement newQuantityElement : value -> M value.
Variables newPersistentDisposition newSourceElement : value -> M value.
Variables newDestinationElement newSensorElement : value -> M value.
Variables newReadPoint newBizLocation : value -> M value.
Variables readPointOfId bizLocationOfId : value -> M value.

(** [setReadPoint], lines 358-366: a string is the id of the read point. *)
Definition setReadPoint (readPoint : value) (this : props) : M props :=
  match readPoint with
  | VStr _ =>
      rp <~ readPointOfId readPoint ;;
      ret (set "readPoint" rp this)
  | _ => ret (set "readPoint" readPoint this)
  end.

(** [setBizLocation], lines 381-389. *)
Definition setBizLocation (bizLocation : value) (this : props) : M props :=
  match bizLocation with
  | VStr _ =>
      bl <~ bizLocationOfId bizLocation ;;
      ret (set "bizLocation" bl this)
  | _ => ret (set "bizLocation" bizLocation this)
  end.

(** [value.forEach((x) => this.add(make(x)))], the shape of the cases of
    the list fields. *)
Definition addEach (field : string) (make : value -> M value)
    (value : value) (this : props) : M props :=
  match value with
  | VArr xs =>
      forEach (fun this x => e <~ make x ;; lift (ListField.add field e this))
              xs this
  | _ => lift (Throw TypeError)
  end.

(** The body of the [forEach] over [Object.entries(transactionEvent)],
    lines 34-68. *)
Definition constructor_case (this : props) (entry : string * value)
  : M props :=
  let '(key, value) := entry in
  if key =? "bizTransactionList" then
    addEach "bizTransactionList" newBizTransactionElement value this
  else if key =? "epcList" then addEach "epcList" ret value this
  else if key =? "quantityList" then
    addEach "quantityList" newQuantityElement value this
  else if key =? "persistentDisposition" then
    p <~ newPersistentDisposition value ;;
    ret (setPersistentDisposition p this)
  else if key =? "sourceList" then
    addEach "sourceList" newSourceElement value this
  else if key =? "destinationList" then
    addEach "destinationList" newDestinationElement value this
  else if key =? "sensorElementList" then
    addEach "sensorElementList" newSensorElement value this
  else if key =? "readPoint" then
    rp <~ newReadPoint value ;;
    setReadPoint rp this
  else if key =? "bizLocation" then
    bl <~ newBizLocation value ;;
    setBizLocation bl this
  else ret this.

(** The cases of the [switch] that loop over an array, lines 36-58: the
    key, and what is made of each element before it is added ([epcList]
    adds the element itself). *)
Definition list_fields : list (string * (value -> M value)) :=
  [("bizTransactionList", newBizTransactionElement);
   ("epcList", ret);
   ("quantityList", newQuantityElement);
   ("sourceList", newSourceElement);
   ("destinationList", newDestinationElement);
   ("sensorElementList", newSensorElement)].

(** The keys that the [switch] has a case for. *)
Definition handled (k : string) : Prop :=
  In k ["bizTransactionList"; "epcList"; "quantityList";
        "persistentDisposition"; "sourceList"; "destinationList";
        "sensorElementList"; "readPoint"; "bizLocation"].

(** Lines 26-31: the lists inherited from [super] are dropped. *)
Definition cleared (this : props) : props :=
  clearSensorElementList
    (clearDestinationList
       (clearSourceList
          (clearQuantityList
             (clearEPCList (clearBizTransactionList this))))).

(** [new TransactionEvent(transactionEvent)], lines 18-69; no argument is
    [VUndefined]. *)
Definition new (transactionEvent : value) : M value :=
  oid <~ fresh ;;
  this <~ newEvent transactionEvent ;;
  let this := set "isA" (VStr "TransactionEvent") this in
  if negb (truthy transactionEvent) then ret (VEnt oid "TransactionEvent" this)
  else
    this <~ forEach constructor_case (entries transactionEvent)
                    (cleared this) ;;
    ret (VEnt oid "TransactionEvent" this).
End Constructor.
End TransactionEvent.

(** ** [EPCISDocument] *)

(** The settings collaborator ([src/settings]) and the clock read by
    [new Date().toISOString()]. *)
Record settings : Type := {
  useEventListByDefault : value;
  EPCISDocumentContext : value;
  EPCISDocumentSchemaVersion : value;
  nowISOString : string
}.

Module EPCISDocument.

Definition setContext (context : value) (this : props) : props :=
  set "@context" context this.
Definition getContext (this : props) : value := get "@context" this.

Definition setSchemaVersion (schemaVersion : value) (this : props) : props :=
  set "schemaVersion" schemaVersion this.
Definition getSchemaVersion (this : props) : value := get "schemaVersion" this.

Definition setCreationDate (creationDate : value) (this : props) : props :=
  set "creationDate" creationDate this.
Definition getCreationDate (this : props) : value := get "creationDate" this.

Definition setUseEventListByDefault (b : value) (this : props) : props :=
  set "useEventListByDefault" b this.
Definition getUseEventListByDefault (this : props) : value :=
  get "useEventListByDefault" this.

Definition setEPCISHeader (epcisHeader : value) (this : props) : props :=
  set "epcisHeader" epcisHeader this.
Definition getEPCISHeader (this : props) : value := get "epcisHeader" this.

Definition addEvent := ListField.add "eventList".
Definition addEventList := ListField.addAll "eventList".
Definition clearEventList := ListField.clear "eventList".
Definition removeEvent := ListField.remove "eventList".
Definition getEventList := ListField.getList "eventList".
Definition removeEventList := ListField.removeAll "eventList".

Definition setIsA (isA : value) (this : props) : props := set "isA" isA this.
Definition getIsA (this : props) : value := get "isA" this.

Definition setFormat (format : value) (this : props) : props :=
  set "format" format this.
Definition getFormat (this : props) : value := get "format" this.

(** [this.eventList[0]] once [this.eventList.length] is known to be
    positive. *)
Definition first (v : value) : value :=
  match v with
  | VArr (x :: _) => x
  | VStr (String c _) => VStr (String c EmptyString)
  | _ => VUndefined
  end.

(** [toObject], lines 265-289. *)
Definition toObject (this : props) : result value :=
  let output := Entity.toObject this in
  let output := del "useEventListByDefault" output in
  output <-
    (if negb (truthy (get "useEventListByDefault" this)) then
       len <- js_length (get "eventList" this) ;;
       match len with
       | Some n =>
           if (n <? 2)%nat then
             let output := del "eventList" output in
             event <- (if (0 <? n)%nat
                       then Entity.call_toObject (first (get "eventList" this))
                       else Ok (VObj [])) ;;
             Ok (set "event" event output)
           else Ok output
       | None => Ok output
       end
     else Ok output) ;;
  if truthy (get "event" output) || truthy (get "eventList" output) then
    if truthy (get "event" output) then
      let body := set "event" (get "event" output) [] in
      let output := del "event" output in
      Ok (VObj (set "epcisBody" (VObj body) output))
    else
      let body := set "eventList" (get "eventList" output) [] in
      let output := del "eventList" output in
      Ok (VObj (set "epcisBody" (VObj body) output))
  else Ok (VObj output).

Section Validation.
(** [validateSchema] ([src/schema/validator]) is not among the sources:
    [isValid] is modelled for any validator, which returns or throws. *)
Variable R : Type.
Variable validateSchema : value -> result R.

(** [isValid], lines 257-260. *)
Definition isValid (this : props) : result value :=
  output <- toObject this ;;
  validated <- validateSchema output ;;
  Ok (VBool true).
End Validation.

Section Constructor.
(** [objectToEvent] ([src/utils/entityUtils]) and the constructor of
    [EPCISHeader] are not among the sources: the constructor is modelled
    for any two such functions. *)
Variable objectToEvent : value -> M value.
Variable newEPCISHeader : value -> M value.
Variable env : settings.

(** The body of the [forEach] over [Object.entries(epcisDocument)],
    lines 37-58. *)
Definition constructor_case (this : props) (entry : string * value)
  : M props :=
  let '(key, value) := entry in
  if key =? "isA" then ret (set "isA" value this)
  else if key =? "epcisHeader" then
    h <~ newEPCISHeader value ;;
    ret (setEPCISHeader h this)
  else if key =? "epcisBody" then
    event <~ lift (prop_read value "event") ;;
    if truthy event then
      e <~ objectToEvent event ;;
      lift (addEvent e this)
    else
      eventList <~ lift (prop_read value "eventList") ;;
      if truthy eventList then
        match eventList with
        | VArr events =>
            forEach (fun this event =>
                       e <~ objectToEvent event ;;
                       lift (addEvent e this)) events this
        | _ => lift (Throw TypeError)
        end
      else ret this
  else ret this.

(** The raw events that [constructor_case] reads from the value of
    [epcisBody] and hands to [objectToEvent], in order: the singular
    [event] when it is truthy, else the elements of a truthy
    [eventList]. *)
Definition raw_events (body : value) : result (list value) :=
  event <- prop_read body "event" ;;
  if truthy event then Ok [event]
  else
    eventList <- prop_read body "eventList" ;;
    if truthy eventList then
      match eventList with
      | VArr events => Ok events
      | _ => Throw TypeError
      end
    else Ok [].

(** Lines 15-30 of the constructor: [super], then [isA], the toggle and
    the defaults of the fields that are not truthy. *)
Definition before_loop (epcisDocument : value) : props :=
  let this := Entity.init epcisDocument in
  let this := set "isA" (VStr "EPCISDocument") this in
  let this := setUseEventListByDefault (useEventListByDefault env) this in
  let this := if truthy (getContext this) then this
              else setContext (EPCISDocumentContext env) this in
  let this := if truthy (getSchemaVersion this) then this
              else setSchemaVersion (EPCISDocumentSchemaVersion env) this in
  if truthy (getCreationDate this) then this
  else setCreationDate (VStr (nowISOString env)) this.

(** [new EPCISDocument(epcisDocument)], lines 14-59; no argument is
    [VUndefined]. *)
Definition new (epcisDocument : value) : M value :=
  oid <~ fresh ;;
  let this := before_loop epcisDocument in
  if negb (truthy epcisDocument) then ret (VEnt oid "EPCISDocument" this)
  else
    this <~ forEach constructor_case (entries epcisDocument) this ;;
    ret (VEnt oid "EPCISDocument" this).
End Constructor.

End EPCISDocument.

(** ** The collaborators that are not among the sources *)

Module Model.

(** Event-type discriminators recognized. *)
Definition eventTypes : list string :=
  ["ObjectEvent"; "AggregationEvent"; "TransactionEvent";
   "TransformationEvent"; "AssociationEvent"].

(** Modelled from the spec: the discriminator of a raw value, [type],
    falling back to the legacy [isA]. *)
Definition discriminator (raw : value) : value :=
  match prop_read raw "type" with
  | Ok t => if truthy t then t
            else match prop_read raw "isA" with
                 | Ok a => a
                 | Throw _ => VUndefined
                 end
  | Throw _ => VUndefined
  end.

(** Modelled from the spec: [objectToEvent] ([src/utils/entityUtils] is
    not among the sources).  The discriminator selects one of the five
    event classes, or the call fails with [UnknownEventType].  The event is
    built as the constructor of [TransactionEvent] starts: the keys of the
    raw value are copied and [isA] is set to the name of the class; the
    value-object classes are not among the sources and the nested values
    stay raw. *)
Definition objectToEvent (raw : value) : M value :=
  match discriminator raw with
  | VStr t =>
      if existsb (String.eqb t) eventTypes then
        oid <~ fresh ;;
        ret (VEnt oid t (set "isA" (VStr t) (Entity.init raw)))
      else lift (Throw UnknownEventType)
  | _ => lift (Throw UnknownEventType)
  end.

(** Modelled from the spec: the constructor of [EPCISHeader], an opaque
    sub-entity that copies the keys of the raw value. *)
Definition newEPCISHeader (raw : value) : M value :=
  oid <~ fresh ;;
  ret (VEnt oid "EPCISHeader" (Entity.init raw)).

(** The settings of the test-suite: [useEventListByDefault] is on, the
    schema version is 2. *)
Definition defaultSettings : settings := {|
  useEventListByDefault := VBool true;
  EPCISDocumentContext := VStr "https://id.gs1.org/epcis-context.jsonld";
  EPCISDocumentSchemaVersion := VNum 2;
  nowISOString := "2021-03-01T00:00:00.000Z"
|}.

(** [setup({ useEventListByDefault: false })] *)
Definition singleEventSettings : settings := {|
  useEventListByDefault := VBool false;
  EPCISDocumentContext := EPCISDocumentContext defaultSettings;
  EPCISDocumentSchemaVersion := EPCISDocumentSchemaVersion defaultSettings;
  nowISOString := nowISOString defaultSettings
|}.

Definition newDocument (env : settings) : value -> M value :=
  EPCISDocument.new objectToEvent newEPCISHeader env.

(** Modelled from the spec: the constructor of [Event], which leaves the
    keys that [Entity] copies from the raw value. *)
Definition newEvent (raw : value) : M props := ret (Entity.init raw).

(** Modelled from the spec: the constructor of a value-object class
    [cls], an opaque sub-entity that copies the keys of the raw value. *)
Definition newValueObject (cls : string) (raw : value) : M value :=
  oid <~ fresh ;;
  ret (VEnt oid cls (Entity.init raw)).

(** Modelled from the spec: [new C().setId(id)]. *)
Definition valueObjectOfId (cls : string) (id : value) : M value :=
  oid <~ fresh ;;
  ret (VEnt oid cls [("id", id)]).

Definition newTransactionEvent : value -> M value :=
  TransactionEvent.new newEvent
    (newValueObject "BizTransactionElement") (newValueObject "QuantityElement")
    (newValueObject "PersistentDisposition") (newValueObject "SourceElement")
    (newValueObject "DestinationElement") (newValueObject "SensorElement")
    (newValueObject "ReadPoint") (newValueObject "BizLocation")
    (valueObjectOfId "ReadPoint") (valueObjectOfId "BizLocation").

End Model.

(** ** The accessors as the specification words them *)

Module Spec.

(** Structural equality: same shape and same content, whatever the
    identity of the objects compared. *)
Fixpoint struct_eqb (a b : value) {struct a} : bool :=
  let fix all2 (ps qs : list (string * value)) {struct ps} : bool :=
    match ps, qs with
    | [], [] => true
    | (k, x) :: ps', (k', y) :: qs' =>
        (k =? k') && struct_eqb x y && all2 ps' qs'
    | _, _ => false
    end in
  match a, b with
  | VUndefined, VUndefined => true
  | VNull, VNull => true
  | VBool x, VBool y => Bool.eqb x y
  | VNum x, VNum y => (x =? y)%Z
  | VStr x, VStr y => (x =? y)
  | VArr xs, VArr ys =>
      (fix elems (xs ys : list value) {struct xs} : bool :=
         match xs, ys with
         | [], [] => true
         | x :: xs', y :: ys' => struct_eqb x y && elems xs' ys'
         | _, _ => false
         end) xs ys
  | VObj ps, VObj qs => all2 ps qs
  | VEnt _ c ps, VEnt _ c' qs => (c =? c') && all2 ps qs
  | _, _ => false
  end.

(** "drop the first structurally-equal element; no-op, not an error, if
    absent" *)
Fixpoint remove_first (e : value) (xs : list value) : list value :=
  match xs with
  | [] => []
  | x :: rest => if struct_eqb x e then rest else x :: remove_first e rest
  end.

End Spec.

(** ** Sample entities *)

Module Samples.

Definition epc2020 : value := VStr "urn:epc:id:sgtin:0614141.107346.2020".
Definition epc2021 : value := VStr "urn:epc:id:sgtin:0614141.107346.2021".

(** A transaction event to which the same EPC was added twice. *)
Definition repeatedEPC : props :=
  [("isA", VStr "TransactionEvent");
   ("epcList", VArr [epc2020; epc2021; epc2020])].

(** Two [new ObjectEvent()] instances with the same content. *)
Definition objectEvent (oid : loc) : value :=
  VEnt oid "ObjectEvent"
       [("isA", VStr "ObjectEvent"); ("action", VStr "OBSERVE")].

(** [new EPCISDocument()] under the settings of [Model] with the toggle
    [toggle], before any event is added. *)
Definition emptyDocument (toggle : bool) : props :=
  [("isA", VStr "EPCISDocument");
   ("useEventListByDefault", VBool toggle);
   ("@context", VStr "https://id.gs1.org/epcis-context.jsonld");
   ("schemaVersion", VNum 2);
   ("creationDate", VStr "2021-03-01T00:00:00.000Z")].

(** The same document after [addEvent] of each of [events]. *)
Definition documentWith (toggle : bool) (events : list value) : props :=
  (emptyDocument toggle ++ [("eventList", VArr events)])%list.

(** Two raw events. *)
Definition rawObjectEvent : value :=
  VObj [("isA", VStr "ObjectEvent"); ("action", VStr "OBSERVE")].
Definition rawTransactionEvent : value :=
  VObj [("isA", VStr "TransactionEvent"); ("action", VStr "ADD")].

(** A body in which [event] is present and [null]. *)
Definition nullEventBody : value :=
  VObj [("epcisBody",
         VObj [("event", VNull);
               ("eventList", VArr [rawObjectEvent; rawTransactionEvent])])].

(** A body with both [event] and [eventList]. *)
Definition bothBody : value :=
  VObj [("epcisBody",
         VObj [("event", rawTransactionEvent);
               ("eventList", VArr [rawObjectEvent; rawObjectEvent])])].

(** A raw document with a header, two events and an extension field. *)
Definition exampleDocument : value :=
  VObj [("@context", VStr "https://id.gs1.org/epcis-context.jsonld");
        ("isA", VStr "EPCISDocument");
        ("schemaVersion", VNum 2);
        ("creationDate", VStr "2005-07-11T11:30:47+00:00");
        ("format", VStr "application/ld+json");
        ("epcisHeader", VObj [("epcisMasterData", VObj [])]);
        ("epcisBody",
         VObj [("eventList", VArr [rawObjectEvent; rawTransactionEvent])]);
        ("example:batch", VArr [VNum 1; VObj [("example:lot", VNull)]])].

(** The head of the documents of [test/validator.spec.js]: the three
    defaulted fields are given, the discriminator is [type] and there is
    no [isA]. *)
Definition typedDocument : value :=
  VObj [("type", VStr "EPCISDocument");
        ("schemaVersion", VStr "2.0");
        ("creationDate", VStr "2005-07-11T11:30:47.0Z");
        ("@context",
         VArr [VStr "https://gs1.github.io/EPCIS/epcis-context.jsonld"])].

(** A raw document in which two defaulted fields are present and falsy. *)
Definition falsyFields : value :=
  VObj [("@context", VStr ""); ("schemaVersion", VNum 0);
        ("creationDate", VStr "2005-07-11T11:30:47+00:00")].

(** A raw transaction event: a wrong [isA], an empty [quantityList], an
    extension. *)
Definition rawTransaction : value :=
  VObj [("isA", VStr "ObjectEvent");
        ("action", VStr "ADD");
        ("epcList", VArr [epc2020; epc2021]);
        ("quantityList", VArr []);
        ("sourceList",
         VArr [VObj [("type", VStr "urn:epcglobal:cbv:sdt:owning_party");
                     ("source", VStr "urn:epc:id:pgln:9520001.11111")]]);
        ("readPoint",
         VObj [("id", VStr "urn:epc:id:sgln:0614141.07346.1234")]);
        ("example:lot", VNum 7)].

End Samples.

(** ** The loop of the constructor, in terms of what it is given and
    what it leaves *)

Module Loop.
Section Conditions.
Variables objectToEvent newEPCISHeader : value -> M value.
Variables builtEvent builtHeader : value -> value -> Prop.

(** The header and the events of the raw entries can be built, and no
    list of events exists yet when there is a body. *)
Definition pre (entries this : props) : Prop :=
  (forall h, lookup_prop "epcisHeader" entries = Some h ->
             builds newEPCISHeader builtHeader h) /\
  (forall body, lookup_prop "epcisBody" entries = Some body ->
     lookup_prop "eventList" this = None /\
     exists events,
       EPCISDocument.raw_events body = Ok events /\
       Forall (builds objectToEvent builtEvent) events).

(** The properties of [this'], the entity after the loop, from those of
    [this], the entity before the loop. *)
Definition post (entries this this' : props) : Prop :=
  (forall k, k <> "isA" -> k <> "epcisHeader" -> k <> "eventList" ->
             lookup_prop k this' = lookup_prop k this) /\
  lookup_prop "isA" this'
    = match lookup_prop "isA" entries with
      | Some v => Some v
      | None => lookup_prop "isA" this
      end /\
  match lookup_prop "epcisHeader" entries with
  | Some h => exists H, lookup_prop "epcisHeader" this' = Some H /\
                        builtHeader h H
  | None => lookup_prop "epcisHeader" this' = lookup_prop "epcisHeader" this
  end /\
  match lookup_prop "epcisBody" entries with
  | Some body =>
      exists events built,
        EPCISDocument.raw_events body = Ok events /\
        Forall2 builtEvent events built /\
        lookup_prop "eventList" this'
          = match events with
            | [] => None
            | _ => Some (VArr built)
            end
  | None => lookup_prop "eventList" this' = lookup_prop "eventList" this
  end.
End Conditions.
End Loop.

(** ** Raw documents that survive a round trip *)

Module RoundTrip.

(** The entity built from [raw] serializes back to [raw]. *)
Definition roundtrips (raw built : value) : Prop :=
  is_entity built = true /\ deep_eq (Entity.plain built) raw.

(** The shapes of [epcisBody] that the constructor and [toObject] give
    back under the toggle [toggle]: no body and the toggle on; a body
    without events and the toggle on; a list of events that is not empty,
    with the toggle on or at least two events; a single event with the
    toggle off. *)
Inductive supported_body (objectToEvent : value -> M value)
    (toggle : value) : option value -> Prop :=
| body_absent :
    truthy toggle = true ->
    supported_body objectToEvent toggle None
| body_without_events body :
    truthy toggle = true ->
    EPCISDocument.raw_events body = Ok [] ->
    supported_body objectToEvent toggle (Some body)
| body_eventList events :
    events <> [] ->
    truthy toggle = true \/ (2 <= List.length events)%nat ->
    Forall (builds objectToEvent roundtrips) events ->
    supported_body objectToEvent toggle
      (Some (VObj [("eventList", VArr events)]))
| body_event event :
    truthy toggle = false ->
    truthy event = true ->
    builds objectToEvent roundtrips event ->
    supported_body objectToEvent toggle (Some (VObj [("event", event)])).

End RoundTrip.

(** ** The validation engine

    [src/schema/validator.js] and the schema catalog are not among the
    sources: the engine is modelled from the specification, for any
    catalog. *)

Module Validator.
Local Open Scope list_scope.

(** Modelled from the spec: a key is namespace-qualified when it reads
    [prefix:localName], with exactly one colon, a prefix and a local name
    that are not empty. *)
Fixpoint split_colon (s : string) : option (string * string) :=
  match s with
  | EmptyString => None
  | String c rest =>
      if Ascii.eqb c ":"%char then Some (EmptyString, rest)
      else match split_colon rest with
           | Some (prefix, name) => Some (String c prefix, name)
           | None => None
           end
  end.

Definition qualified (key : string) : option (string * string) :=
  match split_colon key with
  | Some (prefix, name) =>
      match split_colon name with
      | Some _ => None
      | None =>
          if (prefix =? "") || (name =? "") then None else Some (prefix, name)
      end
  | None => None
  end.

(** Modelled from the spec: the prefixes that [@context] declares.  A
    mapping gives its keys, a sequence the keys of each of its mappings, a
    string none. *)
Definition mapping_prefixes (v : value) : gset string :=
  match v with
  | VObj ps => list_to_set (keys ps)
  | _ => ∅
  end.

Definition contextPrefixes (context : value) : gset string :=
  match context with
  | VArr xs => ⋃ (List.map mapping_prefixes xs)
  | _ => mapping_prefixes context
  end.

Definition unqualifiedKey (at_ : list string) : violation :=
  {| kind := ExtensionViolation; path := at_;
     message := "extension key is not namespace-qualified" |}.

Definition undeclaredPrefix (at_ : list string) : violation :=
  {| kind := ExtensionViolation; path := at_;
     message := "namespace prefix is not declared in @context" |}.

(** Modelled from the spec: inside an extension subtree every key of
    every object must be namespace-qualified; arrays are visited element
    by element and scalars are accepted. *)
Fixpoint extensionSubtree (at_ : list string) (v : value) : list violation :=
  match v with
  | VObj ps =>
      flat_map (fun kv =>
                  (match qualified (fst kv) with
                   | Some _ => []
                   | None => [unqualifiedKey (at_ ++ [fst kv])]
                   end)
                  ++ extensionSubtree (at_ ++ [fst kv]) (snd kv)) ps
  | VArr xs =>
      (fix elements (i : nat) (xs : list value) : list violation :=
         match xs with
         | [] => []
         | x :: rest =>
             extensionSubtree (at_ ++ [index_key i]) x
             ++ elements (S i) rest
         end) 0%nat xs
  | _ => []
  end.

(** Modelled from the spec: a foreign key must be namespace-qualified and
    its prefix declared; its value is then an extension subtree. *)
Definition foreignKey (prefixes : gset string) (at_ : list string)
    (key : string) (v : value) : list violation :=
  match qualified key with
  | None => [unqualifiedKey at_]
  | Some (prefix, _) =>
      if bool_decide (prefix ∈ prefixes) then extensionSubtree at_ v
      else [undeclaredPrefix at_]
  end.

(** Runs a check on every element and accumulates the violations; a
    check that throws aborts the whole. *)
Definition collect {A} (check : A -> result (list violation))
  : list A -> result (list violation) :=
  fix go (xs : list A) : result (list violation) :=
    match xs with
    | [] => Ok []
    | x :: rest =>
        here <- check x ;;
        there <- go rest ;;
        Ok (here ++ there)
    end.

(** The same with the index of each element. *)
Definition collect_indexed {A} (check : nat -> A -> result (list violation))
  : nat -> list A -> result (list violation) :=
  fix go (i : nat) (xs : list A) : result (list violation) :=
    match xs with
    | [] => Ok []
    | x :: rest =>
        here <- check i x ;;
        there <- go (S i) rest ;;
        Ok (here ++ there)
    end.

(** The two parts of the keys of a node. *)
Record partition : Type := { known : list string; foreign : list string }.

Inductive mode : Type := Collect | Assert.

Record report : Type := { success : bool; errors : list violation }.

(** Document-type discriminators recognized. *)
Definition documentTypes : list string :=
  ["EPCISDocument"; "EPCISQueryDocument"; "EPCISMasterDataDocument"].

Section Engine.
(** The catalog of schemas, with the structural check that a schema
    declares, and the catalog of field sets. *)
Variable Schema : Type.
Variable conforms : Schema -> value -> list violation.
Variable schemas : gmap string Schema.
Variable fieldSets : gmap string (gset string).

(** The name of the field set of the node found under a known key of a
    node of field set [N], when that node is a structured node with a
    field set of its own (each element of [sensorElementList] has the
    field set [SensorElement]; an event has that of its type). *)
Variable nodeFieldSet : string -> string -> value -> option string.

(** Modelled from the spec: [validateAgainstSchema(value, schemaName)]. *)
Definition validateAgainstSchema (v : value) (schemaName : string)
  : result (list violation) :=
  match schemas !! schemaName with
  | None => Throw UnknownSchemaError
  | Some schema => Ok (conforms schema v)
  end.

(** Modelled from the spec: [ensureFieldSet(value, fieldSetName)]. *)
Definition ensureFieldSet (v : value) (fieldSetName : string)
  : result partition :=
  match fieldSets !! fieldSetName with
  | None => Throw UnknownFieldSetError
  | Some fieldSet =>
      let own := match v with
                 | VObj ps => keys ps
                 | _ => []
                 end in
      Ok {| known := List.filter (fun k => bool_decide (k ∈ fieldSet)) own;
            foreign :=
              List.filter (fun k => negb (bool_decide (k ∈ fieldSet))) own |}
  end.

(** Modelled from the spec: the recursive descent of the extension
    validator at a node of field set [N].  Known keys that lead to a
    node with a field set of its own are descended into, arrays element
    by element; then every foreign key is checked.  Violations
    accumulate; only an unknown field-set name aborts. *)
Fixpoint validateNode (prefixes : gset string) (N : string)
    (at_ : list string) (node : value) {struct node}
  : result (list violation) :=
  parts <- ensureFieldSet node N ;;
  match node with
  | VObj ps =>
      below <-
        collect
          (fun kv =>
             if existsb (String.eqb (fst kv)) (known parts) then
               match snd kv with
               | VArr xs =>
                   collect_indexed
                     (fun i x =>
                        match nodeFieldSet N (fst kv) x with
                        | Some C =>
                            validateNode prefixes C
                              (at_ ++ [fst kv; index_key i]) x
                        | None => Ok []
                        end) 0%nat xs
               | _ =>
                   match nodeFieldSet N (fst kv) (snd kv) with
                   | Some C =>
                       validateNode prefixes C (at_ ++ [fst kv]) (snd kv)
                   | None => Ok []
                   end
               end
             else Ok []) ps ;;
      Ok (below ++
          flat_map (fun kv =>
                      if existsb (String.eqb (fst kv)) (foreign parts)
                      then foreignKey prefixes (at_ ++ [fst kv])
                                      (fst kv) (snd kv)
                      else []) ps)
  | _ => Ok []
  end.

(** Modelled from the spec: the document-level discriminator names one
    of the registered document schemas. *)
Definition resolveDocumentType (doc : value) : option string :=
  match Model.discriminator doc with
  | VStr t =>
      if existsb (String.eqb t) documentTypes
         && bool_decide (is_Some (schemas !! t))
      then Some t else None
  | _ => None
  end.

(** Modelled from the spec: the discriminator of an event names one of
    the five event types. *)
Definition resolveEventType (event : value) : option string :=
  match Model.discriminator event with
  | VStr t => if existsb (String.eqb t) Model.eventTypes then Some t else None
  | _ => None
  end.

(** Modelled from the spec: the events of the body, in singular or plural
    form. *)
Definition bodyEvents (doc : value) : list value :=
  match prop_read doc "epcisBody" with
  | Ok (VObj body) =>
      match get "event" body, get "eventList" body with
      | VObj e, _ => [VObj e]
      | _, VArr events => events
      | _, _ => []
      end
  | _ => []
  end.

(** Modelled from the spec: the structural check of each event against
    the schema of its type. *)
Definition validateEvents (events : list value) : result (list violation) :=
  collect (fun event =>
             match resolveEventType event with
             | Some T => validateAgainstSchema event T
             | None => Throw UnknownEventType
             end) events.

(** Modelled from the spec: [validateEpcisDocument].  The discriminator
    is resolved first; then come the structural check of the document,
    that of each event and the extension validation of the whole tree.
    The collect mode returns the report; the assert mode throws the
    aggregate when there is a violation. *)
Definition validateEpcisDocument (m : mode) (doc : value) : result report :=
  match resolveDocumentType doc with
  | None => Throw UnknownDocumentType
  | Some T =>
      structural <- validateAgainstSchema doc T ;;
      events <- validateEvents (bodyEvents doc) ;;
      extensions <-
        validateNode
          (contextPrefixes (match prop_read doc "@context" with
                            | Ok context => context
                            | Throw _ => VUndefined
                            end))
          T [] doc ;;
      match structural ++ events ++ extensions, m with
      | [], _ => Ok {| success := true; errors := [] |}
      | errs, Collect => Ok {| success := false; errors := errs |}
      | errs, Assert => Throw (ValidationError errs)
      end
  end.

(** The nodes that the descent visits from a node [node] of field set
    [N] found at the path [at_], each with the path at which it is
    visited: [node] itself, and what is visited from the structured nodes
    under its known keys, the elements of an array under their index. *)
Inductive visits
  : string -> list string -> value -> string -> list string -> value -> Prop :=
| visits_here N at_ node : visits N at_ node N at_ node
| visits_field N at_ fields fieldSet k v C N' at' node' :
    fieldSets !! N = Some fieldSet ->
    In (k, v) fields ->
    k ∈ fieldSet ->
    (forall xs, v <> VArr xs) ->
    nodeFieldSet N k v = Some C ->
    visits C (at_ ++ [k]) v N' at' node' ->
    visits N at_ (VObj fields) N' at' node'
| visits_element N at_ fields fieldSet k xs i x C N' at' node' :
    fieldSets !! N = Some fieldSet ->
    In (k, VArr xs) fields ->
    k ∈ fieldSet ->
    nth_error xs i = Some x ->
    nodeFieldSet N k x = Some C ->
    visits C (at_ ++ [k; index_key i]) x N' at' node' ->
    visits N at_ (VObj fields) N' at' node'.
End Engine.

End Validator.

(** ** A catalog and documents to run the engine on *)

Module Catalog.

(** Structural schemas are opaque: this catalog registers the names of
    the document and of the event schemas, with schemas that accept
    everything. *)
Definition schemas : gmap string unit :=
  list_to_map
    (List.map (fun name => (name, tt))
              (Validator.documentTypes ++ Model.eventTypes)%list).

Definition conforms (schema : unit) (v : value) : list violation := [].

Definition eventFields : gset string :=
  list_to_set
    ["type"; "isA"; "eventID"; "eventTime"; "eventTimeZoneOffset"; "action";
     "bizStep"; "disposition"; "epcList"; "quantityList"; "readPoint";
     "bizLocation"; "bizTransactionList"; "sourceList"; "destinationList";
     "sensorElementList"; "persistentDisposition"; "errorDeclaration"].

Definition documentFields : gset string :=
  list_to_set ["@context"; "type"; "isA"; "schemaVersion"; "creationDate";
               "format"; "epcisHeader"; "epcisBody"].

Definition bodyFields : gset string := list_to_set ["event"; "eventList"].

Definition sensorElementFields : gset string :=
  list_to_set ["sensorMetadata"; "sensorReport"].

Definition fieldSets : gmap string (gset string) :=
  list_to_map
    [("EPCISDocument", documentFields);
     ("EPCISBody", bodyFields);
     ("ObjectEvent", eventFields);
     ("SensorElement", sensorElementFields);
     ("ReadPoint", list_to_set ["id"]);
     ("BizLocation", list_to_set ["id"])].

Definition nodeFieldSet (N key : string) (node : value) : option string :=
  if key =? "epcisBody" then Some "EPCISBody"
  else if (key =? "event") || (key =? "eventList") then
    match Model.discriminator node with
    | VStr t => Some t
    | _ => None
    end
  else if key =? "sensorElementList" then Some "SensorElement"
  else if key =? "readPoint" then Some "ReadPoint"
  else if key =? "bizLocation" then Some "BizLocation"
  else None.

Definition validateEpcisDocument : Validator.mode -> value -> result Validator.report :=
  Validator.validateEpcisDocument unit conforms schemas fieldSets nodeFieldSet.

(** The sensor element of the test "should reject correct
    sensorElementList with invalid extensions", under the key [key]. *)
Definition sensorElement (key : string) : value :=
  VObj [(key, VArr [VObj [("example:data1", VStr "123.5")];
                    VObj [("example:data2", VStr "0.987")]]);
        ("sensorMetadata", VObj [("time", VStr "2019-04-02T14:55:00.000+01:00")]);
        ("sensorReport",
         VArr [VObj [("type", VStr "gs1:MeasurementType-Temperature");
                     ("value", VNum 26); ("uom", VStr "CEL")]])].

Definition sensorEvent (key : string) : value :=
  VObj [("eventID", VStr "test:event:id");
        ("type", VStr "ObjectEvent");
        ("action", VStr "OBSERVE");
        ("epcList", VArr [VStr "urn:epc:id:sgtin:0614141.107346.2017"]);
        ("eventTime", VStr "2005-04-03T20:33:31.116-06:00");
        ("eventTimeZoneOffset", VStr "-06:00");
        ("readPoint", VObj [("id", VStr "urn:epc:id:sgln:0614141.07346.1234");
                            ("example:extension", VStr "factoryId")]);
        ("sensorElementList", VArr [sensorElement key]);
        ("example:furtherEventData",
         VArr [VObj [("example:data1", VStr "123.5")]])].

Definition sensorDocument (key : string) : value :=
  VObj [("@context",
         VArr [VStr "https://gs1.github.io/EPCIS/epcis-context.jsonld";
               VObj [("example", VStr "http://ns.example.com/epcis/")]]);
        ("type", VStr "EPCISDocument");
        ("schemaVersion", VStr "2.0");
        ("creationDate", VStr "2005-07-11T11:30:47.0Z");
        ("epcisBody", VObj [("eventList", VArr [sensorEvent key])])].

(** [testData.invalid] *)
Definition invalid : value := VObj [("foo", VStr "bar")].

End Catalog.

(** * Properties *)

(** ** Property tables *)

Lemma lookup_set_eq k v ps : lookup_prop k (set k v ps) = Some v.
Proof.
  induction ps as [|[k' v'] ps IH]; simpl.
  - now rewrite String.eqb_refl.
  - destruct (k =? k') eqn:E; simpl; rewrite ?String.eqb_refl, ?E; auto.
Qed.

Lemma lookup_set_ne k k' v ps :
  k <> k' -> lookup_prop k' (set k v ps) = lookup_prop k' ps.
Proof.
  intros Hne. apply String.eqb_neq in Hne.
  assert (Hne' : (k' =? k) = false) by now rewrite String.eqb_sym.
  induction ps as [|[k0 v0] ps IH]; simpl.
  - now rewrite Hne'.
  - destruct (k =? k0) eqn:E; simpl.
    + apply String.eqb_eq in E. subst k0. now rewrite Hne'.
    + now rewrite IH.
Qed.

Lemma lookup_del_eq k ps : lookup_prop k (del k ps) = None.
Proof.
  induction ps as [|[k' v'] ps IH]; simpl; auto.
  destruct (k' =? k) eqn:E; simpl; auto.
  rewrite String.eqb_sym in E. now rewrite E.
Qed.

Lemma lookup_del_ne k k' ps :
  k <> k' -> lookup_prop k' (del k ps) = lookup_prop k' ps.
Proof.
  intros Hne. apply String.eqb_neq in Hne.
  induction ps as [|[k0 v0] ps IH]; simpl; auto.
  destruct (k0 =? k) eqn:E; simpl.
  - apply String.eqb_eq in E. subst k0.
    rewrite String.eqb_sym in Hne. now rewrite Hne.
  - now rewrite IH.
Qed.

Lemma lookup_toObject k ps :
  lookup_prop k (Entity.toObject ps) = option_map Entity.plain (lookup_prop k ps).
Proof.
  induction ps as [|[k' v'] ps IH]; simpl; auto.
  destruct (k =? k'); auto.
Qed.

Lemma get_set_eq k v ps : get k (set k v ps) = v.
Proof. unfold get. now rewrite lookup_set_eq. Qed.

Lemma get_set_ne k k' v ps : k <> k' -> get k' (set k v ps) = get k' ps.
Proof. intros. unfold get. now rewrite lookup_set_ne. Qed.

Lemma get_del_eq k ps : get k (del k ps) = VUndefined.
Proof. unfold get. now rewrite lookup_del_eq. Qed.

Lemma get_del_ne k k' ps : k <> k' -> get k' (del k ps) = get k' ps.
Proof. intros. unfold get. now rewrite lookup_del_ne. Qed.

Lemma get_toObject k ps : get k (Entity.toObject ps) = Entity.plain (get k ps).
Proof. unfold get. rewrite lookup_toObject. now destruct (lookup_prop k ps). Qed.

Lemma get_absent k ps : lookup_prop k ps = None -> get k ps = VUndefined.
Proof. unfold get. now intros ->. Qed.

Lemma get_single k v : get k [(k, v)] = v.
Proof. unfold get. simpl. now rewrite String.eqb_refl. Qed.

Lemma plain_entity v :
  is_entity v = true -> Entity.call_toObject v = Ok (Entity.plain v).
Proof. destruct v; simpl; try discriminate. reflexivity. Qed.

(** Normalizes reads of properties after writes and deletions when the
    property names are literals. *)
Ltac simpl_props :=
  repeat first
    [ rewrite lookup_set_eq | rewrite lookup_del_eq
    | rewrite get_set_eq | rewrite get_del_eq
    | rewrite lookup_toObject | rewrite get_toObject
    | rewrite lookup_set_ne by congruence
    | rewrite lookup_del_ne by congruence
    | rewrite get_set_ne by congruence
    | rewrite get_del_ne by congruence ].

(** ** List fields *)

(** The list kept by [remove] is a sublist in which nothing is identical
    to the removed value. *)
Lemma filter_not_identical e xs :
  forallb (fun x => negb (strict_eq x e))
          (List.filter (fun x => negb (strict_eq x e)) xs) = true.
Proof.
  induction xs as [|x xs IH]; simpl; auto.
  destruct (strict_eq x e) eqn:E; simpl; auto. now rewrite E.
Qed.

Lemma filter_nothing_identical e xs :
  forallb (fun x => negb (strict_eq x e)) xs = true ->
  List.filter (fun x => negb (strict_eq x e)) xs = xs.
Proof.
  induction xs as [|x xs IH]; simpl; auto.
  intros H. apply andb_prop in H as [-> H]. now rewrite IH.
Qed.

(** C3, as amended.  For a removed value that is a primitive or an entity,
    [remove] keeps, in order, exactly the elements that are not identical
    ([===]) to it: every identical element goes, whether there is one or
    several, and when none is identical the list is left as it was and
    nothing is thrown. *)
Theorem remove_drops_every_identical (field : string) (e : value)
    (this : props) (xs : list value) :
  strict_eq e e = true ->
  get field this = VArr xs ->
  exists this',
    ListField.remove field e this = Ok this' /\
    ListField.getList field this' =
      VArr (List.filter (fun x => negb (strict_eq x e)) xs) /\
    (forall x, In x xs -> strict_eq x e = true ->
       ~ In x (List.filter (fun x => negb (strict_eq x e)) xs)) /\
    (forallb (fun x => negb (strict_eq x e)) xs = true ->
       ListField.getList field this' = VArr xs).
Proof.
  intros _ Hget. unfold ListField.remove, ListField.getList.
  rewrite Hget. simpl. eexists. split; [reflexivity|].
  rewrite get_set_eq. split; [reflexivity|]. split.
  - intros x _ Hid Hin. apply filter_In in Hin as [_ Hin].
    now rewrite Hid in Hin.
  - intros Hnone. now rewrite filter_nothing_identical.
Qed.

Lemma remove_drops_every_identical_witness :
  exists this',
    TransactionEvent.removeEPC Samples.epc2020 Samples.repeatedEPC = Ok this' /\
    TransactionEvent.getEPCList this' = VArr [Samples.epc2021] /\
    (forall x, In x [Samples.epc2020; Samples.epc2021; Samples.epc2020] ->
       strict_eq x Samples.epc2020 = true -> ~ In x [Samples.epc2021]) /\
    (false = true -> TransactionEvent.getEPCList this' =
       VArr [Samples.epc2020; Samples.epc2021; Samples.epc2020]).
Proof.
  apply (remove_drops_every_identical "epcList" Samples.epc2020
           Samples.repeatedEPC
           [Samples.epc2020; Samples.epc2021; Samples.epc2020]).
  - reflexivity.
  - reflexivity.
Defined.

(** C3, as stated, fails.  With the same EPC twice in [epcList],
    [removeEPC] removes both where the claim keeps one; and an event that
    is structurally equal to the one in [eventList] but is another
    instance is not removed by [removeEvent], where the claim removes the
    first structurally-equal element. *)
Lemma remove_is_not_remove_first :
  (TransactionEvent.removeEPC Samples.epc2020 Samples.repeatedEPC
     = Ok [("isA", VStr "TransactionEvent"); ("epcList", VArr [Samples.epc2021])] /\
   Spec.remove_first Samples.epc2020
     [Samples.epc2020; Samples.epc2021; Samples.epc2020]
     = [Samples.epc2021; Samples.epc2020]) /\
  (Spec.struct_eqb (Samples.objectEvent 1) (Samples.objectEvent 2) = true /\
   EPCISDocument.removeEvent (Samples.objectEvent 2)
     (Samples.documentWith true [Samples.objectEvent 1])
     = Ok (Samples.documentWith true [Samples.objectEvent 1]) /\
   Spec.remove_first (Samples.objectEvent 2) [Samples.objectEvent 1] = []).
Proof. repeat split; vm_compute; reflexivity. Qed.

(** ** Serialization of the document *)

Lemma toObject_clear_returns (this : props) :
  truthy (get "useEventListByDefault" this) = true ->
  truthy (get "event" this) = false ->
  EPCISDocument.toObject (EPCISDocument.clearEventList this)
  = Ok (VObj (del "useEventListByDefault"
               (Entity.toObject (del "eventList" this)))).
Proof.
  intros Htoggle Hevent.
  unfold EPCISDocument.toObject, EPCISDocument.clearEventList, ListField.clear.
  simpl_props. rewrite Htoggle. simpl. simpl_props.
  assert (Hplain : truthy (Entity.plain (get "event" this)) = false)
    by (destruct (get "event" this); simpl in *; congruence).
  rewrite Hplain. reflexivity.
Qed.

(** C8, as amended.  [clear] deletes the property and no other: it is no
    longer among the own properties of the entity (it is not set to an
    empty list), the getter reads [undefined] and [Entity.toObject] has no
    such key.  For the document, whose [toObject] moves the list into
    [epcisBody], no [eventList] is left in the output after
    [clearEventList], at the top level or under [epcisBody], when the
    document has no own property [epcisBody]; with
    [useEventListByDefault] on it does serialize, to the other fields. *)
Theorem clear_deletes_the_field :
  (forall field this,
     lookup_prop field (ListField.clear field this) = None /\
     ListField.getList field (ListField.clear field this) = VUndefined /\
     lookup_prop field (Entity.toObject (ListField.clear field this)) = None /\
     (forall k, k <> field ->
        lookup_prop k (ListField.clear field this) = lookup_prop k this)) /\
  (forall this,
     TransactionEvent.getEPCList (TransactionEvent.clearEPCList this)
       = VUndefined /\
     exists out,
       TransactionEvent.toObject (TransactionEvent.clearEPCList this)
         = VObj out /\
       lookup_prop "epcList" out = None) /\
  (forall this,
     EPCISDocument.getEventList (EPCISDocument.clearEventList this)
       = VUndefined /\
     (forall out,
        EPCISDocument.toObject (EPCISDocument.clearEventList this) = Ok out ->
        exists ps,
          out = VObj ps /\
          lookup_prop "eventList" ps = None /\
          (lookup_prop "epcisBody" this = None ->
           (forall body,
              lookup_prop "epcisBody" ps = Some body ->
              get "eventList" (entries body) = VUndefined) /\
           (truthy (get "event" this) = false ->
            lookup_prop "epcisBody" ps = None))) /\
     (truthy (get "useEventListByDefault" this) = true ->
      truthy (get "event" this) = false ->
      EPCISDocument.toObject (EPCISDocument.clearEventList this)
      = Ok (VObj (del "useEventListByDefault"
                   (Entity.toObject (del "eventList" this)))))).
Proof.
  split; [|split].
  - intros field this. unfold ListField.clear, ListField.getList.
    repeat split; try now simpl_props.
    intros k Hk. now rewrite lookup_del_ne by congruence.
  - intros this.
    unfold TransactionEvent.getEPCList, TransactionEvent.clearEPCList,
      TransactionEvent.toObject, ListField.clear, ListField.getList.
    simpl_props. split; [reflexivity|].
    eexists; split; [reflexivity|]. now simpl_props.
  - intros this. split; [|split].
    + unfold EPCISDocument.getEventList, EPCISDocument.clearEventList,
        ListField.clear, ListField.getList. now simpl_props.
    + intros out.
      assert (Hplain : truthy (Entity.plain (get "event" this))
                       = truthy (get "event" this))
        by (now destruct (get "event" this)).
      unfold EPCISDocument.toObject, EPCISDocument.clearEventList,
        ListField.clear.
      simpl_props.
      destruct (truthy (get "useEventListByDefault" this)); simpl;
        [|discriminate].
      simpl_props. simpl. rewrite orb_false_r, Hplain.
      destruct (truthy (get "event" this));
        intros [= <-]; eexists; (split; [reflexivity|]);
        (split; [now simpl_props|]); intros Hbody; split.
      * intros body. rewrite lookup_set_eq. now intros [= <-].
      * discriminate.
      * intros body. simpl_props. now rewrite Hbody.
      * intros _. simpl_props. now rewrite Hbody.
    + apply toObject_clear_returns.
Qed.

Lemma clear_deletes_the_field_witness :
  EPCISDocument.toObject
    (EPCISDocument.clearEventList
       (Samples.documentWith true [Samples.objectEvent 1]))
  = Ok (VObj [("isA", VStr "EPCISDocument");
              ("@context", VStr "https://id.gs1.org/epcis-context.jsonld");
              ("schemaVersion", VNum 2);
              ("creationDate", VStr "2021-03-01T00:00:00.000Z")]).
Proof.
  apply (proj2 (proj2 (proj2 (proj2 clear_deletes_the_field)
           (Samples.documentWith true [Samples.objectEvent 1]))));
    reflexivity.
Defined.

(** C8, as stated, fails.  The document built from a raw document keeps
    the raw [epcisBody] among its own properties: after [clearEventList]
    the getter reads [undefined], yet [toObject] gives what it gave
    before, with the two events under [epcisBody.eventList] of the
    serialized output. *)
Lemma clearEventList_keeps_the_raw_body :
  exists built n',
    Model.newDocument Model.defaultSettings Samples.exampleDocument 0
      = Ok (VEnt 0 "EPCISDocument" built, n') /\
    EPCISDocument.getEventList (EPCISDocument.clearEventList built)
      = VUndefined /\
    (exists out,
       EPCISDocument.toObject (EPCISDocument.clearEventList built)
         = Ok (VObj out) /\
       lookup_prop "epcisBody" out
         = Some (VObj [("eventList",
                        VArr [Samples.rawObjectEvent;
                              Samples.rawTransactionEvent])])) /\
    EPCISDocument.toObject (EPCISDocument.clearEventList built)
      = EPCISDocument.toObject built.
Proof.
  do 2 eexists. split; [vm_compute; reflexivity|].
  split; [vm_compute; reflexivity|]. split.
  - eexists. split; vm_compute; reflexivity.
  - vm_compute. reflexivity.
Qed.

Lemma toObject_absent_list_throws (this : props) :
  truthy (get "useEventListByDefault" this) = false ->
  lookup_prop "eventList" this = None ->
  EPCISDocument.toObject this = Throw TypeError.
Proof.
  intros Htoggle Habsent. unfold EPCISDocument.toObject.
  rewrite Htoggle, (get_absent _ _ Habsent). reflexivity.
Qed.

(** C9.  With [useEventListByDefault] off, [toObject] reads
    [this.eventList.length]: when the property does not exist the call
    throws a [TypeError] and returns nothing; the serialization of zero
    events, [event: {}], is what an existing, empty list gives; and
    whenever the call returns, the list exists.  A document fresh from
    [new EPCISDocument()] has no such property, whatever the collaborators,
    and so cannot be serialized while the toggle is off. *)
Theorem toObject_throws_without_eventList :
  (forall this,
     truthy (EPCISDocument.getUseEventListByDefault this) = false ->
     (lookup_prop "eventList" this = None ->
      EPCISDocument.toObject this = Throw TypeError) /\
     (EPCISDocument.getEventList this = VArr [] ->
      exists out,
        EPCISDocument.toObject this = Ok (VObj out) /\
        lookup_prop "epcisBody" out = Some (VObj [("event", VObj [])])) /\
     (forall out,
        EPCISDocument.toObject this = Ok out ->
        exists l, lookup_prop "eventList" this = Some l /\
                  l <> VUndefined /\ l <> VNull)) /\
  (forall objectToEvent newEPCISHeader env n,
     truthy (useEventListByDefault env) = false ->
     exists this,
       EPCISDocument.new objectToEvent newEPCISHeader env VUndefined n
         = Ok (VEnt n "EPCISDocument" this, S n) /\
       lookup_prop "eventList" this = None /\
       EPCISDocument.toObject this = Throw TypeError).
Proof.
  split.
  - intros this Htoggle.
    unfold EPCISDocument.getUseEventListByDefault in Htoggle.
    split; [|split].
    + now apply toObject_absent_list_throws.
    + unfold EPCISDocument.getEventList, ListField.getList. intros Hempty.
      unfold EPCISDocument.toObject. rewrite Htoggle, Hempty. simpl.
      simpl_props. simpl. eexists. split; [reflexivity|]. now simpl_props.
    + intros out. unfold EPCISDocument.toObject. rewrite Htoggle. simpl.
      unfold get. destruct (lookup_prop "eventList" this) as [l|];
        [|discriminate].
      intros H. exists l. split; [reflexivity|].
      split; intros ->; discriminate.
  - intros objectToEvent newEPCISHeader env n Htoggle.
    exists [("isA", VStr "EPCISDocument");
            ("useEventListByDefault", useEventListByDefault env);
            ("@context", EPCISDocumentContext env);
            ("schemaVersion", EPCISDocumentSchemaVersion env);
            ("creationDate", VStr (nowISOString env))].
    split; [reflexivity|]. split; [reflexivity|].
    apply toObject_absent_list_throws; [exact Htoggle | reflexivity].
Qed.

Lemma toObject_throws_without_eventList_witness :
  Model.newDocument Model.singleEventSettings VUndefined 0
    = Ok (VEnt 0 "EPCISDocument" (Samples.emptyDocument false), 1) /\
  EPCISDocument.toObject (Samples.emptyDocument false) = Throw TypeError.
Proof.
  split; [reflexivity|].
  apply (proj1 (proj1 toObject_throws_without_eventList
                  (Samples.emptyDocument false) eq_refl)).
  reflexivity.
Defined.

(** Closes the side conditions on which field the body holds. *)
Ltac body_cases :=
  repeat match goal with
         | |- _ /\ _ => split
         | |- _ <-> _ => split
         end;
  intros;
  repeat match goal with
         | H : _ /\ _ |- _ => destruct H
         | H : _ \/ _ |- _ => destruct H
         end;
  cbn in *;
  first [ reflexivity | congruence | lia
        | left; reflexivity | right; lia | split; [reflexivity | lia] ].

(** Case analysis on a key against the names [toObject] handles. *)
Ltac by_key k :=
  destruct (String.eqb_spec k "epcisBody") as [->|?];
  [|destruct (String.eqb_spec k "event") as [->|?];
    [|destruct (String.eqb_spec k "eventList") as [->|?];
      [|destruct (String.eqb_spec k "useEventListByDefault") as [->|?]]]];
  cbn [orb String.eqb Ascii.eqb Bool.eqb]; simpl_props.

(** The output of [toObject], key by key, when the list exists. *)
Lemma toObject_with_list this events :
  EPCISDocument.getEventList this = VArr events ->
  forallb is_entity events = true ->
  lookup_prop "event" this = None ->
  exists out,
    EPCISDocument.toObject this = Ok (VObj out) /\
    forall k,
      lookup_prop k out =
        if k =? "epcisBody" then
          Some (VObj
            (if negb (truthy (EPCISDocument.getUseEventListByDefault this))
                && (List.length events <? 2)%nat
             then [("event", match events with
                             | [] => VObj []
                             | e :: _ => Entity.plain e
                             end)]
             else [("eventList", VArr (List.map Entity.plain events))]))
        else if (k =? "event") || (k =? "eventList")
                || (k =? "useEventListByDefault") then None
        else option_map Entity.plain (lookup_prop k this).
Proof.
  intros Hlist Hents Hevent.
  unfold EPCISDocument.getEventList, ListField.getList in Hlist.
  unfold EPCISDocument.getUseEventListByDefault.
  assert (Hmap : Entity.plain (VArr events)
                 = VArr (List.map Entity.plain events)).
  { simpl. f_equal. apply map_ext_in. intros e He.
    rewrite forallb_forall in Hents. specialize (Hents e He).
    destruct e; simpl in Hents; try discriminate. reflexivity. }
  unfold EPCISDocument.toObject. rewrite Hlist.
  destruct (truthy (get "useEventListByDefault" this)) eqn:Htoggle;
    cbn [negb andb js_length rbind].
  - (* the toggle is on *)
    simpl_props. rewrite Hlist, Hmap, (get_absent _ _ Hevent).
    cbn [Entity.plain truthy orb set].
    eexists. split; [reflexivity|]. intros k. by_key k; auto.
    now rewrite Hevent.
  - (* the toggle is off *)
    destruct events as [|e [|e' events]]; cbn [List.length Nat.ltb Nat.leb].
    + cbn [rbind]. simpl_props. cbn [truthy orb set].
      eexists. split; [reflexivity|]. intros k. by_key k; auto.
    + cbn [EPCISDocument.first]. simpl in Hents.
      rewrite plain_entity by (now destruct (is_entity e)).
      cbn [rbind]. simpl_props.
      assert (He : truthy (Entity.plain e) = true)
        by (destruct e; simpl in Hents; try discriminate; reflexivity).
      rewrite He. cbn [orb set].
      eexists. split; [reflexivity|]. intros k. by_key k; auto.
    + cbn [rbind]. simpl_props.
      rewrite Hlist, Hmap, (get_absent _ _ Hevent).
      cbn [Entity.plain truthy orb set].
      eexists. split; [reflexivity|]. intros k. by_key k; auto.
      now rewrite Hevent.
Qed.

(** The output of [toObject] when there is no list and the toggle is on. *)
Lemma toObject_without_list this :
  lookup_prop "eventList" this = None ->
  lookup_prop "event" this = None ->
  truthy (EPCISDocument.getUseEventListByDefault this) = true ->
  EPCISDocument.toObject this
  = Ok (VObj (del "useEventListByDefault" (Entity.toObject this))).
Proof.
  intros Hlist Hevent Htoggle.
  unfold EPCISDocument.getUseEventListByDefault in Htoggle.
  unfold EPCISDocument.toObject. rewrite Htoggle. cbn [negb rbind].
  simpl_props. rewrite (get_absent _ _ Hlist), (get_absent _ _ Hevent).
  reflexivity.
Qed.

(** C1, as amended.  When the list of events exists, [toObject] puts in
    [epcisBody] a single field: [event] exactly when
    [useEventListByDefault] is off and there are fewer than two events
    (the serialized event when there is one, an empty structure when there
    is none), [eventList] with every serialized event in every other case;
    neither field stays at the top level.  When no list exists and the
    toggle is on, the output is that of [Entity.toObject] without the
    toggle and no body is made. *)
Theorem toObject_body_shape :
  (forall this events,
     EPCISDocument.getEventList this = VArr events ->
     forallb is_entity events = true ->
     lookup_prop "event" this = None ->
     exists out body,
       EPCISDocument.toObject this = Ok (VObj out) /\
       lookup_prop "epcisBody" out = Some (VObj body) /\
       lookup_prop "event" out = None /\
       lookup_prop "eventList" out = None /\
       body =
         (if negb (truthy (EPCISDocument.getUseEventListByDefault this))
             && (List.length events <? 2)%nat
          then [("event", match events with
                          | [] => VObj []
                          | e :: _ => Entity.plain e
                          end)]
          else [("eventList", VArr (List.map Entity.plain events))]) /\
       (lookup_prop "event" body <> None <->
          truthy (EPCISDocument.getUseEventListByDefault this) = false /\
          (List.length events <= 1)%nat) /\
       (lookup_prop "eventList" body <> None <->
          truthy (EPCISDocument.getUseEventListByDefault this) = true \/
          (2 <= List.length events)%nat)) /\
  (forall this,
     lookup_prop "eventList" this = None ->
     lookup_prop "event" this = None ->
     truthy (EPCISDocument.getUseEventListByDefault this) = true ->
     EPCISDocument.toObject this
     = Ok (VObj (del "useEventListByDefault" (Entity.toObject this)))).
Proof.
  split; [|exact toObject_without_list].
  intros this events Hlist Hents Hevent.
  destruct (toObject_with_list this events Hlist Hents Hevent)
    as (out & Hout & Hkeys).
  exists out. eexists. split; [exact Hout|].
  split; [exact (Hkeys "epcisBody")|].
  split; [exact (Hkeys "event")|].
  split; [exact (Hkeys "eventList")|].
  split; [reflexivity|].
  destruct (truthy (EPCISDocument.getUseEventListByDefault this));
    destruct events as [|e [|e' events]]; body_cases.
Qed.

Lemma toObject_body_shape_witness :
  (exists out,
     EPCISDocument.toObject
       (Samples.documentWith false [Samples.objectEvent 1]) = Ok (VObj out) /\
     lookup_prop "epcisBody" out
       = Some (VObj [("event", Entity.plain (Samples.objectEvent 1))])) /\
  (exists out,
     EPCISDocument.toObject
       (Samples.documentWith false
          [Samples.objectEvent 1; Samples.objectEvent 2]) = Ok (VObj out) /\
     lookup_prop "epcisBody" out
       = Some (VObj [("eventList",
                      VArr [Entity.plain (Samples.objectEvent 1);
                            Entity.plain (Samples.objectEvent 2)])])).
Proof.
  split.
  - destruct (proj1 toObject_body_shape
                (Samples.documentWith false [Samples.objectEvent 1])
                [Samples.objectEvent 1] eq_refl eq_refl eq_refl)
      as (out & body & Hout & Hbody & _ & _ & -> & _).
    exists out. split; [exact Hout | exact Hbody].
  - destruct (proj1 toObject_body_shape
                (Samples.documentWith false
                   [Samples.objectEvent 1; Samples.objectEvent 2])
                [Samples.objectEvent 1; Samples.objectEvent 2]
                eq_refl eq_refl eq_refl)
      as (out & body & Hout & Hbody & _ & _ & -> & _).
    exists out. split; [exact Hout | exact Hbody].
Defined.

(** C1, as stated, fails.  [new EPCISDocument()] under the default
    settings has [useEventListByDefault] on and no event: the claim has it
    serialize a plural [epcisBody.eventList], the code makes no
    [epcisBody] at all.  And with the toggle off, a list emptied again
    serializes the singular [event], not [eventList], with a count that is
    not 1. *)
Lemma toObject_without_events_has_no_eventList :
  (Model.newDocument Model.defaultSettings VUndefined 0
     = Ok (VEnt 0 "EPCISDocument" (Samples.emptyDocument true), 1) /\
   exists out,
     EPCISDocument.toObject (Samples.emptyDocument true) = Ok (VObj out) /\
     lookup_prop "epcisBody" out = None) /\
  (exists out,
     EPCISDocument.toObject (Samples.documentWith false []) = Ok (VObj out) /\
     lookup_prop "epcisBody" out = Some (VObj [("event", VObj [])])).
Proof.
  split; [split; [reflexivity|]|]; eexists; split; reflexivity.
Qed.

(** ** The constructor of the document *)

Lemma lookup_app k (ps qs : props) :
  lookup_prop k (ps ++ qs)%list
  = match lookup_prop k ps with
    | Some v => Some v
    | None => lookup_prop k qs
    end.
Proof.
  induction ps as [|[k' v'] ps IH]; simpl; auto.
  destruct (k =? k'); auto.
Qed.

Lemma set_absent k v ps :
  lookup_prop k ps = None -> set k v ps = (ps ++ [(k, v)])%list.
Proof.
  induction ps as [|[k' v'] ps IH]; simpl; auto.
  destruct (k =? k'); [discriminate|]. intros H. now rewrite IH.
Qed.

Lemma unique_keys_head k v rest :
  unique_keys ((k, v) :: rest) = true ->
  lookup_prop k rest = None /\ unique_keys rest = true.
Proof.
  simpl. intros H. apply andb_prop in H as [Hk Hrest]. split; auto.
  apply negb_true_iff in Hk. clear Hrest.
  induction rest as [|[k' v'] rest IH]; simpl in *; auto.
  apply orb_false_elim in Hk as [-> Hk]. auto.
Qed.

Lemma fold_set_unique ps : forall acc,
  unique_keys ps = true ->
  (forall k, lookup_prop k ps <> None -> lookup_prop k acc = None) ->
  fold_left (fun this kv => set (fst kv) (snd kv) this) ps acc
  = (acc ++ ps)%list.
Proof.
  induction ps as [|[k v] ps IH]; intros acc Huniq Hfresh; simpl.
  - now rewrite app_nil_r.
  - destruct (unique_keys_head _ _ _ Huniq) as [Hk Hrest].
    rewrite set_absent.
    + rewrite IH; [now rewrite <- app_assoc | assumption |].
      intros k' Hk'. rewrite lookup_app, Hfresh.
      * simpl. destruct (k' =? k) eqn:E; auto.
        apply String.eqb_eq in E. subst. congruence.
      * simpl. destruct (k' =? k); [discriminate | assumption].
    + apply Hfresh. simpl. now rewrite String.eqb_refl.
Qed.

(** The base constructor leaves a raw object as it is. *)
Lemma init_object ps :
  unique_keys ps = true -> Entity.init (VObj ps) = ps.
Proof.
  intros H. unfold Entity.init. simpl. now rewrite fold_set_unique.
Qed.

Section Loop.
Variables objectToEvent newEPCISHeader : value -> M value.

Lemma addEvent_other k e this this' :
  k <> "eventList" ->
  EPCISDocument.addEvent e this = Ok this' ->
  lookup_prop k this' = lookup_prop k this.
Proof.
  intros Hk. unfold EPCISDocument.addEvent, ListField.add.
  destruct (truthy (get "eventList" this));
    destruct (push e _); simpl; intros [= <-];
    rewrite ?lookup_set_ne by congruence; reflexivity.
Qed.

Lemma forEach_other {A} k (f : props -> A -> M props) :
  (forall this x n this' n',
     f this x n = Ok (this', n') ->
     lookup_prop k this' = lookup_prop k this) ->
  forall xs this n this' n',
    forEach f xs this n = Ok (this', n') ->
    lookup_prop k this' = lookup_prop k this.
Proof.
  intros Hf. induction xs as [|x xs IH]; simpl; intros this n this' n'.
  - now intros [= <- <-].
  - unfold sbind. destruct (f this x n) as [[this1 n1]|] eqn:E;
      [|discriminate].
    intros H. rewrite (IH _ _ _ _ H). eauto.
Qed.

Lemma add_event_other k this event n this' n' :
  k <> "eventList" ->
  (e <~ objectToEvent event ;; lift (EPCISDocument.addEvent e this)) n
    = Ok (this', n') ->
  lookup_prop k this' = lookup_prop k this.
Proof.
  intros Hk. unfold sbind, lift.
  destruct (objectToEvent event n) as [[e n1]|]; [|discriminate].
  destruct (EPCISDocument.addEvent e this) eqn:E; [|discriminate].
  intros [= <- <-]. eapply addEvent_other; eauto.
Qed.

(** One turn of the loop writes [isA], [epcisHeader] or [eventList] and
    nothing else. *)
Lemma constructor_case_other k this entry n this' n' :
  k <> "isA" -> k <> "epcisHeader" -> k <> "eventList" ->
  EPCISDocument.constructor_case objectToEvent newEPCISHeader this entry n
    = Ok (this', n') ->
  lookup_prop k this' = lookup_prop k this.
Proof.
  intros HisA Hhead Hlist. destruct entry as [key value].
  unfold EPCISDocument.constructor_case.
  destruct (key =? "isA").
  { intros [= <- <-]. now rewrite lookup_set_ne by congruence. }
  destruct (key =? "epcisHeader").
  { unfold sbind, ret, EPCISDocument.setEPCISHeader.
    destruct (newEPCISHeader value n) as [[h n1]|]; [|discriminate].
    intros [= <- <-]. now rewrite lookup_set_ne by congruence. }
  destruct (key =? "epcisBody"); [|now intros [= <- <-]].
  unfold sbind at 1. unfold lift at 1.
  destruct (prop_read value "event") as [event|]; [|discriminate].
  destruct (truthy event).
  { now apply add_event_other. }
  unfold sbind at 1. unfold lift at 1.
  destruct (prop_read value "eventList") as [eventList|]; [|discriminate].
  destruct (truthy eventList); [|now intros [= <- <-]].
  destruct eventList; try discriminate.
  apply forEach_other. intros. eapply add_event_other; eauto.
Qed.

Lemma constructor_loop_other k entries this n this' n' :
  k <> "isA" -> k <> "epcisHeader" -> k <> "eventList" ->
  forEach (EPCISDocument.constructor_case objectToEvent newEPCISHeader)
    entries this n = Ok (this', n') ->
  lookup_prop k this' = lookup_prop k this.
Proof.
  intros. eapply forEach_other; [|eassumption].
  intros. eapply constructor_case_other; eauto.
Qed.
End Loop.

(** C4, as amended.  The constructor keeps the [@context],
    [schemaVersion] and [creationDate] of the raw document when the value
    given is truthy, and injects the value of the settings (the current
    time for [creationDate]) when the field is absent or holds a falsy
    value; without an argument all three are injected. *)
Theorem constructor_defaults_falsy_fields
    (objectToEvent newEPCISHeader : value -> M value) (env : settings) :
  (forall ps n doc n',
     unique_keys ps = true ->
     EPCISDocument.new objectToEvent newEPCISHeader env (VObj ps) n
       = Ok (doc, n') ->
     exists this,
       doc = VEnt n "EPCISDocument" this /\
       EPCISDocument.getContext this
         = (if truthy (get "@context" ps) then get "@context" ps
            else EPCISDocumentContext env) /\
       EPCISDocument.getSchemaVersion this
         = (if truthy (get "schemaVersion" ps) then get "schemaVersion" ps
            else EPCISDocumentSchemaVersion env) /\
       EPCISDocument.getCreationDate this
         = (if truthy (get "creationDate" ps) then get "creationDate" ps
            else VStr (nowISOString env))) /\
  (forall n,
     exists this,
       EPCISDocument.new objectToEvent newEPCISHeader env VUndefined n
         = Ok (VEnt n "EPCISDocument" this, S n) /\
       EPCISDocument.getContext this = EPCISDocumentContext env /\
       EPCISDocument.getSchemaVersion this = EPCISDocumentSchemaVersion env /\
       EPCISDocument.getCreationDate this = VStr (nowISOString env)).
Proof.
  split.
  - intros ps n doc n' Huniq.
    unfold EPCISDocument.new, EPCISDocument.before_loop.
    rewrite (init_object _ Huniq).
    unfold sbind at 1. unfold fresh. cbn [truthy negb].
    unfold sbind, ret.
    match goal with
    | |- context [forEach _ _ ?t (S n)] => set (this0 := t)
    end.
    destruct (forEach _ _ this0 (S n)) as [[this n1]|] eqn:Hloop;
      [|discriminate].
    intros [= <- <-]. exists this. split; [reflexivity|].
    assert (Hkeep : forall k, k <> "isA" -> k <> "epcisHeader" ->
                      k <> "eventList" -> get k this = get k this0).
    { intros k H1 H2 H3. unfold get.
      now rewrite (constructor_loop_other _ _ k _ _ _ _ _ H1 H2 H3 Hloop). }
    unfold EPCISDocument.getContext, EPCISDocument.getSchemaVersion,
      EPCISDocument.getCreationDate.
    rewrite !Hkeep by discriminate.
    subst this0.
    unfold EPCISDocument.getContext, EPCISDocument.getSchemaVersion,
      EPCISDocument.getCreationDate, EPCISDocument.setContext,
      EPCISDocument.setSchemaVersion, EPCISDocument.setCreationDate,
      EPCISDocument.setUseEventListByDefault.
    simpl_props.
    destruct (truthy (get "@context" ps)); simpl_props;
      destruct (truthy (get "schemaVersion" ps)); simpl_props;
      destruct (truthy (get "creationDate" ps)); simpl_props;
      auto.
  - intros n.
    exists [("isA", VStr "EPCISDocument");
            ("useEventListByDefault", useEventListByDefault env);
            ("@context", EPCISDocumentContext env);
            ("schemaVersion", EPCISDocumentSchemaVersion env);
            ("creationDate", VStr (nowISOString env))].
    repeat split.
Qed.

Lemma constructor_defaults_falsy_fields_witness :
  exists this,
    Model.newDocument Model.defaultSettings Samples.falsyFields 0
      = Ok (VEnt 0 "EPCISDocument" this, 1) /\
    EPCISDocument.getContext this = EPCISDocumentContext Model.defaultSettings /\
    EPCISDocument.getSchemaVersion this = VNum 2 /\
    EPCISDocument.getCreationDate this = VStr "2005-07-11T11:30:47+00:00".
Proof.
  destruct (proj1 (constructor_defaults_falsy_fields
                     Model.objectToEvent Model.newEPCISHeader
                     Model.defaultSettings)
              [("@context", VStr ""); ("schemaVersion", VNum 0);
               ("creationDate", VStr "2005-07-11T11:30:47+00:00")]
              0 _ _ eq_refl eq_refl)
    as (this & Hdoc & Hcontext & Hversion & Hdate).
  exists this. split; [now rewrite <- Hdoc|]. now split; [|split].
Defined.

(** C4, as stated, fails.  In [Samples.falsyFields] the fields [@context]
    and [schemaVersion] are present, with the values [""] and [0]; the
    constructed document holds the values of the settings instead. *)
Lemma constructor_overwrites_present_falsy_fields :
  prop_read Samples.falsyFields "@context" = Ok (VStr "") /\
  prop_read Samples.falsyFields "schemaVersion" = Ok (VNum 0) /\
  exists this,
    Model.newDocument Model.defaultSettings Samples.falsyFields 0
      = Ok (VEnt 0 "EPCISDocument" this, 1) /\
    EPCISDocument.getContext this
      = VStr "https://id.gs1.org/epcis-context.jsonld" /\
    EPCISDocument.getSchemaVersion this = VNum 2.
Proof.
  split; [reflexivity|]. split; [reflexivity|].
  exists [("@context", VStr "https://id.gs1.org/epcis-context.jsonld");
          ("schemaVersion", VNum 2);
          ("creationDate", VStr "2005-07-11T11:30:47+00:00");
          ("isA", VStr "EPCISDocument");
          ("useEventListByDefault", VBool true)].
  split; [reflexivity|]. split; reflexivity.
Qed.

(** *** What the loop of the constructor builds *)

Lemma lookup_get k ps v : lookup_prop k ps = Some v -> get k ps = v.
Proof. unfold get. now intros ->. Qed.

Section Construction.
Variables objectToEvent newEPCISHeader : value -> M value.
Variables builtEvent builtHeader : value -> value -> Prop.

Let add_event (this : props) (event : value) : M props :=
  e <~ objectToEvent event ;; lift (EPCISDocument.addEvent e this).

(** Pushing onto a list that exists. *)
Lemma add_events_to_list events : forall this old n,
  Forall (builds objectToEvent builtEvent) events ->
  lookup_prop "eventList" this = Some (VArr old) ->
  exists this' n' built,
    forEach add_event events this n = Ok (this', n') /\
    Forall2 builtEvent events built /\
    lookup_prop "eventList" this' = Some (VArr (old ++ built)) /\
    (forall k, k <> "eventList" ->
               lookup_prop k this' = lookup_prop k this).
Proof.
  induction events as [|event events IH]; intros this old n Hok Hlist.
  - exists this, n, []. rewrite app_nil_r. repeat split; auto.
  - inversion Hok as [|? ? Hevent Hrest]; subst.
    destruct (Hevent n) as (e & n1 & He & Hbuilt).
    set (this1 := set "eventList" (VArr (old ++ [e])) this).
    destruct (IH this1 (old ++ [e])%list n1 Hrest)
      as (this' & n' & built & Hrun & Hall & Hlist' & Hother).
    { subst this1. now rewrite lookup_set_eq. }
    exists this', n', (e :: built). split; [|split; [|split]].
    + simpl. unfold sbind at 1. unfold add_event at 1. unfold sbind at 1.
      rewrite He. unfold lift, EPCISDocument.addEvent, ListField.add.
      rewrite (lookup_get _ _ _ Hlist). simpl.
      rewrite (lookup_get _ _ _ Hlist). simpl. exact Hrun.
    + now constructor.
    + now rewrite Hlist', <- app_assoc.
    + intros k Hk. rewrite Hother by assumption. subst this1.
      now rewrite lookup_set_ne by congruence.
Qed.

(** The first event creates the list. *)
Lemma add_events_fresh event events this n :
  Forall (builds objectToEvent builtEvent) (event :: events) ->
  lookup_prop "eventList" this = None ->
  exists this' n' built,
    forEach add_event (event :: events) this n = Ok (this', n') /\
    Forall2 builtEvent (event :: events) built /\
    lookup_prop "eventList" this' = Some (VArr built) /\
    (forall k, k <> "eventList" ->
               lookup_prop k this' = lookup_prop k this).
Proof.
  intros Hok Habsent. inversion Hok as [|? ? Hevent Hrest]; subst.
  destruct (Hevent n) as (e & n1 & He & Hbuilt).
  set (this1 := set "eventList" (VArr [e])
                  (set "eventList" (VArr []) this)).
  destruct (add_events_to_list events this1 [e] n1 Hrest)
    as (this' & n' & built & Hrun & Hall & Hlist' & Hother).
  { subst this1. now rewrite lookup_set_eq. }
  exists this', n', (e :: built). split; [|split; [|split]].
  - simpl. unfold sbind at 1. unfold add_event at 1. unfold sbind at 1.
    rewrite He. unfold lift, EPCISDocument.addEvent, ListField.add.
    rewrite (get_absent _ _ Habsent). simpl.
    rewrite get_set_eq. simpl. exact Hrun.
  - now constructor.
  - exact Hlist'.
  - intros k Hk. rewrite Hother by assumption. subst this1.
    now rewrite !lookup_set_ne by congruence.
Qed.

(** The turn of the loop for [epcisBody] adds the events of
    [raw_events], one by one. *)
Lemma constructor_case_body this value events n :
  EPCISDocument.raw_events value = Ok events ->
  EPCISDocument.constructor_case objectToEvent newEPCISHeader this
    ("epcisBody", value) n
  = forEach add_event events this n.
Proof.
  unfold EPCISDocument.raw_events, EPCISDocument.constructor_case.
  cbn [String.eqb Ascii.eqb Bool.eqb].
  unfold sbind at 1. unfold lift at 1.
  destruct (prop_read value "event") as [event|]; [|discriminate].
  cbn [rbind]. destruct (truthy event).
  { intros [= <-]. cbn [forEach]. unfold add_event, sbind, ret, lift.
    destruct (objectToEvent event n) as [[e n1]|]; [|reflexivity].
    destruct (EPCISDocument.addEvent e this); reflexivity. }
  unfold sbind at 1. unfold lift at 1.
  destruct (prop_read value "eventList") as [eventList|]; [|discriminate].
  cbn [rbind]. destruct (truthy eventList); [|now intros [= <-]].
  destruct eventList; try discriminate. now intros [= <-].
Qed.
End Construction.

Section ConstructorLoop.
Variables objectToEvent newEPCISHeader : value -> M value.
Variables builtEvent builtHeader : value -> value -> Prop.

Let step := EPCISDocument.constructor_case objectToEvent newEPCISHeader.

Lemma constructor_loop entries : forall this n,
  unique_keys entries = true ->
  Loop.pre objectToEvent newEPCISHeader builtEvent builtHeader
    entries this ->
  exists this' n',
    forEach step entries this n = Ok (this', n') /\
    Loop.post builtEvent builtHeader entries this this'.
Proof.
  induction entries as [|[key value] entries IH];
    intros this n Huniq [Hhead Hbody].
  { exists this, n. split; [reflexivity|]. repeat split. }
  destruct (unique_keys_head _ _ _ Huniq) as [Hkey Hrest].
  cbn [forEach]. unfold sbind at 1.
  destruct (String.eqb_spec key "isA") as [->|HisA].
  { (* [this.isA = value] *)
    destruct (IH (set "isA" value this) n Hrest)
      as (this' & n' & Hrun & Hother & Ha & Hh & Hb).
    { split; [exact Hhead|]. intros body Hin.
      rewrite lookup_set_ne by discriminate. now apply Hbody. }
    exists this', n'. split; [exact Hrun|].
    unfold Loop.post. simpl lookup_prop.
    rewrite Hkey in Ha. rewrite lookup_set_eq in Ha.
    rewrite !lookup_set_ne in * by discriminate.
    split; [|split; [|split]]; auto.
    intros k H1 H2 H3. rewrite Hother by assumption.
    now rewrite lookup_set_ne by congruence. }
  destruct (String.eqb_spec key "epcisHeader") as [->|Hheader].
  { (* [this.setEPCISHeader(new EPCISHeader(value))] *)
    destruct (Hhead value eq_refl n) as (H & n1 & Hnew & Hbuilt).
    destruct (IH (set "epcisHeader" H this) n1 Hrest)
      as (this' & n' & Hrun & Hother & Ha & Hh & Hb).
    { split; [intros h Hin; congruence|]. intros body Hin.
      rewrite lookup_set_ne by discriminate. now apply Hbody. }
    exists this', n'. split.
    { unfold step, EPCISDocument.constructor_case.
      cbn [String.eqb Ascii.eqb Bool.eqb]. unfold sbind at 1.
      rewrite Hnew. exact Hrun. }
    unfold Loop.post. simpl lookup_prop.
    rewrite Hkey in Hh. rewrite lookup_set_eq in Hh.
    rewrite !lookup_set_ne in * by discriminate.
    split; [|split; [|split]]; eauto.
    intros k H1 H2 H3. rewrite Hother by assumption.
    now rewrite lookup_set_ne by congruence. }
  destruct (String.eqb_spec key "epcisBody") as [->|Hbodykey].
  { (* the events of the body are added *)
    destruct (Hbody value eq_refl) as (Hnone & events & Hraw & Hok).
    unfold step at 1. rewrite (constructor_case_body _ _ _ _ _ _ Hraw).
    assert (Hadd : exists this1 n1 built,
               forEach (fun this event =>
                          e <~ objectToEvent event ;;
                          lift (EPCISDocument.addEvent e this))
                 events this n = Ok (this1, n1) /\
               Forall2 builtEvent events built /\
               lookup_prop "eventList" this1
                 = match events with
                   | [] => None
                   | _ => Some (VArr built)
                   end /\
               (forall k, k <> "eventList" ->
                          lookup_prop k this1 = lookup_prop k this)).
    { destruct events as [|event events].
      - exists this, n, []. repeat split; auto.
      - destruct (add_events_fresh objectToEvent builtEvent
                    event events this n Hok Hnone)
          as (this1 & n1 & built & ? & ? & ? & ?).
        exists this1, n1, built. auto. }
    destruct Hadd as (this1 & n1 & built & Hadd & Hall & Hlist & Hsame).
    rewrite Hadd.
    destruct (IH this1 n1 Hrest)
      as (this' & n' & Hrun & Hother & Ha & Hh & Hb).
    { split; [intros h Hin; apply Hhead; exact Hin|]. intros body Hin.
      congruence. }
    exists this', n'. split; [exact Hrun|].
    unfold Loop.post. simpl lookup_prop.
    rewrite Hkey in Hb.
    rewrite !Hsame in * by discriminate.
    split; [|split; [|split]]; auto.
    - intros k H1 H2 H3. rewrite Hother by assumption. now apply Hsame.
    - exists events, built. rewrite Hb. auto. }
  (* any other key *)
  assert (Hstep : step this (key, value) n = Ok (this, n)).
  { unfold step, EPCISDocument.constructor_case.
    apply String.eqb_neq in HisA, Hheader, Hbodykey.
    now rewrite HisA, Hheader, Hbodykey. }
  rewrite Hstep.
  assert (Hside : forall k, key <> k ->
            lookup_prop k ((key, value) :: entries) = lookup_prop k entries).
  { intros k Hk. simpl. apply String.eqb_neq in Hk.
    rewrite String.eqb_sym in Hk. now rewrite Hk. }
  destruct (IH this n Hrest) as (this' & n' & Hrun & Hpost).
  { split.
    - intros h Hin. apply Hhead. now rewrite Hside.
    - intros body Hin. apply Hbody. now rewrite Hside. }
  exists this', n'. split; [exact Hrun|].
  unfold Loop.post. now rewrite !Hside.
Qed.
End ConstructorLoop.

Lemma lookup_before_loop env ps k :
  unique_keys ps = true ->
  k <> "isA" -> k <> "useEventListByDefault" ->
  k <> "@context" -> k <> "schemaVersion" -> k <> "creationDate" ->
  lookup_prop k (EPCISDocument.before_loop env (VObj ps)) = lookup_prop k ps.
Proof.
  intros Huniq H1 H2 H3 H4 H5. unfold EPCISDocument.before_loop.
  rewrite (init_object _ Huniq).
  unfold EPCISDocument.getContext, EPCISDocument.getSchemaVersion,
    EPCISDocument.getCreationDate, EPCISDocument.setContext,
    EPCISDocument.setSchemaVersion, EPCISDocument.setCreationDate,
    EPCISDocument.setUseEventListByDefault.
  repeat match goal with
         | |- context [if ?b then _ else _] => destruct b
         end; now simpl_props.
Qed.

Lemma new_runs_loop objectToEvent newEPCISHeader env ps n this n' :
  forEach (EPCISDocument.constructor_case objectToEvent newEPCISHeader) ps
    (EPCISDocument.before_loop env (VObj ps)) (S n) = Ok (this, n') ->
  EPCISDocument.new objectToEvent newEPCISHeader env (VObj ps) n
  = Ok (VEnt n "EPCISDocument" this, n').
Proof.
  intros Hrun. unfold EPCISDocument.new, sbind, fresh, ret. cbn.
  now rewrite Hrun.
Qed.

(** C10, as amended.  When the [epcisBody] of the raw document holds a
    truthy [event] and an [eventList], whatever that list holds, and the
    event and the header can be built, the constructor returns a document
    whose list of events is exactly the event built from [event]: no
    element of [eventList] is read. *)
Theorem constructor_prefers_the_single_event
    (objectToEvent newEPCISHeader : value -> M value) (env : settings)
    (ps fields : props) (event eventList : value) (n : loc) :
  unique_keys ps = true ->
  lookup_prop "epcisBody" ps = Some (VObj fields) ->
  lookup_prop "event" fields = Some event ->
  lookup_prop "eventList" fields = Some eventList ->
  truthy event = true ->
  builds objectToEvent (fun _ _ => True) event ->
  (forall h, lookup_prop "epcisHeader" ps = Some h ->
             builds newEPCISHeader (fun _ _ => True) h) ->
  lookup_prop "eventList" ps = None ->
  exists this n' e,
    EPCISDocument.new objectToEvent newEPCISHeader env (VObj ps) n
      = Ok (VEnt n "EPCISDocument" this, n') /\
    (exists m m', objectToEvent event m = Ok (e, m')) /\
    EPCISDocument.getEventList this = VArr [e].
Proof.
  intros Huniq Hbody Hevent Hlist Htruthy Hbuild Hheader Hnone.
  set (built := fun raw e => exists m m', objectToEvent raw m = Ok (e, m')).
  assert (Hraw : EPCISDocument.raw_events (VObj fields) = Ok [event]).
  { unfold EPCISDocument.raw_events. simpl.
    rewrite (lookup_get _ _ _ Hevent). simpl. now rewrite Htruthy. }
  destruct (constructor_loop objectToEvent newEPCISHeader built
              (fun _ _ => True) ps
              (EPCISDocument.before_loop env (VObj ps)) (S n) Huniq)
    as (this & n' & Hrun & _ & _ & _ & Hpost).
  { split; [exact Hheader|]. intros body Hin.
    rewrite lookup_before_loop by (assumption || discriminate).
    split; [exact Hnone|]. exists [event].
    split; [congruence|]. constructor; [|constructor].
    intros m. destruct (Hbuild m) as (e & m' & He & _).
    exists e, m'. split; [exact He|]. now exists m, m'. }
  rewrite Hbody in Hpost.
  destruct Hpost as (events & es & Hraw' & Hall & Hthis).
  rewrite Hraw in Hraw'. injection Hraw' as <-.
  inversion Hall as [|? e ? rest He Hrest]; subst.
  inversion Hrest; subst.
  exists this, n', e. split; [now apply new_runs_loop|].
  split; [exact He|].
  unfold EPCISDocument.getEventList, ListField.getList.
  now apply lookup_get.
Qed.

Lemma constructor_prefers_the_single_event_witness :
  exists this n' e,
    Model.newDocument Model.defaultSettings Samples.bothBody 0
      = Ok (VEnt 0 "EPCISDocument" this, n') /\
    (exists m m', Model.objectToEvent Samples.rawTransactionEvent m
                  = Ok (e, m')) /\
    EPCISDocument.getEventList this = VArr [e].
Proof.
  apply (constructor_prefers_the_single_event
           Model.objectToEvent Model.newEPCISHeader Model.defaultSettings
           (entries Samples.bothBody)
           [("event", Samples.rawTransactionEvent);
            ("eventList",
             VArr [Samples.rawObjectEvent; Samples.rawObjectEvent])]
           Samples.rawTransactionEvent
           (VArr [Samples.rawObjectEvent; Samples.rawObjectEvent]) 0);
    try reflexivity.
  - intros m. do 2 eexists. split; [reflexivity | exact I].
  - intros h Hh. discriminate Hh.
Defined.

(** C10, as stated, fails.  In [Samples.nullEventBody] the body has both
    fields, [event] being [null]: the constructor rebuilds the two
    elements of [eventList] and the document holds two events. *)
Lemma constructor_reads_eventList_after_falsy_event :
  prop_read Samples.nullEventBody "epcisBody"
    = Ok (VObj [("event", VNull);
                ("eventList", VArr [Samples.rawObjectEvent;
                                    Samples.rawTransactionEvent])]) /\
  exists this,
    Model.newDocument Model.defaultSettings Samples.nullEventBody 0
      = Ok (VEnt 0 "EPCISDocument" this, 3) /\
    EPCISDocument.getEventList this
      = VArr [VEnt 1 "ObjectEvent"
                [("isA", VStr "ObjectEvent"); ("action", VStr "OBSERVE")];
              VEnt 2 "TransactionEvent"
                [("isA", VStr "TransactionEvent"); ("action", VStr "ADD")]].
Proof.
  split; [reflexivity|].
  eexists. split; [vm_compute; reflexivity | reflexivity].
Qed.

(** ** Round trip *)

Lemma plain_json v : is_json v = true -> Entity.plain v = v.
Proof.
  destruct v; simpl; try reflexivity; try discriminate.
  intros H. f_equal. rewrite <- (map_id xs) at 2.
  apply map_ext_in. intros e He.
  rewrite forallb_forall in H. specialize (H e He).
  destruct e; simpl in H; try discriminate; reflexivity.
Qed.

Lemma is_json_lookup ps k v :
  is_json (VObj ps) = true -> lookup_prop k ps = Some v -> is_json v = true.
Proof.
  simpl. induction ps as [|[k' v'] ps IH]; simpl; [discriminate|].
  intros H. apply andb_prop in H as [Hv Hps].
  destruct (k =? k'); [now intros [= <-] | auto].
Qed.

Lemma keeps_json ps k :
  is_json (VObj ps) = true ->
  option_Forall2 deep_eq (option_map Entity.plain (lookup_prop k ps))
                 (lookup_prop k ps).
Proof.
  intros Hjson. destruct (lookup_prop k ps) as [v|] eqn:E; simpl.
  - rewrite plain_json by (eapply is_json_lookup; eauto).
    constructor. apply deep_eq_same.
  - constructor.
Qed.

Lemma roundtrips_all events built :
  Forall2 RoundTrip.roundtrips events built ->
  forallb is_entity built = true /\
  Forall2 deep_eq (List.map Entity.plain built) events /\
  List.length built = List.length events.
Proof.
  induction 1 as [|event e events built [Hent Heq] _ (IH1 & IH2 & IH3)];
    simpl.
  - repeat split; constructor.
  - rewrite Hent, IH1, IH3. repeat split. now constructor.
Qed.

Lemma supported_events objectToEvent toggle body :
  RoundTrip.supported_body objectToEvent toggle (Some body) ->
  exists events,
    EPCISDocument.raw_events body = Ok events /\
    Forall (builds objectToEvent RoundTrip.roundtrips) events.
Proof.
  inversion 1 as [|? ? Hraw|events ? ? Hall|event ? Htruthy Hone]; subst.
  - exists []. split; [exact Hraw | constructor].
  - exists events. split; [reflexivity | exact Hall].
  - exists [event]. split.
    + unfold EPCISDocument.raw_events, prop_read, rbind.
      rewrite get_single. now rewrite Htruthy.
    + now repeat constructor.
Qed.

Lemma single_field_eq k x y :
  deep_eq x y -> deep_eq (VObj [(k, x)]) (VObj [(k, y)]).
Proof.
  intros H. apply deep_eq_obj. intros k'. simpl.
  destruct (k' =? k); now constructor.
Qed.

Lemma before_loop_given env ps :
  unique_keys ps = true ->
  truthy (get "@context" ps) = true ->
  truthy (get "schemaVersion" ps) = true ->
  truthy (get "creationDate" ps) = true ->
  EPCISDocument.before_loop env (VObj ps)
  = set "useEventListByDefault" (useEventListByDefault env)
      (set "isA" (VStr "EPCISDocument") ps).
Proof.
  intros Huniq Hc Hv Hd. unfold EPCISDocument.before_loop.
  rewrite (init_object _ Huniq).
  unfold EPCISDocument.getContext, EPCISDocument.getSchemaVersion,
    EPCISDocument.getCreationDate, EPCISDocument.setUseEventListByDefault.
  simpl_props. rewrite Hc. simpl_props. rewrite Hv. simpl_props.
  now rewrite Hd.
Qed.

(** The output is the raw document when no list was built. *)
Lemma roundtrip_without_list this ps :
  lookup_prop "eventList" this = None ->
  lookup_prop "event" this = None ->
  truthy (get "useEventListByDefault" this) = true ->
  lookup_prop "useEventListByDefault" ps = None ->
  lookup_prop "eventList" ps = None ->
  (forall k, k <> "useEventListByDefault" -> k <> "eventList" ->
     option_Forall2 deep_eq (option_map Entity.plain (lookup_prop k this))
                    (lookup_prop k ps)) ->
  exists out, EPCISDocument.toObject this = Ok out /\ deep_eq out (VObj ps).
Proof.
  intros Hlist Hevent Htoggle Hpt Hpl Hrest.
  eexists. split; [now apply toObject_without_list|].
  apply deep_eq_obj. intros k.
  destruct (String.eqb_spec k "useEventListByDefault") as [->|Hk].
  { simpl_props. rewrite Hpt. constructor. }
  simpl_props.
  destruct (String.eqb_spec k "eventList") as [->|Hk'].
  { rewrite Hlist, Hpl. constructor. }
  now apply Hrest.
Qed.

(** The output is the raw document when the body made from the list is
    the raw body. *)
Lemma roundtrip_with_list this ps built body raw_body :
  lookup_prop "eventList" this = Some (VArr built) ->
  forallb is_entity built = true ->
  lookup_prop "event" this = None ->
  (if negb (truthy (get "useEventListByDefault" this))
      && (List.length built <? 2)%nat
   then [("event", match built with
                   | [] => VObj []
                   | e :: _ => Entity.plain e
                   end)]
   else [("eventList", VArr (List.map Entity.plain built))]) = body ->
  lookup_prop "epcisBody" ps = Some raw_body ->
  deep_eq (VObj body) raw_body ->
  lookup_prop "useEventListByDefault" ps = None ->
  lookup_prop "eventList" ps = None ->
  lookup_prop "event" ps = None ->
  (forall k, k <> "useEventListByDefault" -> k <> "eventList" ->
     option_Forall2 deep_eq (option_map Entity.plain (lookup_prop k this))
                    (lookup_prop k ps)) ->
  exists out, EPCISDocument.toObject this = Ok out /\ deep_eq out (VObj ps).
Proof.
  intros Hlist Hents Hevent Hbody Hraw Heq Hpt Hpl Hpe Hrest.
  destruct (toObject_with_list this built) as (out & Hout & Hkeys);
    [now apply lookup_get | assumption | assumption |].
  exists (VObj out). split; [exact Hout|].
  apply deep_eq_obj. intros k. rewrite Hkeys.
  unfold EPCISDocument.getUseEventListByDefault. rewrite Hbody.
  destruct (String.eqb_spec k "epcisBody") as [->|?].
  { rewrite Hraw. now constructor. }
  destruct (String.eqb_spec k "event") as [->|?].
  { rewrite Hpe. constructor. }
  destruct (String.eqb_spec k "eventList") as [->|?].
  { rewrite Hpl. constructor. }
  destruct (String.eqb_spec k "useEventListByDefault") as [->|?].
  { rewrite Hpt. constructor. }
  now apply Hrest.
Qed.

(** C2, as amended.  A raw document comes back from the constructor
    followed by [toObject] when it is a JSON object in which [isA] is
    given as well as truthy [@context], [schemaVersion] and
    [creationDate]; in which no field is named [useEventListByDefault],
    [eventList] or [event]; whose header, if any, round-trips; and whose
    body is one that [toObject] makes under the toggle of the settings,
    with events that round-trip.  Every other field, recognized or not, is
    carried through. *)
Theorem new_toObject_roundtrip
    (objectToEvent newEPCISHeader : value -> M value) (env : settings)
    (ps : props) (n : loc) :
  unique_keys ps = true ->
  is_json (VObj ps) = true ->
  lookup_prop "isA" ps <> None ->
  truthy (get "@context" ps) = true ->
  truthy (get "schemaVersion" ps) = true ->
  truthy (get "creationDate" ps) = true ->
  lookup_prop "useEventListByDefault" ps = None ->
  lookup_prop "eventList" ps = None ->
  lookup_prop "event" ps = None ->
  (forall h, lookup_prop "epcisHeader" ps = Some h ->
     builds newEPCISHeader
            (fun raw H => deep_eq (Entity.plain H) raw) h) ->
  RoundTrip.supported_body objectToEvent (useEventListByDefault env)
    (lookup_prop "epcisBody" ps) ->
  exists this n' out,
    EPCISDocument.new objectToEvent newEPCISHeader env (VObj ps) n
      = Ok (VEnt n "EPCISDocument" this, n') /\
    EPCISDocument.toObject this = Ok out /\
    deep_eq out (VObj ps).
Proof.
  intros Huniq Hjson HisA Hc Hv Hd Hpt Hpl Hpe Hheader Hbody.
  pose proof (before_loop_given env ps Huniq Hc Hv Hd) as Hthis0.
  destruct (constructor_loop objectToEvent newEPCISHeader
              RoundTrip.roundtrips
              (fun raw H => deep_eq (Entity.plain H) raw) ps
              (EPCISDocument.before_loop env (VObj ps)) (S n) Huniq)
    as (this & n' & Hrun & Hother & Ha & Hh & Hb).
  { split; [exact Hheader|]. intros body Hin. split.
    - rewrite Hthis0. now simpl_props.
    - rewrite Hin in Hbody. eapply supported_events; eauto. }
  rewrite Hthis0 in Hother, Ha, Hh, Hb.
  assert (Htoggle : get "useEventListByDefault" this
                    = useEventListByDefault env).
  { unfold get. rewrite Hother by discriminate. now simpl_props. }
  assert (Hevent : lookup_prop "event" this = None).
  { rewrite Hother by discriminate. now simpl_props. }
  assert (Hrest : forall k, k <> "useEventListByDefault" -> k <> "eventList" ->
            option_Forall2 deep_eq
              (option_map Entity.plain (lookup_prop k this))
              (lookup_prop k ps)).
  { intros k Hk1 Hk2.
    destruct (String.eqb_spec k "isA") as [->|Hk3].
    { rewrite Ha. destruct (lookup_prop "isA" ps) as [v|] eqn:E;
        [|congruence].
      simpl. rewrite plain_json by (eapply is_json_lookup; eauto).
      constructor. apply deep_eq_same. }
    destruct (String.eqb_spec k "epcisHeader") as [->|Hk4].
    { destruct (lookup_prop "epcisHeader" ps) as [h|] eqn:E.
      - destruct Hh as (H & -> & Heq). now constructor.
      - rewrite Hh. simpl_props. rewrite E. constructor. }
    rewrite Hother by assumption. simpl_props. now apply keeps_json. }
  exists this, n'.
  assert (Hnew := new_runs_loop _ _ _ _ _ _ _ Hrun).
  cut (exists out, EPCISDocument.toObject this = Ok out /\
                   deep_eq out (VObj ps)).
  { intros (out & Hout & Heq). now exists out. }
  inversion Hbody as [Hon Hnone|body Hon Hraw Hsome
                      |events Hnonempty Hshape Hall Hsome
                      |event Hoff Htruthy Hone Hsome].
  - (* no body *)
    rewrite <- Hnone in Hb.
    apply roundtrip_without_list; auto; [|congruence].
    rewrite Hb. now simpl_props.
  - (* a body without events *)
    rewrite <- Hsome in Hb. destruct Hb as (events & built & Hraw' & _ & Hl).
    rewrite Hraw in Hraw'. injection Hraw' as <-.
    apply roundtrip_without_list; auto. congruence.
  - (* a list of events *)
    rewrite <- Hsome in Hb. destruct Hb as (events' & built & Hraw' & Hb & Hl).
    assert (events' = events) as -> by (cbv in Hraw'; congruence).
    destruct (roundtrips_all _ _ Hb) as (Hents & Hdeep & Hlen).
    destruct events as [|event events]; [congruence|].
    apply (roundtrip_with_list this ps built
             [("eventList", VArr (List.map Entity.plain built))]
             (VObj [("eventList", VArr (event :: events))])); auto.
    + rewrite Htoggle, Hlen.
      destruct Hshape as [->|Hlong]; [reflexivity|].
      apply Nat.ltb_ge in Hlong. rewrite Hlong. now rewrite andb_false_r.
    + apply single_field_eq. now apply deep_eq_arr.
  - (* a single event *)
    rewrite <- Hsome in Hb. destruct Hb as (events' & built & Hraw' & Hb & Hl).
    assert (events' = [event]) as ->.
    { unfold EPCISDocument.raw_events, prop_read, rbind in Hraw'.
      rewrite get_single, Htruthy in Hraw'. congruence. }
    destruct (roundtrips_all _ _ Hb) as (Hents & Hdeep & Hlen).
    inversion Hb as [|? e ? rest [_ Heq] Hnil]; subst. inversion Hnil; subst.
    apply (roundtrip_with_list this ps [e] [("event", Entity.plain e)]
             (VObj [("event", event)])); auto.
    + rewrite Htoggle, Hoff. reflexivity.
    + now apply single_field_eq.
Qed.

Lemma new_toObject_roundtrip_witness :
  exists this n' out,
    Model.newDocument Model.defaultSettings Samples.exampleDocument 0
      = Ok (VEnt 0 "EPCISDocument" this, n') /\
    EPCISDocument.toObject this = Ok out /\
    deep_eq out Samples.exampleDocument.
Proof.
  apply (new_toObject_roundtrip Model.objectToEvent Model.newEPCISHeader
           Model.defaultSettings (entries Samples.exampleDocument) 0);
    try reflexivity.
  - discriminate.
  - intros h [= <-] m. do 2 eexists. split; [reflexivity|].
    apply deep_eq_same.
  - apply RoundTrip.body_eventList.
    + discriminate.
    + left. reflexivity.
    + repeat constructor; intros m; do 2 eexists;
        (split; [reflexivity|]); (split; [reflexivity|]);
        apply deep_eq_same.
Defined.

(** C2, as stated, fails.  [Samples.typedDocument] gives the three
    defaulted fields; the constructor also sets [isA], which [toObject]
    serializes: the output has a field that the raw document has not. *)
Lemma roundtrip_adds_isA :
  truthy (get "schemaVersion" (entries Samples.typedDocument)) = true /\
  truthy (get "@context" (entries Samples.typedDocument)) = true /\
  truthy (get "creationDate" (entries Samples.typedDocument)) = true /\
  exists this out,
    Model.newDocument Model.defaultSettings Samples.typedDocument 0
      = Ok (VEnt 0 "EPCISDocument" this, 1) /\
    EPCISDocument.toObject this = Ok (VObj out) /\
    lookup_prop "isA" out = Some (VStr "EPCISDocument") /\
    ~ deep_eq (VObj out) Samples.typedDocument.
Proof.
  repeat (split; [reflexivity|]).
  exists (entries Samples.typedDocument ++
          [("isA", VStr "EPCISDocument"); ("useEventListByDefault", VBool true)])%list,
         (entries Samples.typedDocument ++ [("isA", VStr "EPCISDocument")])%list.
  repeat (split; [reflexivity|]).
  intros Heq. inversion Heq as [|? ? ?|ps qs Hkeys]; subst.
  specialize (Hkeys "isA"). inversion Hkeys.
Qed.

(** ** The validation engine *)

Lemma collect_In {A} (check : A -> result (list violation)) xs x errs :
  In x xs ->
  Validator.collect check xs = Ok errs ->
  exists here, check x = Ok here /\ incl here errs.
Proof.
  revert errs. induction xs as [|y xs IH]; intros errs Hin; [destruct Hin|].
  simpl. destruct (check y) as [here|] eqn:Hy; [|discriminate]. simpl.
  destruct (Validator.collect check xs) as [there|] eqn:Hxs; [|discriminate].
  simpl. intros [= <-]. destruct Hin as [->|Hin].
  - exists here. split; [exact Hy | now apply incl_appl].
  - destruct (IH there Hin eq_refl) as (h & Hh & Hincl).
    exists h. split; [exact Hh | now apply incl_appr].
Qed.

Lemma collect_indexed_nth {A} (check : nat -> A -> result (list violation))
    xs x : forall j i errs,
  nth_error xs j = Some x ->
  Validator.collect_indexed check i xs = Ok errs ->
  exists here, check (i + j)%nat x = Ok here /\ incl here errs.
Proof.
  induction xs as [|y xs IH]; intros j i errs Hnth; [now destruct j|].
  simpl. destruct (check i y) as [here|] eqn:Hy; [|discriminate]. simpl.
  destruct (Validator.collect_indexed check (S i) xs) as [there|] eqn:Hxs;
    [|discriminate].
  simpl. intros [= <-]. destruct j as [|j].
  - injection Hnth as ->. rewrite Nat.add_0_r.
    exists here. split; [exact Hy | now apply incl_appl].
  - destruct (IH j (S i) there Hnth Hxs) as (h & Hh & Hincl).
    rewrite Nat.add_succ_r. exists h.
    split; [exact Hh | now apply incl_appr].
Qed.

Section EngineProperties.
Variable Schema : Type.
Variable conforms : Schema -> value -> list violation.
Variable schemas : gmap string Schema.
Variable fieldSets : gmap string (gset string).
Variable nodeFieldSet : string -> string -> value -> option string.

Let validateNode :=
  Validator.validateNode fieldSets nodeFieldSet.

Lemma key_is_known (fieldSet : gset string) (ps : props) k v :
  In (k, v) ps -> k ∈ fieldSet ->
  existsb (String.eqb k)
    (List.filter (fun k => bool_decide (k ∈ fieldSet)) (keys ps)) = true.
Proof.
  intros Hin Hk. apply existsb_exists. exists k.
  split; [|apply String.eqb_refl].
  apply filter_In. split.
  - unfold keys. apply in_map_iff. now exists (k, v).
  - now apply bool_decide_eq_true.
Qed.

Lemma key_is_foreign (fieldSet : gset string) (ps : props) k v :
  In (k, v) ps -> k ∉ fieldSet ->
  existsb (String.eqb k)
    (List.filter (fun k => negb (bool_decide (k ∈ fieldSet))) (keys ps))
  = true.
Proof.
  intros Hin Hk. apply existsb_exists. exists k.
  split; [|apply String.eqb_refl].
  apply filter_In. split.
  - unfold keys. apply in_map_iff. now exists (k, v).
  - apply negb_true_iff. now apply bool_decide_eq_false.
Qed.

(** An unqualified foreign key of a node is reported at that node. *)
Lemma unqualified_key_here prefixes N at_ ps fieldSet k v errs :
  fieldSets !! N = Some fieldSet ->
  In (k, v) ps -> k ∉ fieldSet ->
  Validator.qualified k = None ->
  validateNode prefixes N at_ (VObj ps) = Ok errs ->
  In (Validator.unqualifiedKey (at_ ++ [k])) errs.
Proof.
  intros Hfs Hin Hk Hq. unfold validateNode. simpl.
  unfold Validator.ensureFieldSet. rewrite Hfs. simpl.
  destruct (Validator.collect _ ps) as [below|]; [|discriminate]. simpl.
  intros [= <-]. apply in_or_app. right.
  apply in_flat_map. exists (k, v). split; [exact Hin|]. simpl.
  rewrite (key_is_foreign _ _ _ _ Hin Hk).
  unfold Validator.foreignKey. rewrite Hq. now left.
Qed.

(** What is reported below a known key is reported at the node. *)
Lemma reported_below_field prefixes N at_ ps fieldSet k v C errs :
  fieldSets !! N = Some fieldSet ->
  In (k, v) ps -> k ∈ fieldSet ->
  (forall xs, v <> VArr xs) ->
  nodeFieldSet N k v = Some C ->
  validateNode prefixes N at_ (VObj ps) = Ok errs ->
  exists below,
    validateNode prefixes C (at_ ++ [k]) v = Ok below /\ incl below errs.
Proof.
  intros Hfs Hin Hk Hv HC. unfold validateNode. simpl.
  unfold Validator.ensureFieldSet. rewrite Hfs. simpl.
  destruct (Validator.collect _ ps) as [below|] eqn:Hbelow; [|discriminate].
  simpl. intros [= <-].
  destruct (collect_In _ _ _ _ Hin Hbelow) as (here & Hhere & Hincl).
  simpl in Hhere. rewrite (key_is_known _ _ _ _ Hin Hk), HC in Hhere.
  exists here. split.
  - destruct v; try exact Hhere. now destruct (Hv xs).
  - now apply incl_appl.
Qed.

Lemma reported_below_element prefixes N at_ ps fieldSet k xs i x C errs :
  fieldSets !! N = Some fieldSet ->
  In (k, VArr xs) ps -> k ∈ fieldSet ->
  nth_error xs i = Some x ->
  nodeFieldSet N k x = Some C ->
  validateNode prefixes N at_ (VObj ps) = Ok errs ->
  exists below,
    validateNode prefixes C (at_ ++ [k; index_key i]) x = Ok below /\
    incl below errs.
Proof.
  intros Hfs Hin Hk Hx HC. unfold validateNode. simpl.
  unfold Validator.ensureFieldSet. rewrite Hfs. simpl.
  destruct (Validator.collect _ ps) as [below|] eqn:Hbelow; [|discriminate].
  simpl. intros [= <-].
  destruct (collect_In _ _ _ _ Hin Hbelow) as (here & Hhere & Hincl).
  simpl in Hhere. rewrite (key_is_known _ _ _ _ Hin Hk) in Hhere.
  destruct (collect_indexed_nth _ _ _ _ _ _ Hx Hhere) as (h & Hh & Hi).
  simpl in Hh. rewrite HC in Hh. exists h. split; [exact Hh|].
  apply incl_appl. eapply incl_tran; eauto.
Qed.

(** Violations are found at any depth: an unqualified foreign key of a
    visited node is reported at the root, at the path of the key. *)
Lemma descent_reports_unqualified_key prefixes N at_ root N' at' node' :
  Validator.visits fieldSets nodeFieldSet N at_ root N' at' node' ->
  forall fields' fieldSet' k v,
    node' = VObj fields' ->
    fieldSets !! N' = Some fieldSet' ->
    In (k, v) fields' -> k ∉ fieldSet' ->
    Validator.qualified k = None ->
    forall errs,
      validateNode prefixes N at_ root = Ok errs ->
      In (Validator.unqualifiedKey (at' ++ [k])) errs.
Proof.
  induction 1 as [N at_ node
                 |N at_ fields fieldSet k0 v0 C N' at' node'
                    Hfs Hin Hk Hv HC _ IH
                 |N at_ fields fieldSet k0 xs i x C N' at' node'
                    Hfs Hin Hk Hx HC _ IH];
    intros fields' fieldSet' k v -> Hfs' Hin' Hk' Hq errs Hrun.
  - eapply unqualified_key_here; eauto.
  - destruct (reported_below_field _ _ _ _ _ _ _ _ _ Hfs Hin Hk Hv HC Hrun)
      as (below & Hbelow & Hincl).
    apply Hincl. exact (IH _ _ _ _ eq_refl Hfs' Hin' Hk' Hq _ Hbelow).
  - destruct (reported_below_element _ _ _ _ _ _ _ _ _ _ _ Hfs Hin Hk Hx HC
                Hrun) as (below & Hbelow & Hincl).
    apply Hincl. exact (IH _ _ _ _ eq_refl Hfs' Hin' Hk' Hq _ Hbelow).
Qed.
End EngineProperties.

(** C7.  Whatever the value, [validateAgainstSchema] throws
    [UnknownSchemaError] for a schema name that is not registered and
    [ensureFieldSet] throws [UnknownFieldSetError] for a field-set name
    that is not registered; for a registered name neither throws. *)
Theorem unknown_catalog_name_throws (Schema : Type)
    (conforms : Schema -> value -> list violation)
    (schemas : gmap string Schema) (fieldSets : gmap string (gset string)) :
  (forall v name,
     schemas !! name = None ->
     Validator.validateAgainstSchema Schema conforms schemas v name
     = Throw UnknownSchemaError) /\
  (forall v name,
     fieldSets !! name = None ->
     Validator.ensureFieldSet fieldSets v name = Throw UnknownFieldSetError) /\
  (forall v name,
     is_Some (schemas !! name) ->
     exists errs,
       Validator.validateAgainstSchema Schema conforms schemas v name
       = Ok errs) /\
  (forall v name,
     is_Some (fieldSets !! name) ->
     exists parts, Validator.ensureFieldSet fieldSets v name = Ok parts).
Proof.
  repeat split.
  - intros v name H. unfold Validator.validateAgainstSchema. now rewrite H.
  - intros v name H. unfold Validator.ensureFieldSet. now rewrite H.
  - intros v name [schema H]. unfold Validator.validateAgainstSchema.
    rewrite H. now eexists.
  - intros v name [fieldSet H]. unfold Validator.ensureFieldSet.
    rewrite H. now eexists.
Qed.

Lemma unknown_catalog_name_throws_witness :
  Validator.validateAgainstSchema unit Catalog.conforms Catalog.schemas
    (VObj []) "invalidName" = Throw UnknownSchemaError /\
  Validator.ensureFieldSet Catalog.fieldSets (VObj []) "invalidName"
    = Throw UnknownFieldSetError.
Proof.
  destruct (unknown_catalog_name_throws unit Catalog.conforms
              Catalog.schemas Catalog.fieldSets) as (Hs & Hf & _).
  split; [apply Hs | apply Hf]; reflexivity.
Defined.

(** C6.  A value whose discriminator ([type], else [isA]) does not name a
    registered document schema makes [validateEpcisDocument] throw
    [UnknownDocumentType], in either mode and whatever the catalogs and
    the checks are: nothing else is consulted before. *)
Theorem unresolved_discriminator_throws (Schema : Type)
    (conforms : Schema -> value -> list violation)
    (schemas : gmap string Schema) (fieldSets : gmap string (gset string))
    (nodeFieldSet : string -> string -> value -> option string)
    (m : Validator.mode) (doc : value) :
  (forall t, Model.discriminator doc = VStr t ->
             ~ (In t Validator.documentTypes /\ is_Some (schemas !! t))) ->
  Validator.validateEpcisDocument Schema conforms schemas fieldSets
    nodeFieldSet m doc = Throw UnknownDocumentType.
Proof.
  intros Hnone.
  unfold Validator.validateEpcisDocument, Validator.resolveDocumentType.
  destruct (Model.discriminator doc) as [| | | |t| | |]; try reflexivity.
  destruct (existsb (String.eqb t) Validator.documentTypes) eqn:Hknown;
    [|reflexivity].
  destruct (bool_decide (is_Some (schemas !! t))) eqn:Hregistered;
    [|reflexivity].
  exfalso. apply (Hnone t eq_refl). split.
  - apply existsb_exists in Hknown as (t' & Hin & Heq).
    apply String.eqb_eq in Heq. now subst.
  - now apply bool_decide_eq_true in Hregistered.
Qed.

Lemma unresolved_discriminator_throws_witness :
  Catalog.validateEpcisDocument Validator.Assert Catalog.invalid
    = Throw UnknownDocumentType /\
  Catalog.validateEpcisDocument Validator.Collect Catalog.invalid
    = Throw UnknownDocumentType.
Proof.
  split;
    apply (unresolved_discriminator_throws unit Catalog.conforms
             Catalog.schemas Catalog.fieldSets Catalog.nodeFieldSet);
    intros t Ht; discriminate Ht.
Defined.

(** C5.  When the descent from the root of a document visits a node, at
    whatever depth, that has a foreign key which is not
    namespace-qualified, an [ExtensionViolation] is recorded at the path
    of that key, which is the path of the node followed by the key: the
    collect mode reports [success = false] with that violation among the
    errors, and the assert mode does not return. *)
Theorem nested_unqualified_key_fails (Schema : Type)
    (conforms : Schema -> value -> list violation)
    (schemas : gmap string Schema) (fieldSets : gmap string (gset string))
    (nodeFieldSet : string -> string -> value -> option string)
    (doc : value) (T N' : string) (at' : list string) (fields' : props)
    (fieldSet' : gset string) (k : string) (v : value) :
  Validator.resolveDocumentType Schema schemas doc = Some T ->
  Validator.visits fieldSets nodeFieldSet T [] doc N' at' (VObj fields') ->
  fieldSets !! N' = Some fieldSet' ->
  In (k, v) fields' ->
  k ∉ fieldSet' ->
  Validator.qualified k = None ->
  forall m r,
    Validator.validateEpcisDocument Schema conforms schemas fieldSets
      nodeFieldSet m doc = Ok r ->
    m = Validator.Collect /\
    Validator.success r = false /\
    exists recorded,
      In recorded (Validator.errors r) /\
      kind recorded = ExtensionViolation /\
      path recorded = (at' ++ [k])%list /\
      recorded = Validator.unqualifiedKey (at' ++ [k]).
Proof.
  intros Hres Hvisits Hfs Hin Hk Hq m r.
  unfold Validator.validateEpcisDocument. rewrite Hres.
  destruct (Validator.validateAgainstSchema _ _ _ doc T) as [structural|];
    [|discriminate].
  destruct (Validator.validateEvents _ _ _ _) as [events|]; [|discriminate].
  cbn [rbind].
  destruct (Validator.validateNode _ _ _ _ _ doc) as [extensions|] eqn:Hrun;
    [|discriminate].
  cbn [rbind].
  pose proof (descent_reports_unqualified_key fieldSets nodeFieldSet _ _ _ _
                _ _ _ Hvisits _ _ _ _ eq_refl Hfs Hin Hk Hq _ Hrun) as Hat.
  assert (Hall : In (Validator.unqualifiedKey (at' ++ [k]))
                    (structural ++ events ++ extensions)).
  { apply in_or_app. right. apply in_or_app. now right. }
  destruct (structural ++ events ++ extensions)%list as [|e errs];
    [destruct Hall|].
  destruct m; [|discriminate].
  intros [= <-]. split; [reflexivity|]. split; [reflexivity|].
  exists (Validator.unqualifiedKey (at' ++ [k])). now repeat split.
Qed.

Lemma nested_unqualified_key_fails_witness :
  exists r,
    Catalog.validateEpcisDocument Validator.Collect
      (Catalog.sensorDocument "furtherEventData") = Ok r /\
    Validator.success r = false /\
    exists recorded,
      In recorded (Validator.errors r) /\
      kind recorded = ExtensionViolation /\
      path recorded
      = ["epcisBody"; "eventList"; "0"; "sensorElementList"; "0";
         "furtherEventData"] /\
      recorded
      = Validator.unqualifiedKey
          ["epcisBody"; "eventList"; "0"; "sensorElementList"; "0";
           "furtherEventData"].
Proof.
  assert (Hrun : Catalog.validateEpcisDocument Validator.Collect
                   (Catalog.sensorDocument "furtherEventData")
                 = Ok {| Validator.success := false;
                         Validator.errors :=
                           [Validator.unqualifiedKey
                              ["epcisBody"; "eventList"; "0";
                               "sensorElementList"; "0";
                               "furtherEventData"]] |})
    by (vm_compute; reflexivity).
  eexists. split; [exact Hrun|].
  refine (proj2 (nested_unqualified_key_fails unit Catalog.conforms
            Catalog.schemas Catalog.fieldSets Catalog.nodeFieldSet
            (Catalog.sensorDocument "furtherEventData")
            "EPCISDocument" "SensorElement"
            ["epcisBody"; "eventList"; "0"; "sensorElementList"; "0"]
            (entries (Catalog.sensorElement "furtherEventData"))
            Catalog.sensorElementFields "furtherEventData" _
            _ _ _ _ _ _ Validator.Collect _ Hrun)).
  - vm_compute. reflexivity.
  - eapply (Validator.visits_field _ _ _ _ _ Catalog.documentFields
              "epcisBody" _ "EPCISBody").
    + vm_compute. reflexivity.
    + simpl. do 4 right. left. reflexivity.
    + apply (bool_decide_unpack _). vm_compute. exact I.
    + intros xs. discriminate.
    + reflexivity.
    + eapply (Validator.visits_element _ _ _ _ _ Catalog.bodyFields
                "eventList" _ 0%nat (Catalog.sensorEvent "furtherEventData")
                "ObjectEvent").
      * vm_compute. reflexivity.
      * left. reflexivity.
      * apply (bool_decide_unpack _). vm_compute. exact I.
      * reflexivity.
      * reflexivity.
      * eapply (Validator.visits_element _ _ _ _ _ Catalog.eventFields
                  "sensorElementList" _ 0%nat
                  (Catalog.sensorElement "furtherEventData")
                  "SensorElement").
        -- vm_compute. reflexivity.
        -- simpl. do 7 right. left. reflexivity.
        -- apply (bool_decide_unpack _). vm_compute. exact I.
        -- reflexivity.
        -- reflexivity.
        -- apply Validator.visits_here.
  - vm_compute. reflexivity.
  - left. reflexivity.
  - apply (bool_decide_unpack _). vm_compute. exact I.
  - reflexivity.
Defined.

(** * Further properties of the sources *)

(** ** The accessors of a list field *)

Lemma get_array_lookup k ps xs :
  get k ps = VArr xs -> lookup_prop k ps = Some (VArr xs).
Proof.
  unfold get. destruct (lookup_prop k ps); [now intros ->|discriminate].
Qed.

Lemma add_onto_list field x this xs :
  get field this = VArr xs ->
  exists this',
    ListField.add field x this = Ok this' /\
    get field this' = VArr (xs ++ [x]) /\
    forall k, k <> field -> lookup_prop k this' = lookup_prop k this.
Proof.
  intros Hlist. unfold ListField.add. rewrite Hlist. simpl.
  rewrite Hlist. simpl.
  eexists. split; [reflexivity|]. rewrite get_set_eq.
  split; [reflexivity|]. intros k Hk. now rewrite lookup_set_ne by congruence.
Qed.

Lemma add_creates_list field x this :
  truthy (get field this) = false ->
  exists this',
    ListField.add field x this = Ok this' /\
    get field this' = VArr [x] /\
    forall k, k <> field -> lookup_prop k this' = lookup_prop k this.
Proof.
  intros Hfalsy. unfold ListField.add. rewrite Hfalsy, get_set_eq. simpl.
  eexists. split; [reflexivity|]. rewrite get_set_eq.
  split; [reflexivity|]. intros k Hk.
  now rewrite !lookup_set_ne by congruence.
Qed.

(** X1.  [add] appends at the end of the list and creates the list when
    the property is missing or falsy; it writes no other property.  On a
    truthy property that is not an array it throws. *)
Theorem add_appends (field : string) (x : value) (this : props) :
  (forall xs, get field this = VArr xs ->
     exists this',
       ListField.add field x this = Ok this' /\
       ListField.getList field this' = VArr (xs ++ [x]) /\
       forall k, k <> field -> lookup_prop k this' = lookup_prop k this) /\
  (truthy (get field this) = false ->
     exists this',
       ListField.add field x this = Ok this' /\
       ListField.getList field this' = VArr [x] /\
       forall k, k <> field -> lookup_prop k this' = lookup_prop k this) /\
  (truthy (get field this) = true ->
   (forall xs, get field this <> VArr xs) ->
   ListField.add field x this = Throw TypeError).
Proof.
  unfold ListField.getList. split; [|split].
  - intros xs Hlist. now apply add_onto_list.
  - intros Hfalsy. now apply add_creates_list.
  - intros Htruthy Hother. unfold ListField.add. rewrite Htruthy.
    destruct (get field this); try reflexivity. now destruct (Hother xs).
Qed.

Lemma add_appends_witness :
  exists this',
    TransactionEvent.addEPC Samples.epc2021 Samples.repeatedEPC = Ok this' /\
    TransactionEvent.getEPCList this'
      = VArr [Samples.epc2020; Samples.epc2021; Samples.epc2020;
              Samples.epc2021].
Proof.
  destruct (proj1 (add_appends "epcList" Samples.epc2021 Samples.repeatedEPC)
              [Samples.epc2020; Samples.epc2021; Samples.epc2020] eq_refl)
    as (this' & Hadd & Hlist & _).
  exists this'. split; [exact Hadd | exact Hlist].
Defined.

Lemma add_each_throw field ys e :
  fold_left (fun r y => this <- r ;; ListField.add field y this) ys (Throw e)
  = Throw e.
Proof. induction ys; simpl; auto. Qed.

Lemma add_each_to_list field ys : forall this xs,
  get field this = VArr xs ->
  exists this',
    fold_left (fun r y => this <- r ;; ListField.add field y this) ys (Ok this)
      = Ok this' /\
    get field this' = VArr (xs ++ ys).
Proof.
  induction ys as [|y ys IH]; intros this xs Hlist; simpl.
  - exists this. now rewrite app_nil_r.
  - destruct (add_onto_list field y this xs Hlist)
      as (this1 & -> & Hlist1 & _).
    destruct (IH this1 (xs ++ [y])%list Hlist1) as (this' & Hrun & Hlist').
    exists this'. split; [exact Hrun|]. now rewrite Hlist', <- app_assoc.
Qed.

(** X2.  [addAll] appends the elements of its argument in order, and so
    does one [add] per element; on an entity without the list, [addAll]
    of an empty array still creates the list, empty, where no [add] at
    all leaves the property missing. *)
Theorem addAll_appends_all (field : string) (ys : list value)
    (this : props) :
  (forall xs, get field this = VArr xs ->
     exists this' this'',
       ListField.addAll field (VArr ys) this = Ok this' /\
       ListField.getList field this' = VArr (xs ++ ys) /\
       fold_left (fun r y => this <- r ;; ListField.add field y this)
                 ys (Ok this) = Ok this'' /\
       ListField.getList field this'' = VArr (xs ++ ys)) /\
  (truthy (get field this) = false ->
     exists this',
       ListField.addAll field (VArr ys) this = Ok this' /\
       lookup_prop field this' = Some (VArr ys) /\
       (ys <> [] ->
        exists this'',
          fold_left (fun r y => this <- r ;; ListField.add field y this)
                    ys (Ok this) = Ok this'' /\
          ListField.getList field this'' = VArr ys)).
Proof.
  unfold ListField.getList. split.
  - intros xs Hlist.
    destruct (add_each_to_list field ys this xs Hlist) as (this'' & Hrun & H).
    unfold ListField.addAll. rewrite Hlist. simpl. rewrite Hlist. simpl.
    eexists. exists this''. rewrite get_set_eq. auto.
  - intros Hfalsy. unfold ListField.addAll. rewrite Hfalsy, get_set_eq. simpl.
    eexists. split; [reflexivity|]. rewrite lookup_set_eq.
    split; [reflexivity|]. intros Hne.
    destruct ys as [|y ys]; [congruence|]. simpl.
    destruct (add_creates_list field y this Hfalsy)
      as (this1 & -> & Hlist1 & _).
    destruct (add_each_to_list field ys this1 [y] Hlist1) as (this'' & ? & ?).
    now exists this''.
Qed.

Lemma addAll_appends_all_witness :
  exists this',
    EPCISDocument.addEventList (VArr []) (Samples.emptyDocument true)
      = Ok this' /\
    lookup_prop "eventList" this' = Some (VArr []).
Proof.
  destruct (proj2 (addAll_appends_all "eventList" []
                     (Samples.emptyDocument true)) eq_refl)
    as (this' & Hadd & Hlist & _).
  exists this'. split; [exact Hadd | exact Hlist].
Defined.

(** X3.  Without the list, [remove] throws a [TypeError] whatever the
    element, and so does [removeAll] unless its argument is empty, in
    which case it does nothing; in particular [remove] throws right after
    [clear]. *)
Theorem remove_without_list_throws (field : string) (this : props) :
  lookup_prop field this = None ->
  (forall e, ListField.remove field e this = Throw TypeError) /\
  (forall y ys,
     ListField.removeAll field (VArr (y :: ys)) this = Throw TypeError) /\
  ListField.removeAll field (VArr []) this = Ok this /\
  (forall that e,
     ListField.remove field e (ListField.clear field that) = Throw TypeError).
Proof.
  intros Hnone.
  assert (Hthrow : forall that e,
             lookup_prop field that = None ->
             ListField.remove field e that = Throw TypeError).
  { intros that e H. unfold ListField.remove.
    now rewrite (get_absent _ _ H). }
  repeat split.
  - intros e. now apply Hthrow.
  - intros y ys. simpl. now rewrite Hthrow.
  - intros that e. apply Hthrow. unfold ListField.clear.
    apply lookup_del_eq.
Qed.

Lemma remove_without_list_throws_witness :
  EPCISDocument.removeEvent (Samples.objectEvent 1)
    (Samples.emptyDocument true) = Throw TypeError.
Proof.
  apply (proj1 (remove_without_list_throws "eventList"
                  (Samples.emptyDocument true) eq_refl)).
Defined.

Lemma filter_twice {A} (p q : A -> bool) xs :
  List.filter p (List.filter q xs) = List.filter (fun x => q x && p x) xs.
Proof.
  induction xs as [|x xs IH]; simpl; auto.
  destruct (q x); simpl; [destruct (p x)|]; now rewrite IH.
Qed.

Lemma removeAll_on_list (field : string) (ys : list value) :
  forall (this : props) (xs : list value),
    get field this = VArr xs ->
    exists this',
      ListField.removeAll field (VArr ys) this = Ok this' /\
      ListField.getList field this'
        = VArr (List.filter (fun x => negb (existsb (strict_eq x) ys)) xs) /\
      forall k, k <> field -> lookup_prop k this' = lookup_prop k this.
Proof.
  unfold ListField.getList. simpl.
  induction ys as [|y ys IH]; intros this xs Hlist; simpl.
  - exists this. split; [reflexivity|]. split; [|reflexivity].
    rewrite Hlist. f_equal. clear Hlist.
    induction xs as [|x xs IHxs]; simpl; auto. now rewrite <- IHxs.
  - unfold ListField.remove at 1. rewrite Hlist. simpl.
    destruct (IH (set field
                    (VArr (List.filter (fun x => negb (strict_eq x y)) xs))
                    this) _ (get_set_eq _ _ _))
      as (this' & Hrun & Hlist' & Hother).
    exists this'. split; [exact Hrun|]. split.
    + rewrite Hlist', filter_twice. f_equal. apply filter_ext.
      intros x. now rewrite negb_orb.
    + intros k Hk. rewrite Hother by assumption.
      now rewrite lookup_set_ne by congruence.
Qed.

(** X4.  On an existing list [removeAll] of an array of primitives or
    entities keeps, in order, exactly the elements that are identical to
    none of the elements of the array, and writes no other property. *)
Theorem removeAll_filters (field : string) (ys : list value) :
  Forall (fun y => strict_eq y y = true) ys ->
  forall (this : props) (xs : list value),
    get field this = VArr xs ->
    exists this',
      ListField.removeAll field (VArr ys) this = Ok this' /\
      ListField.getList field this'
        = VArr (List.filter (fun x => negb (existsb (strict_eq x) ys)) xs) /\
      forall k, k <> field -> lookup_prop k this' = lookup_prop k this.
Proof. intros _. apply removeAll_on_list. Qed.

Lemma removeAll_filters_witness :
  exists this',
    TransactionEvent.removeEPCList (VArr [Samples.epc2020; Samples.epc2021])
      Samples.repeatedEPC = Ok this' /\
    TransactionEvent.getEPCList this' = VArr [].
Proof.
  destruct (removeAll_filters "epcList" [Samples.epc2020; Samples.epc2021]
              ltac:(repeat constructor)
              Samples.repeatedEPC
              [Samples.epc2020; Samples.epc2021; Samples.epc2020] eq_refl)
    as (this' & Hrun & Hlist & _).
  exists this'. split; [exact Hrun | exact Hlist].
Defined.

(** X5.  Removing an element right after adding it gives the list back,
    when the element is a primitive or an entity that was not in the list;
    on an entity without the list the two calls leave an empty list. *)
Theorem remove_undoes_add (field : string) (x : value) (this : props) :
  strict_eq x x = true ->
  (forall xs,
     get field this = VArr xs ->
     forallb (fun y => negb (strict_eq y x)) xs = true ->
     exists this1 this2,
       ListField.add field x this = Ok this1 /\
       ListField.remove field x this1 = Ok this2 /\
       ListField.getList field this2 = VArr xs) /\
  (truthy (get field this) = false ->
     exists this1 this2,
       ListField.add field x this = Ok this1 /\
       ListField.remove field x this1 = Ok this2 /\
       ListField.getList field this2 = VArr []).
Proof.
  intros Hself. unfold ListField.getList. split.
  - intros xs Hlist Hfresh.
    destruct (add_onto_list field x this xs Hlist)
      as (this1 & Hadd & Hlist1 & _).
    exists this1. eexists. split; [exact Hadd|].
    unfold ListField.remove. rewrite Hlist1. simpl.
    split; [reflexivity|]. rewrite get_set_eq, List.filter_app. simpl.
    rewrite Hself. simpl.
    now rewrite app_nil_r, filter_nothing_identical.
  - intros Hfalsy.
    destruct (add_creates_list field x this Hfalsy)
      as (this1 & Hadd & Hlist1 & _).
    exists this1. eexists. split; [exact Hadd|].
    unfold ListField.remove. rewrite Hlist1. simpl.
    split; [reflexivity|]. rewrite get_set_eq. now rewrite Hself.
Qed.

Lemma remove_undoes_add_witness :
  exists this1 this2,
    EPCISDocument.addEvent (Samples.objectEvent 2)
      (Samples.documentWith true [Samples.objectEvent 1]) = Ok this1 /\
    EPCISDocument.removeEvent (Samples.objectEvent 2) this1 = Ok this2 /\
    EPCISDocument.getEventList this2 = VArr [Samples.objectEvent 1].
Proof.
  apply (proj1 (remove_undoes_add "eventList" (Samples.objectEvent 2)
                  (Samples.documentWith true [Samples.objectEvent 1])
                  eq_refl) [Samples.objectEvent 1]); reflexivity.
Defined.

(** ** More on the serialization of the document *)

(** Reads the result of [toObject] off its last step. *)
Ltac toObject_result H O0 :=
  repeat match type of H with
         | context [if ?b then _ else _] => destruct b
         end;
  injection H as <-; eexists; (split; [reflexivity|]); subst O0;
  (split; [now simpl_props | intros; now simpl_props]).

(** X6.  Whenever [toObject] returns, the output is a plain object without
    [useEventListByDefault], in which every property of the entity other
    than the toggle, [event], [eventList] and [epcisBody] is serialized as
    [Entity.toObject] serializes it: nothing else is dropped or added. *)
Theorem toObject_serializes_other_properties (this : props) (out : value) :
  EPCISDocument.toObject this = Ok out ->
  exists ps,
    out = VObj ps /\
    lookup_prop "useEventListByDefault" ps = None /\
    forall k,
      k <> "useEventListByDefault" -> k <> "event" ->
      k <> "eventList" -> k <> "epcisBody" ->
      lookup_prop k ps = option_map Entity.plain (lookup_prop k this).
Proof.
  intros H. unfold EPCISDocument.toObject in H.
  set (O0 := del "useEventListByDefault" (Entity.toObject this)) in *.
  destruct (negb (truthy (get "useEventListByDefault" this))).
  - destruct (js_length (get "eventList" this)) as [[n|]|];
      cbn [rbind] in H; [| |discriminate].
    + destruct (n <? 2)%nat.
      * destruct (if (0 <? n)%nat then _ else _) as [event|];
          cbn [rbind] in H; [|discriminate].
        toObject_result H O0.
      * cbn [rbind] in H. toObject_result H O0.
    + toObject_result H O0.
  - cbn [rbind] in H. toObject_result H O0.
Qed.

Lemma toObject_serializes_other_properties_witness :
  exists ps,
    VObj [("isA", VStr "EPCISDocument");
          ("@context", VStr "https://id.gs1.org/epcis-context.jsonld");
          ("schemaVersion", VNum 2);
          ("creationDate", VStr "2021-03-01T00:00:00.000Z")] = VObj ps /\
    lookup_prop "useEventListByDefault" ps = None /\
    forall k,
      k <> "useEventListByDefault" -> k <> "event" ->
      k <> "eventList" -> k <> "epcisBody" ->
      lookup_prop k ps
      = option_map Entity.plain (lookup_prop k (Samples.emptyDocument true)).
Proof.
  apply (toObject_serializes_other_properties (Samples.emptyDocument true)).
  reflexivity.
Defined.

Lemma toObject_set k v ps :
  Entity.toObject (set k v ps) = set k (Entity.plain v) (Entity.toObject ps).
Proof.
  induction ps as [|[k' v'] ps IH]; simpl; auto.
  destruct (k =? k'); simpl; [reflexivity | now rewrite IH].
Qed.

Lemma del_set k v ps : del k (set k v ps) = del k ps.
Proof.
  unfold del. induction ps as [|[k' v'] ps IH]; simpl.
  - now rewrite String.eqb_refl.
  - destruct (k =? k') eqn:E; simpl.
    + apply String.eqb_eq in E. subst k'. now rewrite String.eqb_refl.
    + rewrite String.eqb_sym in E. rewrite E. simpl. now rewrite IH.
Qed.

(** X7.  From two events on, the output of [toObject] does not depend on
    [useEventListByDefault]: the toggle only matters for a list of fewer
    than two events. *)
Theorem toggle_is_irrelevant_from_two_events (this : props)
    (events : list value) (b b' : value) :
  EPCISDocument.getEventList this = VArr events ->
  (2 <= List.length events)%nat ->
  EPCISDocument.toObject (EPCISDocument.setUseEventListByDefault b this)
  = EPCISDocument.toObject (EPCISDocument.setUseEventListByDefault b' this).
Proof.
  unfold EPCISDocument.getEventList, ListField.getList.
  intros Hlist Hlen.
  assert (Hany : forall c,
    EPCISDocument.toObject (EPCISDocument.setUseEventListByDefault c this)
    = (output <- Ok (del "useEventListByDefault" (Entity.toObject this)) ;;
       if truthy (get "event" output) || truthy (get "eventList" output) then
         if truthy (get "event" output) then
           Ok (VObj (set "epcisBody"
                       (VObj (set "event" (get "event" output) []))
                       (del "event" output)))
         else
           Ok (VObj (set "epcisBody"
                       (VObj (set "eventList" (get "eventList" output) []))
                       (del "eventList" output)))
       else Ok (VObj output))).
  { intros c.
    unfold EPCISDocument.toObject, EPCISDocument.setUseEventListByDefault.
    rewrite toObject_set, del_set, get_set_eq.
    rewrite get_set_ne by discriminate. rewrite Hlist.
    apply Nat.ltb_ge in Hlen.
    destruct (truthy c); cbn [negb js_length rbind]; [reflexivity|].
    now rewrite Hlen. }
  now rewrite !Hany.
Qed.

Lemma toggle_is_irrelevant_from_two_events_witness :
  EPCISDocument.toObject
    (EPCISDocument.setUseEventListByDefault (VBool false)
       (Samples.documentWith true
          [Samples.objectEvent 1; Samples.objectEvent 2]))
  = EPCISDocument.toObject
      (EPCISDocument.setUseEventListByDefault (VBool true)
         (Samples.documentWith true
            [Samples.objectEvent 1; Samples.objectEvent 2])).
Proof.
  apply (toggle_is_irrelevant_from_two_events _
           [Samples.objectEvent 1; Samples.objectEvent 2]);
    [reflexivity | simpl; lia].
Defined.

(** ** More on the constructor of the document *)

Section ConstructorFacts.
Variables objectToEvent newEPCISHeader : value -> M value.

Let step := EPCISDocument.constructor_case objectToEvent newEPCISHeader.

Lemma constructor_case_keeps_isA this key value n this' n' :
  key <> "isA" ->
  step this (key, value) n = Ok (this', n') ->
  lookup_prop "isA" this' = lookup_prop "isA" this.
Proof.
  intros Hkey. unfold step, EPCISDocument.constructor_case.
  apply String.eqb_neq in Hkey. rewrite Hkey.
  destruct (key =? "epcisHeader").
  { unfold sbind, ret, EPCISDocument.setEPCISHeader.
    destruct (newEPCISHeader value n) as [[h n1]|]; [|discriminate].
    intros [= <- <-]. now rewrite lookup_set_ne by discriminate. }
  destruct (key =? "epcisBody"); [|now intros [= <- <-]].
  unfold sbind at 1. unfold lift at 1.
  destruct (prop_read value "event") as [event|]; [|discriminate].
  destruct (truthy event).
  { apply add_event_other. discriminate. }
  unfold sbind at 1. unfold lift at 1.
  destruct (prop_read value "eventList") as [eventList|]; [|discriminate].
  destruct (truthy eventList); [|now intros [= <- <-]].
  destruct eventList; try discriminate.
  apply forEach_other. intros. eapply add_event_other; [|eassumption].
  discriminate.
Qed.

Lemma constructor_loop_isA entries : forall this n this' n',
  unique_keys entries = true ->
  forEach step entries this n = Ok (this', n') ->
  lookup_prop "isA" this'
  = match lookup_prop "isA" entries with
    | Some v => Some v
    | None => lookup_prop "isA" this
    end.
Proof.
  induction entries as [|[key value] entries IH];
    intros this n this' n' Huniq.
  { now intros [= <- <-]. }
  destruct (unique_keys_head _ _ _ Huniq) as [Hkey Hrest].
  cbn [forEach]. unfold sbind at 1.
  destruct (step this (key, value) n) as [[this1 n1]|] eqn:Hstep;
    [|discriminate].
  intros Hrun. rewrite (IH _ _ _ _ Hrest Hrun).
  destruct (String.eqb_spec key "isA") as [->|Hne].
  - rewrite Hkey. cbn [lookup_prop]. rewrite String.eqb_refl.
    unfold step, EPCISDocument.constructor_case in Hstep. simpl in Hstep.
    injection Hstep as <- <-. apply lookup_set_eq.
  - cbn [lookup_prop]. apply String.eqb_neq in Hne as Hne'.
    rewrite String.eqb_sym in Hne'. rewrite Hne'.
    now rewrite (constructor_case_keeps_isA _ _ _ _ _ _ Hne Hstep).
Qed.

(** A loop does not return when one of its turns never does. *)
Lemma forEach_throws {A} (f : props -> A -> M props) xs x :
  In x xs ->
  (forall this n, exists e, f this x n = Throw e) ->
  forall this n, exists e, forEach f xs this n = Throw e.
Proof.
  intros Hin Hthrow. induction xs as [|y xs IH]; [destruct Hin|].
  intros this n. cbn [forEach]. unfold sbind.
  destruct Hin as [->|Hin].
  - destruct (Hthrow this n) as (e & ->). now exists e.
  - destruct (f this y n) as [[this1 n1]|e]; [now apply IH | now exists e].
Qed.
End ConstructorFacts.

(** X8.  The constructor copies every field of the raw document that it
    does not handle, extensions included, unchanged; it takes
    [useEventListByDefault] from the settings even when the raw document
    gives one, and keeps the [isA] of the raw document when there is one. *)
Theorem constructor_copies_other_fields
    (objectToEvent newEPCISHeader : value -> M value) (env : settings)
    (ps : props) (n : loc) (doc : value) (n' : loc) :
  unique_keys ps = true ->
  EPCISDocument.new objectToEvent newEPCISHeader env (VObj ps) n
    = Ok (doc, n') ->
  exists this,
    doc = VEnt n "EPCISDocument" this /\
    EPCISDocument.getUseEventListByDefault this = useEventListByDefault env /\
    EPCISDocument.getIsA this
      = match lookup_prop "isA" ps with
        | Some isA => isA
        | None => VStr "EPCISDocument"
        end /\
    forall k,
      k <> "isA" -> k <> "useEventListByDefault" ->
      k <> "@context" -> k <> "schemaVersion" -> k <> "creationDate" ->
      k <> "epcisHeader" -> k <> "eventList" ->
      lookup_prop k this = lookup_prop k ps.
Proof.
  intros Huniq. unfold EPCISDocument.new.
  unfold sbind at 1. unfold fresh. cbn [truthy negb entries].
  unfold sbind, ret.
  destruct (forEach _ ps _ (S n)) as [[this n1]|] eqn:Hloop; [|discriminate].
  intros [= <- <-]. exists this. split; [reflexivity|].
  assert (Htoggle : lookup_prop "useEventListByDefault"
                      (EPCISDocument.before_loop env (VObj ps))
                    = Some (useEventListByDefault env)).
  { unfold EPCISDocument.before_loop.
    unfold EPCISDocument.setContext, EPCISDocument.setSchemaVersion,
      EPCISDocument.setCreationDate, EPCISDocument.setUseEventListByDefault.
    repeat match goal with
           | |- context [if ?b then _ else _] => destruct b
           end; now simpl_props. }
  assert (HisA : lookup_prop "isA" (EPCISDocument.before_loop env (VObj ps))
                 = Some (VStr "EPCISDocument")).
  { unfold EPCISDocument.before_loop.
    unfold EPCISDocument.setContext, EPCISDocument.setSchemaVersion,
      EPCISDocument.setCreationDate, EPCISDocument.setUseEventListByDefault.
    repeat match goal with
           | |- context [if ?b then _ else _] => destruct b
           end; now simpl_props. }
  split; [|split].
  - unfold EPCISDocument.getUseEventListByDefault, get.
    rewrite (constructor_loop_other _ _ "useEventListByDefault" _ _ _ _ _
               ltac:(discriminate) ltac:(discriminate) ltac:(discriminate)
               Hloop).
    now rewrite Htoggle.
  - unfold EPCISDocument.getIsA, get.
    rewrite (constructor_loop_isA _ _ _ _ _ _ _ Huniq Hloop), HisA.
    now destruct (lookup_prop "isA" ps).
  - intros k H1 H2 H3 H4 H5 H6 H7.
    rewrite (constructor_loop_other _ _ k _ _ _ _ _ H1 H6 H7 Hloop).
    now apply lookup_before_loop.
Qed.

Lemma constructor_copies_other_fields_witness :
  exists this,
    VEnt 0 "EPCISDocument"
      [("useEventListByDefault", VBool true);
       ("example:lot", VNum 7);
       ("isA", VStr "EPCISDocument");
       ("@context", VStr "https://id.gs1.org/epcis-context.jsonld");
       ("schemaVersion", VNum 2);
       ("creationDate", VStr "2021-03-01T00:00:00.000Z")]
    = VEnt 0 "EPCISDocument" this /\
    EPCISDocument.getUseEventListByDefault this = VBool true /\
    EPCISDocument.getIsA this = VStr "EPCISDocument" /\
    forall k,
      k <> "isA" -> k <> "useEventListByDefault" ->
      k <> "@context" -> k <> "schemaVersion" -> k <> "creationDate" ->
      k <> "epcisHeader" -> k <> "eventList" ->
      lookup_prop k this
      = lookup_prop k [("useEventListByDefault", VBool false);
                       ("example:lot", VNum 7)].
Proof.
  apply (constructor_copies_other_fields Model.objectToEvent
           Model.newEPCISHeader Model.defaultSettings
           [("useEventListByDefault", VBool false); ("example:lot", VNum 7)]
           0 _ 1); reflexivity.
Defined.

(** X9.  From a body whose [event] is absent or falsy and whose
    [eventList] is an array, the constructor builds one event per element,
    in the order of the array, when each element and the header can be
    built. *)
Theorem constructor_builds_events_in_order
    (objectToEvent newEPCISHeader : value -> M value) (env : settings)
    (ps fields : props) (events : list value) (n : loc) :
  unique_keys ps = true ->
  lookup_prop "epcisBody" ps = Some (VObj fields) ->
  truthy (get "event" fields) = false ->
  get "eventList" fields = VArr events ->
  events <> [] ->
  Forall (builds objectToEvent (fun _ _ => True)) events ->
  (forall h, lookup_prop "epcisHeader" ps = Some h ->
             builds newEPCISHeader (fun _ _ => True) h) ->
  lookup_prop "eventList" ps = None ->
  exists this n' built,
    EPCISDocument.new objectToEvent newEPCISHeader env (VObj ps) n
      = Ok (VEnt n "EPCISDocument" this, n') /\
    Forall2 (fun raw e => exists m m', objectToEvent raw m = Ok (e, m'))
            events built /\
    EPCISDocument.getEventList this = VArr built.
Proof.
  intros Huniq Hbody Hevent Hlist Hne Hbuild Hheader Hnone.
  set (built := fun raw e => exists m m', objectToEvent raw m = Ok (e, m')).
  assert (Hraw : EPCISDocument.raw_events (VObj fields) = Ok events).
  { unfold EPCISDocument.raw_events, prop_read, rbind.
    now rewrite Hevent, Hlist. }
  destruct (constructor_loop objectToEvent newEPCISHeader built
              (fun _ _ => True) ps
              (EPCISDocument.before_loop env (VObj ps)) (S n) Huniq)
    as (this & n' & Hrun & _ & _ & _ & Hpost).
  { split; [exact Hheader|]. intros body Hin.
    rewrite lookup_before_loop by (assumption || discriminate).
    split; [exact Hnone|]. exists events.
    split; [congruence|].
    eapply List.Forall_impl; [|exact Hbuild]. intros event Hone m.
    destruct (Hone m) as (e & m' & He & _).
    exists e, m'. split; [exact He|]. now exists m, m'. }
  rewrite Hbody in Hpost.
  destruct Hpost as (events' & es & Hraw' & Hall & Hthis).
  rewrite Hraw in Hraw'. injection Hraw' as <-.
  exists this, n', es. split; [now apply new_runs_loop|].
  split; [exact Hall|].
  unfold EPCISDocument.getEventList, ListField.getList.
  apply lookup_get. rewrite Hthis. now destruct events.
Qed.

Lemma constructor_builds_events_in_order_witness :
  exists this n' built,
    Model.newDocument Model.defaultSettings Samples.nullEventBody 0
      = Ok (VEnt 0 "EPCISDocument" this, n') /\
    Forall2 (fun raw e => exists m m', Model.objectToEvent raw m = Ok (e, m'))
            [Samples.rawObjectEvent; Samples.rawTransactionEvent] built /\
    EPCISDocument.getEventList this = VArr built.
Proof.
  apply (constructor_builds_events_in_order Model.objectToEvent
           Model.newEPCISHeader Model.defaultSettings
           (entries Samples.nullEventBody)
           [("event", VNull);
            ("eventList",
             VArr [Samples.rawObjectEvent; Samples.rawTransactionEvent])]
           [Samples.rawObjectEvent; Samples.rawTransactionEvent] 0);
    try reflexivity.
  - discriminate.
  - repeat constructor; intros m; do 2 eexists;
      (split; [reflexivity | exact I]).
  - intros h Hh. discriminate Hh.
Defined.

(** X10.  The constructor does not return when the value of [epcisBody]
    cannot be read for events ([null], or an [eventList] that is truthy
    and not an array, with no truthy [event]) or when [objectToEvent]
    fails on one of its events. *)
Theorem constructor_fails_on_bad_body
    (objectToEvent newEPCISHeader : value -> M value) (env : settings)
    (ps : props) (body : value) :
  In ("epcisBody", body) ps ->
  (exists e, EPCISDocument.raw_events body = Throw e) \/
  (exists events event,
     EPCISDocument.raw_events body = Ok events /\
     In event events /\
     forall m, exists e, objectToEvent event m = Throw e) ->
  forall n,
    exists e,
      EPCISDocument.new objectToEvent newEPCISHeader env (VObj ps) n
      = Throw e.
Proof.
  intros Hin Hbad n.
  assert (Hstep : forall this m, exists e,
             EPCISDocument.constructor_case objectToEvent newEPCISHeader
               this ("epcisBody", body) m = Throw e).
  { intros this m. destruct Hbad as [(e & Hraw)|(events & event & Hraw & Hev & Hthrow)].
    - revert Hraw.
      unfold EPCISDocument.raw_events, EPCISDocument.constructor_case.
      simpl. unfold sbind at 1. unfold lift at 1.
      destruct (prop_read body "event") as [event|e0]; cbn [rbind];
        [|intros _; now exists e0].
      destruct (truthy event); [discriminate|].
      unfold sbind at 1. unfold lift at 1.
      destruct (prop_read body "eventList") as [eventList|e0]; cbn [rbind];
        [|intros _; now exists e0].
      destruct (truthy eventList); [|discriminate].
      destruct eventList; try discriminate; intros _; now exists TypeError.
    - rewrite (constructor_case_body _ _ _ _ _ _ Hraw).
      apply (forEach_throws _ _ event Hev).
      intros this0 m0. unfold sbind.
      destruct (Hthrow m0) as (e & ->). now exists e. }
  unfold EPCISDocument.new. unfold sbind at 1. unfold fresh.
  cbn [truthy negb entries]. unfold sbind.
  destruct (forEach_throws _ _ _ Hin Hstep
              (EPCISDocument.before_loop env (VObj ps)) (S n)) as (e & ->).
  now exists e.
Qed.

Lemma constructor_fails_on_bad_body_witness :
  exists e,
    Model.newDocument Model.defaultSettings
      (VObj [("epcisBody", VNull)]) 0 = Throw e.
Proof.
  apply (constructor_fails_on_bad_body Model.objectToEvent
           Model.newEPCISHeader Model.defaultSettings
           [("epcisBody", VNull)] VNull).
  - left. reflexivity.
  - left. exists TypeError. reflexivity.
Defined.

(** X11.  [isValid] never returns [false]: when it returns, it returns
    [true] and the validator has accepted the output of [toObject]; a
    failure of [toObject] or of the validator is thrown on.  With the
    toggle off and no event list the [TypeError] of [toObject] comes before
    the validator is called at all. *)
Theorem isValid_never_returns_false (R : Type)
    (validateSchema : value -> result R) (this : props) :
  (forall v,
     EPCISDocument.isValid R validateSchema this = Ok v ->
     v = VBool true /\
     exists out r,
       EPCISDocument.toObject this = Ok out /\ validateSchema out = Ok r) /\
  (forall e,
     EPCISDocument.toObject this = Throw e ->
     EPCISDocument.isValid R validateSchema this = Throw e) /\
  (forall out e,
     EPCISDocument.toObject this = Ok out ->
     validateSchema out = Throw e ->
     EPCISDocument.isValid R validateSchema this = Throw e) /\
  (truthy (EPCISDocument.getUseEventListByDefault this) = false ->
   lookup_prop "eventList" this = None ->
   EPCISDocument.isValid R validateSchema this = Throw TypeError).
Proof.
  unfold EPCISDocument.isValid. repeat split.
  - destruct (EPCISDocument.toObject this) as [out|]; [|discriminate].
    cbn [rbind] in H. destruct (validateSchema out); [|discriminate].
    now injection H.
  - destruct (EPCISDocument.toObject this) as [out|]; [|discriminate].
    cbn [rbind] in H. destruct (validateSchema out) as [r|] eqn:E;
      [|discriminate].
    now exists out, r.
  - now intros e ->.
  - intros out e -> Hno. cbn [rbind]. now rewrite Hno.
  - intros Htoggle Hnone.
    now rewrite (toObject_absent_list_throws this Htoggle Hnone).
Qed.

Lemma isValid_never_returns_false_witness :
  EPCISDocument.isValid _ (Catalog.validateEpcisDocument Validator.Assert)
    (Samples.emptyDocument false) = Throw TypeError.
Proof.
  apply (proj2 (proj2 (proj2
           (isValid_never_returns_false _
              (Catalog.validateEpcisDocument Validator.Assert)
              (Samples.emptyDocument false))))); reflexivity.
Defined.

(** ** The constructor of [TransactionEvent] *)

Lemma add_other field k e this this' :
  k <> field ->
  ListField.add field e this = Ok this' ->
  lookup_prop k this' = lookup_prop k this.
Proof.
  intros Hk. unfold ListField.add.
  destruct (truthy (get field this));
    destruct (push e _); simpl; intros [= <-];
    rewrite ?lookup_set_ne by congruence; reflexivity.
Qed.

Lemma addEach_other field make k value this n this' n' :
  k <> field ->
  TransactionEvent.addEach field make value this n = Ok (this', n') ->
  lookup_prop k this' = lookup_prop k this.
Proof.
  intros Hk. unfold TransactionEvent.addEach.
  destruct value; try discriminate.
  apply forEach_other. intros this0 x m this1 m1. unfold sbind, lift.
  destruct (make x m) as [[e m2]|]; [|discriminate].
  destruct (ListField.add field e this0) eqn:E; [|discriminate].
  intros [= <- <-]. eapply add_other; eauto.
Qed.

(** Elements built one after the other and pushed onto a list that
    exists. *)
Lemma addEach_onto field (make : value -> M value) raws :
  forall this old n this' n',
    get field this = VArr old ->
    forEach (fun this x => e <~ make x ;; lift (ListField.add field e this))
            raws this n = Ok (this', n') ->
    exists built,
      Forall2 (fun raw e => exists m m', make raw m = Ok (e, m')) raws built /\
      get field this' = VArr (old ++ built).
Proof.
  induction raws as [|raw raws IH]; intros this old n this' n' Hlist.
  - intros [= <- <-]. exists []. split; [constructor|].
    now rewrite app_nil_r.
  - cbn [forEach]. unfold sbind at 1. unfold sbind at 1.
    destruct (make raw n) as [[e n1]|] eqn:E; [|discriminate].
    destruct (add_onto_list field e this old Hlist)
      as (this1 & Hadd & Hlist1 & _).
    unfold lift. rewrite Hadd. intros Hrun.
    destruct (IH this1 (old ++ [e])%list _ _ _ Hlist1 Hrun)
      as (built & Hall & Hfinal).
    exists (e :: built). split.
    + constructor; [now exists n, n1 | exact Hall].
    + now rewrite Hfinal, <- app_assoc.
Qed.

(** The same from a property that is missing: nothing is written for an
    empty array. *)
Lemma addEach_from_nothing field (make : value -> M value) raws
    this n this' n' :
  truthy (get field this) = false ->
  TransactionEvent.addEach field make (VArr raws) this n = Ok (this', n') ->
  exists built,
    Forall2 (fun raw e => exists m m', make raw m = Ok (e, m')) raws built /\
    match raws with
    | [] => this' = this
    | _ => get field this' = VArr built
    end.
Proof.
  intros Hfalsy. unfold TransactionEvent.addEach.
  destruct raws as [|raw raws].
  - intros [= <- <-]. exists []. split; [constructor | reflexivity].
  - cbn [forEach]. unfold sbind at 1. unfold sbind at 1.
    destruct (make raw n) as [[e n1]|] eqn:E; [|discriminate].
    destruct (add_creates_list field e this Hfalsy)
      as (this1 & Hadd & Hlist1 & _).
    unfold lift. rewrite Hadd. intros Hrun.
    destruct (addEach_onto field make raws this1 [e] _ _ _ Hlist1 Hrun)
      as (built & Hall & Hfinal).
    exists (e :: built). split; [|exact Hfinal].
    constructor; [now exists n, n1 | exact Hall].
Qed.

Section TransactionEventFacts.
Variable newEvent : value -> M props.
Variables newBizTransactionElement newQuantityElement : value -> M value.
Variables newPersistentDisposition newSourceElement : value -> M value.
Variables newDestinationElement newSensorElement : value -> M value.
Variables newReadPoint newBizLocation : value -> M value.
Variables readPointOfId bizLocationOfId : value -> M value.

Let step :=
  TransactionEvent.constructor_case
    newBizTransactionElement newQuantityElement newPersistentDisposition
    newSourceElement newDestinationElement newSensorElement
    newReadPoint newBizLocation readPointOfId bizLocationOfId.

Let new :=
  TransactionEvent.new newEvent
    newBizTransactionElement newQuantityElement newPersistentDisposition
    newSourceElement newDestinationElement newSensorElement
    newReadPoint newBizLocation readPointOfId bizLocationOfId.

Let list_fields :=
  TransactionEvent.list_fields
    newBizTransactionElement newQuantityElement newSourceElement
    newDestinationElement newSensorElement.

Lemma step_list_field field make this value n :
  In (field, make) list_fields ->
  step this (field, value) n
  = TransactionEvent.addEach field make value this n.
Proof.
  unfold list_fields, TransactionEvent.list_fields. simpl.
  intros [[= <- <-]|[[= <- <-]|[[= <- <-]|[[= <- <-]|[[= <- <-]|[[= <- <-]|[]]]]]]];
    reflexivity.
Qed.

(** A turn of the loop writes no property but the one of its key. *)
Lemma step_other k this key value n this' n' :
  key <> k ->
  step this (key, value) n = Ok (this', n') ->
  lookup_prop k this' = lookup_prop k this.
Proof.
  intros Hk. unfold step, TransactionEvent.constructor_case.
  destruct (String.eqb_spec key "bizTransactionList") as [->|_];
    [intros H; eapply addEach_other; [|exact H]; congruence|].
  destruct (String.eqb_spec key "epcList") as [->|_];
    [intros H; eapply addEach_other; [|exact H]; congruence|].
  destruct (String.eqb_spec key "quantityList") as [->|_];
    [intros H; eapply addEach_other; [|exact H]; congruence|].
  destruct (String.eqb_spec key "persistentDisposition") as [->|_].
  { unfold sbind, ret, TransactionEvent.setPersistentDisposition.
    destruct (newPersistentDisposition value n) as [[p n1]|]; [|discriminate].
    intros [= <- <-]. now rewrite lookup_set_ne. }
  destruct (String.eqb_spec key "sourceList") as [->|_];
    [intros H; eapply addEach_other; [|exact H]; congruence|].
  destruct (String.eqb_spec key "destinationList") as [->|_];
    [intros H; eapply addEach_other; [|exact H]; congruence|].
  destruct (String.eqb_spec key "sensorElementList") as [->|_];
    [intros H; eapply addEach_other; [|exact H]; congruence|].
  destruct (String.eqb_spec key "readPoint") as [->|_].
  { unfold sbind at 1.
    destruct (newReadPoint value n) as [[rp n1]|]; [|discriminate].
    unfold TransactionEvent.setReadPoint.
    destruct rp; unfold sbind, ret;
      try (intros [= <- <-]; now rewrite lookup_set_ne).
    destruct (readPointOfId _ n1) as [[x n2]|]; [|discriminate].
    intros [= <- <-]. now rewrite lookup_set_ne. }
  destruct (String.eqb_spec key "bizLocation") as [->|_].
  { unfold sbind at 1.
    destruct (newBizLocation value n) as [[bl n1]|]; [|discriminate].
    unfold TransactionEvent.setBizLocation.
    destruct bl; unfold sbind, ret;
      try (intros [= <- <-]; now rewrite lookup_set_ne).
    destruct (bizLocationOfId _ n1) as [[x n2]|]; [|discriminate].
    intros [= <- <-]. now rewrite lookup_set_ne. }
  now intros [= <- <-].
Qed.

Let handled := TransactionEvent.handled.

Lemma step_unhandled k this entry n this' n' :
  ~ handled k ->
  step this entry n = Ok (this', n') ->
  lookup_prop k this' = lookup_prop k this.
Proof.
  intros Hk. destruct entry as [key value].
  destruct (String.eqb_spec key k) as [->|Hne]; [|now apply step_other].
  unfold step, TransactionEvent.constructor_case.
  unfold handled, TransactionEvent.handled in Hk. simpl in Hk.
  repeat match goal with
         | |- context [String.eqb k ?s] =>
             destruct (String.eqb_spec k s) as [->|_]; [tauto|]
         end.
  now intros [= <- <-].
Qed.

Lemma loop_absent k entries : forall this n this' n',
  lookup_prop k entries = None ->
  forEach step entries this n = Ok (this', n') ->
  lookup_prop k this' = lookup_prop k this.
Proof.
  induction entries as [|[key value] entries IH]; intros this n this' n'.
  - now intros _ [= <- <-].
  - cbn [lookup_prop forEach].
    destruct (String.eqb_spec k key) as [->|Hne]; [discriminate|].
    intros Hnone. unfold sbind at 1.
    destruct (step this (key, value) n) as [[this1 n1]|] eqn:E;
      [|discriminate].
    intros Hrun. rewrite (IH _ _ _ _ Hnone Hrun).
    eapply step_other; [|exact E]. congruence.
Qed.

(** The property of a key of the raw object is what the turn of that key
    leaves. *)
Lemma loop_at_key k v entries : forall this n this' n',
  unique_keys entries = true ->
  lookup_prop k entries = Some v ->
  forEach step entries this n = Ok (this', n') ->
  exists this0 m this1 m',
    step this0 (k, v) m = Ok (this1, m') /\
    lookup_prop k this0 = lookup_prop k this /\
    lookup_prop k this' = lookup_prop k this1.
Proof.
  induction entries as [|[key value] entries IH]; intros this n this' n' Huniq;
    [discriminate|].
  destruct (unique_keys_head _ _ _ Huniq) as [Hkey Hrest].
  cbn [lookup_prop forEach]. unfold sbind at 1.
  destruct (String.eqb_spec k key) as [<-|Hne].
  - intros [= <-].
    destruct (step this (k, value) n) as [[this1 n1]|] eqn:E; [|discriminate].
    intros Hrun. exists this, n, this1, n1.
    split; [exact E|]. split; [reflexivity|].
    eapply loop_absent; eauto.
  - intros Hsome.
    destruct (step this (key, value) n) as [[this1 n1]|] eqn:E;
      [|discriminate].
    intros Hrun.
    destruct (IH _ _ _ _ Hrest Hsome Hrun)
      as (this0 & m & this2 & m' & Hs & H0 & H1).
    exists this0, m, this2, m'. split; [exact Hs|]. split; [|exact H1].
    rewrite H0. eapply step_other; [|exact E]. congruence.
Qed.

(** What [new] does when it returns: [super], [isA], and on a truthy
    argument the six deletions and the loop. *)
Lemma new_returns raw n e n' :
  new raw n = Ok (e, n') ->
  exists base m this,
    newEvent raw (S n) = Ok (base, m) /\
    e = VEnt n "TransactionEvent" this /\
    let start := set "isA" (VStr "TransactionEvent") base in
    if truthy raw
    then forEach step (entries raw) (TransactionEvent.cleared start) m
         = Ok (this, n')
    else this = start.
Proof.
  unfold new, TransactionEvent.new. unfold sbind at 1. unfold fresh.
  unfold sbind at 1.
  destruct (newEvent raw (S n)) as [[base m]|]; [|discriminate].
  destruct (truthy raw); cbn [negb].
  - unfold sbind, ret. fold step.
    destruct (forEach step (entries raw) _ m) as [[this n2]|] eqn:Hloop;
      [|discriminate].
    intros [= <- <-]. now exists base, m, this.
  - intros [= <- <-]. now exists base, m, (set "isA" (VStr "TransactionEvent") base).
Qed.

Lemma cleared_other k this :
  ~ In k ["bizTransactionList"; "epcList"; "quantityList"; "sourceList";
          "destinationList"; "sensorElementList"] ->
  lookup_prop k (TransactionEvent.cleared this) = lookup_prop k this.
Proof.
  simpl. intros Hk. unfold TransactionEvent.cleared.
  unfold TransactionEvent.clearSensorElementList,
    TransactionEvent.clearDestinationList, TransactionEvent.clearSourceList,
    TransactionEvent.clearQuantityList, TransactionEvent.clearEPCList,
    TransactionEvent.clearBizTransactionList, ListField.clear.
  rewrite !lookup_del_ne; [reflexivity|..]; intros <-; tauto.
Qed.

Lemma cleared_list field make this :
  In (field, make) list_fields ->
  lookup_prop field (TransactionEvent.cleared this) = None.
Proof.
  unfold list_fields, TransactionEvent.list_fields, TransactionEvent.cleared.
  unfold TransactionEvent.clearSensorElementList,
    TransactionEvent.clearDestinationList, TransactionEvent.clearSourceList,
    TransactionEvent.clearQuantityList, TransactionEvent.clearEPCList,
    TransactionEvent.clearBizTransactionList, ListField.clear.
  simpl.
  intros [[= <- <-]|[[= <- <-]|[[= <- <-]|[[= <- <-]|[[= <- <-]|[[= <- <-]|[]]]]]]];
    now simpl_props.
Qed.

Lemma new_inherits raw n e n' :
  new raw n = Ok (e, n') ->
  exists base m this,
    newEvent raw (S n) = Ok (base, m) /\
    e = VEnt n "TransactionEvent" this /\
    get "isA" this = VStr "TransactionEvent" /\
    forall k, k <> "isA" -> ~ handled k ->
              lookup_prop k this = lookup_prop k base.
Proof.
  intros Hnew.
  destruct (new_returns _ _ _ _ Hnew) as (base & m & this & Hbase & -> & Hrun).
  exists base, m, this. split; [exact Hbase|]. split; [reflexivity|].
  cbv zeta in Hrun.
  assert (Hkeep : forall k, ~ handled k ->
            lookup_prop k this
            = lookup_prop k (set "isA" (VStr "TransactionEvent") base)).
  { intros k Hk. destruct (truthy raw); [|now subst this].
    rewrite (forEach_other k step
               ltac:(intros; eapply step_unhandled; eauto) _ _ _ _ _ Hrun).
    apply cleared_other. intros Hin. apply Hk.
    unfold handled, TransactionEvent.handled.
    simpl in *. tauto. }
  split.
  - unfold get. rewrite Hkeep, lookup_set_eq; [reflexivity|].
    unfold handled, TransactionEvent.handled. simpl. intuition discriminate.
  - intros k HisA Hk. rewrite (Hkeep k Hk).
    now rewrite lookup_set_ne by congruence.
Qed.

Lemma new_rebuilds field make ps n e n' :
  In (field, make) list_fields ->
  unique_keys ps = true ->
  new (VObj ps) n = Ok (e, n') ->
  exists this,
    e = VEnt n "TransactionEvent" this /\
    match lookup_prop field ps with
    | None | Some (VArr []) => lookup_prop field this = None
    | Some (VArr raws) =>
        exists built,
          Forall2 (fun raw x => exists m m', make raw m = Ok (x, m'))
                  raws built /\
          lookup_prop field this = Some (VArr built)
    | Some _ => False
    end.
Proof.
  intros Hin Huniq Hnew.
  destruct (new_returns _ _ _ _ Hnew) as (base & m & this & _ & -> & Hrun).
  exists this. split; [reflexivity|]. cbn [truthy entries] in Hrun.
  cbv zeta in Hrun.
  set (start := TransactionEvent.cleared _) in Hrun.
  assert (Hstart : lookup_prop field start = None)
    by (eapply cleared_list; eauto).
  destruct (lookup_prop field ps) as [v|] eqn:Hv.
  - destruct (loop_at_key _ _ _ _ _ _ _ Huniq Hv Hrun)
      as (this0 & m0 & this1 & m1 & Hs & H0 & H1).
    rewrite (step_list_field _ _ _ _ _ Hin) in Hs. rewrite H1.
    destruct v; try discriminate Hs.
    destruct (addEach_from_nothing field make xs this0 m0 this1 m1)
      as (built & Hall & Hend); [|exact Hs|].
    { rewrite (get_absent field this0); [reflexivity | congruence]. }
    destruct xs as [|x xs].
    + subst this1. congruence.
    + exists built. split; [exact Hall|]. now apply get_array_lookup.
  - rewrite (loop_absent _ _ _ _ _ _ Hv Hrun). exact Hstart.
Qed.

Lemma new_fails field make v ps :
  In (field, make) list_fields ->
  In (field, v) ps ->
  (forall xs, v <> VArr xs) ->
  forall n, exists e, new (VObj ps) n = Throw e.
Proof.
  intros Hfield Hin Hno n.
  unfold new, TransactionEvent.new. unfold sbind at 1. unfold fresh.
  unfold sbind at 1.
  destruct (newEvent (VObj ps) (S n)) as [[base m]|e]; [|now exists e].
  cbn [truthy negb entries]. unfold sbind. fold step.
  destruct (forEach_throws step ps (field, v) Hin) with
    (this := TransactionEvent.cleared
               (set "isA" (VStr "TransactionEvent") base)) (n := m)
    as (e & ->); [|now exists e].
  intros this0 m0. rewrite (step_list_field _ _ _ _ _ Hfield).
  exists TypeError. destruct v; try reflexivity. now destruct (Hno xs).
Qed.

Lemma new_sub_objects ps n e n' :
  unique_keys ps = true ->
  new (VObj ps) n = Ok (e, n') ->
  exists this,
    e = VEnt n "TransactionEvent" this /\
    (forall v, lookup_prop "persistentDisposition" ps = Some v ->
       exists p m m',
         newPersistentDisposition v m = Ok (p, m') /\
         get "persistentDisposition" this = p) /\
    (forall v, lookup_prop "readPoint" ps = Some v ->
       exists rp m m',
         newReadPoint v m = Ok (rp, m') /\
         match rp with
         | VStr _ => exists x m1 m1',
                       readPointOfId rp m1 = Ok (x, m1') /\
                       get "readPoint" this = x
         | _ => get "readPoint" this = rp
         end) /\
    (forall v, lookup_prop "bizLocation" ps = Some v ->
       exists bl m m',
         newBizLocation v m = Ok (bl, m') /\
         match bl with
         | VStr _ => exists x m1 m1',
                       bizLocationOfId bl m1 = Ok (x, m1') /\
                       get "bizLocation" this = x
         | _ => get "bizLocation" this = bl
         end).
Proof.
  intros Huniq Hnew.
  destruct (new_returns _ _ _ _ Hnew) as (base & m & this & _ & -> & Hrun).
  exists this. split; [reflexivity|]. cbn [truthy entries] in Hrun.
  cbv zeta in Hrun. unfold get. repeat split; intros v Hv;
    destruct (loop_at_key _ _ _ _ _ _ _ Huniq Hv Hrun)
      as (this0 & m0 & this1 & m1 & Hs & _ & ->);
    unfold step, TransactionEvent.constructor_case in Hs; simpl in Hs;
    unfold sbind at 1 in Hs.
  - destruct (newPersistentDisposition v m0) as [[p m2]|] eqn:E;
      [|discriminate].
    injection Hs as <- <-. exists p, m0, m2. split; [exact E|].
    unfold TransactionEvent.setPersistentDisposition.
    now rewrite lookup_set_eq.
  - destruct (newReadPoint v m0) as [[rp m2]|] eqn:E; [|discriminate].
    exists rp, m0, m2. split; [exact E|].
    unfold TransactionEvent.setReadPoint in Hs.
    destruct rp; unfold sbind, ret in Hs;
      try (injection Hs as <- <-; now rewrite lookup_set_eq).
    destruct (readPointOfId (VStr s) m2) as [[x m3]|] eqn:E'; [|discriminate].
    injection Hs as <- <-. exists x, m2, m3. split; [exact E'|].
    now rewrite lookup_set_eq.
  - destruct (newBizLocation v m0) as [[bl m2]|] eqn:E; [|discriminate].
    exists bl, m0, m2. split; [exact E|].
    unfold TransactionEvent.setBizLocation in Hs.
    destruct bl; unfold sbind, ret in Hs;
      try (injection Hs as <- <-; now rewrite lookup_set_eq).
    destruct (bizLocationOfId (VStr s) m2) as [[x m3]|] eqn:E'; [|discriminate].
    injection Hs as <- <-. exists x, m2, m3. split; [exact E'|].
    now rewrite lookup_set_eq.
Qed.
End TransactionEventFacts.

(** X12.  Whenever the constructor returns, the event is a
    [TransactionEvent] whose [isA] is ["TransactionEvent"], whatever the
    raw value says, and every property that [super] has left under a key
    without a case in the [switch] is still there, unchanged. *)
Theorem transaction_event_keeps_inherited_fields
    (newEvent : value -> M props)
    (newBizTransactionElement newQuantityElement newPersistentDisposition
     newSourceElement newDestinationElement newSensorElement
     newReadPoint newBizLocation readPointOfId bizLocationOfId
       : value -> M value)
    (raw : value) (n : loc) (e : value) (n' : loc) :
  TransactionEvent.new newEvent
    newBizTransactionElement newQuantityElement newPersistentDisposition
    newSourceElement newDestinationElement newSensorElement
    newReadPoint newBizLocation readPointOfId bizLocationOfId raw n
    = Ok (e, n') ->
  exists base m this,
    newEvent raw (S n) = Ok (base, m) /\
    e = VEnt n "TransactionEvent" this /\
    get "isA" this = VStr "TransactionEvent" /\
    forall k, k <> "isA" -> ~ TransactionEvent.handled k ->
              lookup_prop k this = lookup_prop k base.
Proof. apply new_inherits. Qed.

Lemma transaction_event_keeps_inherited_fields_witness :
  exists base m this,
    Model.newEvent Samples.rawTransaction 1 = Ok (base, m) /\
    VEnt 0 "TransactionEvent"
      [("isA", VStr "TransactionEvent"); ("action", VStr "ADD");
       ("readPoint",
        VEnt 2 "ReadPoint"
          [("id", VStr "urn:epc:id:sgln:0614141.07346.1234")]);
       ("example:lot", VNum 7);
       ("epcList", VArr [Samples.epc2020; Samples.epc2021]);
       ("sourceList",
        VArr [VEnt 1 "SourceElement"
                [("type", VStr "urn:epcglobal:cbv:sdt:owning_party");
                 ("source", VStr "urn:epc:id:pgln:9520001.11111")]])]
    = VEnt 0 "TransactionEvent" this /\
    get "isA" this = VStr "TransactionEvent" /\
    forall k, k <> "isA" -> ~ TransactionEvent.handled k ->
              lookup_prop k this = lookup_prop k base.
Proof.
  apply (transaction_event_keeps_inherited_fields Model.newEvent
           (Model.newValueObject "BizTransactionElement")
           (Model.newValueObject "QuantityElement")
           (Model.newValueObject "PersistentDisposition")
           (Model.newValueObject "SourceElement")
           (Model.newValueObject "DestinationElement")
           (Model.newValueObject "SensorElement")
           (Model.newValueObject "ReadPoint")
           (Model.newValueObject "BizLocation")
           (Model.valueObjectOfId "ReadPoint")
           (Model.valueObjectOfId "BizLocation")
           Samples.rawTransaction 0 _ 3).
  reflexivity.
Defined.

(** X13.  The constructor rebuilds each of the six list fields from the
    raw object alone: the list that [super] has copied is deleted, and the
    field then holds what the class constructor makes of each raw element,
    in order ([epcList] holds the raw elements themselves).  A key that is
    missing and a key that holds an empty array both leave the field
    missing, not empty; a value that is no array cannot occur. *)
Theorem transaction_event_rebuilds_lists
    (newEvent : value -> M props)
    (newBizTransactionElement newQuantityElement newPersistentDisposition
     newSourceElement newDestinationElement newSensorElement
     newReadPoint newBizLocation readPointOfId bizLocationOfId
       : value -> M value)
    (field : string) (make : value -> M value)
    (ps : props) (n : loc) (e : value) (n' : loc) :
  In (field, make)
     (TransactionEvent.list_fields newBizTransactionElement newQuantityElement
        newSourceElement newDestinationElement newSensorElement) ->
  unique_keys ps = true ->
  TransactionEvent.new newEvent
    newBizTransactionElement newQuantityElement newPersistentDisposition
    newSourceElement newDestinationElement newSensorElement
    newReadPoint newBizLocation readPointOfId bizLocationOfId (VObj ps) n
    = Ok (e, n') ->
  exists this,
    e = VEnt n "TransactionEvent" this /\
    match lookup_prop field ps with
    | None | Some (VArr []) => lookup_prop field this = None
    | Some (VArr raws) =>
        exists built,
          Forall2 (fun raw x => exists m m', make raw m = Ok (x, m'))
                  raws built /\
          lookup_prop field this = Some (VArr built)
    | Some _ => False
    end.
Proof. apply new_rebuilds. Qed.

Lemma transaction_event_rebuilds_lists_witness :
  exists this,
    VEnt 0 "TransactionEvent"
      [("isA", VStr "TransactionEvent"); ("action", VStr "ADD");
       ("readPoint",
        VEnt 2 "ReadPoint"
          [("id", VStr "urn:epc:id:sgln:0614141.07346.1234")]);
       ("example:lot", VNum 7);
       ("epcList", VArr [Samples.epc2020; Samples.epc2021]);
       ("sourceList",
        VArr [VEnt 1 "SourceElement"
                [("type", VStr "urn:epcglobal:cbv:sdt:owning_party");
                 ("source", VStr "urn:epc:id:pgln:9520001.11111")]])]
    = VEnt 0 "TransactionEvent" this /\
    lookup_prop "quantityList" this = None.
Proof.
  apply (transaction_event_rebuilds_lists Model.newEvent
           (Model.newValueObject "BizTransactionElement")
           (Model.newValueObject "QuantityElement")
           (Model.newValueObject "PersistentDisposition")
           (Model.newValueObject "SourceElement")
           (Model.newValueObject "DestinationElement")
           (Model.newValueObject "SensorElement")
           (Model.newValueObject "ReadPoint")
           (Model.newValueObject "BizLocation")
           (Model.valueObjectOfId "ReadPoint")
           (Model.valueObjectOfId "BizLocation")
           "quantityList" (Model.newValueObject "QuantityElement")
           (entries Samples.rawTransaction) 0 _ 3).
  - simpl. auto.
  - reflexivity.
  - reflexivity.
Defined.

(** X14.  The constructor does not return when the raw object holds, under
    the key of a list field, a value that is no array: a string, a number,
    [null] or a single raw element. *)
Theorem transaction_event_rejects_non_array_lists
    (newEvent : value -> M props)
    (newBizTransactionElement newQuantityElement newPersistentDisposition
     newSourceElement newDestinationElement newSensorElement
     newReadPoint newBizLocation readPointOfId bizLocationOfId
       : value -> M value)
    (field : string) (make : value -> M value) (v : value) (ps : props) :
  In (field, make)
     (TransactionEvent.list_fields newBizTransactionElement newQuantityElement
        newSourceElement newDestinationElement newSensorElement) ->
  In (field, v) ps ->
  (forall xs, v <> VArr xs) ->
  forall n,
    exists e,
      TransactionEvent.new newEvent
        newBizTransactionElement newQuantityElement newPersistentDisposition
        newSourceElement newDestinationElement newSensorElement
        newReadPoint newBizLocation readPointOfId bizLocationOfId (VObj ps) n
      = Throw e.
Proof. apply new_fails. Qed.

Lemma transaction_event_rejects_non_array_lists_witness :
  exists e,
    Model.newTransactionEvent (VObj [("epcList", Samples.epc2020)]) 0
    = Throw e.
Proof.
  apply (transaction_event_rejects_non_array_lists Model.newEvent
           (Model.newValueObject "BizTransactionElement")
           (Model.newValueObject "QuantityElement")
           (Model.newValueObject "PersistentDisposition")
           (Model.newValueObject "SourceElement")
           (Model.newValueObject "DestinationElement")
           (Model.newValueObject "SensorElement")
           (Model.newValueObject "ReadPoint")
           (Model.newValueObject "BizLocation")
           (Model.valueObjectOfId "ReadPoint")
           (Model.valueObjectOfId "BizLocation")
           "epcList" ret Samples.epc2020
           [("epcList", Samples.epc2020)]).
  - simpl. auto.
  - simpl. auto.
  - discriminate.
Defined.

(** X15.  Under [persistentDisposition], [readPoint] and [bizLocation]
    the constructor stores the object that the class constructor makes of
    the raw value, not the raw value; should that constructor give a
    string, the setter takes it for an id and stores the object built from
    the id. *)
Theorem transaction_event_builds_sub_objects
    (newEvent : value -> M props)
    (newBizTransactionElement newQuantityElement newPersistentDisposition
     newSourceElement newDestinationElement newSensorElement
     newReadPoint newBizLocation readPointOfId bizLocationOfId
       : value -> M value)
    (ps : props) (n : loc) (e : value) (n' : loc) :
  unique_keys ps = true ->
  TransactionEvent.new newEvent
    newBizTransactionElement newQuantityElement newPersistentDisposition
    newSourceElement newDestinationElement newSensorElement
    newReadPoint newBizLocation readPointOfId bizLocationOfId (VObj ps) n
    = Ok (e, n') ->
  exists this,
    e = VEnt n "TransactionEvent" this /\
    (forall v, lookup_prop "persistentDisposition" ps = Some v ->
       exists p m m',
         newPersistentDisposition v m = Ok (p, m') /\
         get "persistentDisposition" this = p) /\
    (forall v, lookup_prop "readPoint" ps = Some v ->
       exists rp m m',
         newReadPoint v m = Ok (rp, m') /\
         match rp with
         | VStr _ => exists x m1 m1',
                       readPointOfId rp m1 = Ok (x, m1') /\
                       get "readPoint" this = x
         | _ => get "readPoint" this = rp
         end) /\
    (forall v, lookup_prop "bizLocation" ps = Some v ->
       exists bl m m',
         newBizLocation v m = Ok (bl, m') /\
         match bl with
         | VStr _ => exists x m1 m1',
                       bizLocationOfId bl m1 = Ok (x, m1') /\
                       get "bizLocation" this = x
         | _ => get "bizLocation" this = bl
         end).
Proof. apply new_sub_objects. Qed.

Lemma transaction_event_builds_sub_objects_witness :
  exists rp m m',
    Model.newValueObject "ReadPoint"
      (VObj [("id", VStr "urn:epc:id:sgln:0614141.07346.1234")]) m
      = Ok (rp, m') /\
    match rp with
    | VStr _ => exists x m1 m1',
                  Model.valueObjectOfId "ReadPoint" rp m1 = Ok (x, m1') /\
                  get "readPoint"
                    [("isA", VStr "TransactionEvent"); ("action", VStr "ADD");
                     ("readPoint",
                      VEnt 2 "ReadPoint"
                        [("id", VStr "urn:epc:id:sgln:0614141.07346.1234")]);
                     ("example:lot", VNum 7);
                     ("epcList", VArr [Samples.epc2020; Samples.epc2021]);
                     ("sourceList",
                      VArr [VEnt 1 "SourceElement"
                              [("type",
                                VStr "urn:epcglobal:cbv:sdt:owning_party");
                               ("source",
                                VStr "urn:epc:id:pgln:9520001.11111")]])]
                  = x
    | _ => get "readPoint"
             [("isA", VStr "TransactionEvent"); ("action", VStr "ADD");
              ("readPoint",
               VEnt 2 "ReadPoint"
                 [("id", VStr "urn:epc:id:sgln:0614141.07346.1234")]);
              ("example:lot", VNum 7);
              ("epcList", VArr [Samples.epc2020; Samples.epc2021]);
              ("sourceList",
               VArr [VEnt 1 "SourceElement"
                       [("type", VStr "urn:epcglobal:cbv:sdt:owning_party");
                        ("source", VStr "urn:epc:id:pgln:9520001.11111")]])]
           = rp
    end.
Proof.
  destruct (transaction_event_builds_sub_objects Model.newEvent
              (Model.newValueObject "BizTransactionElement")
              (Model.newValueObject "QuantityElement")
              (Model.newValueObject "PersistentDisposition")
              (Model.newValueObject "SourceElement")
              (Model.newValueObject "DestinationElement")
              (Model.newValueObject "SensorElement")
              (Model.newValueObject "ReadPoint")
              (Model.newValueObject "BizLocation")
              (Model.valueObjectOfId "ReadPoint")
              (Model.valueObjectOfId "BizLocation")
              (entries Samples.rawTransaction) 0 _ 3
              eq_refl eq_refl)
    as (this & Hthis & _ & Hrp & _).
  injection Hthis as <-.
  exact (Hrp _ eq_refl).
Defined.

(** ** The argument of [addAll] and the round trip with [removeAll] *)

Lemma chars_length s : List.length (chars s) = String.length s.
Proof. induction s; simpl; auto. Qed.

(** X16.  [addAll] spreads its argument: given a string instead of an
    array, it does not throw but appends the characters of the string, one
    element each; given a value that cannot be spread ([undefined],
    [null], a boolean, a number, an object) it throws a [TypeError]. *)
Theorem addAll_spreads_a_string (field : string) (this : props) :
  (forall s xs,
     Forall (fun c => (nat_of_ascii c < 128)%nat) (list_ascii_of_string s) ->
     get field this = VArr xs ->
     exists this' l,
       ListField.addAll field (VStr s) this = Ok this' /\
       ListField.getList field this' = VArr (xs ++ l) /\
       l = List.map (fun c => VStr (String c EmptyString))
                    (list_ascii_of_string s) /\
       List.length l = String.length s) /\
  (forall v,
     match v with VArr _ | VStr _ => False | _ => True end ->
     ListField.addAll field v this = Throw TypeError).
Proof.
  split.
  - intros s xs _ Hlist. unfold ListField.addAll, ListField.getList.
    rewrite Hlist. simpl. rewrite Hlist. simpl.
    eexists. exists (chars s). split; [reflexivity|]. rewrite get_set_eq.
    split; [reflexivity|]. split; [|apply chars_length].
    clear. induction s; simpl; [reflexivity | now f_equal].
  - intros v Hv. unfold ListField.addAll, spread2.
    destruct (truthy (get field this)) eqn:Htruthy.
    + destruct (get field this); simpl; try reflexivity;
        destruct v; simpl; try reflexivity; contradiction.
    + rewrite get_set_eq. destruct v; simpl; try reflexivity; contradiction.
Qed.

Lemma addAll_spreads_a_string_witness :
  exists this' l,
    TransactionEvent.addEPCList (VStr "urn") Samples.repeatedEPC = Ok this' /\
    TransactionEvent.getEPCList this'
      = VArr ([Samples.epc2020; Samples.epc2021; Samples.epc2020] ++ l) /\
    l = [VStr "u"; VStr "r"; VStr "n"] /\
    List.length l = 3%nat.
Proof.
  apply (proj1 (addAll_spreads_a_string "epcList" Samples.repeatedEPC) "urn").
  - repeat (constructor; [vm_compute; lia|]). constructor.
  - reflexivity.
Defined.

Lemma filter_all_removed ys :
  Forall (fun y => strict_eq y y = true) ys ->
  forall zs, incl ys zs ->
    List.filter (fun x => negb (existsb (strict_eq x) zs)) ys = [].
Proof.
  induction 1 as [|y ys Hy _ IH]; intros zs Hincl; [reflexivity|].
  cbn [List.filter].
  assert (Hin : existsb (strict_eq y) zs = true).
  { apply existsb_exists. exists y. split; [|exact Hy].
    apply Hincl. now left. }
  rewrite Hin. cbn [negb]. apply IH. intros z Hz. apply Hincl. now right.
Qed.

Lemma filter_all_kept (p : value -> bool) xs :
  forallb p xs = true -> List.filter p xs = xs.
Proof.
  induction xs as [|x xs IH]; simpl; [reflexivity|].
  intros H. apply andb_prop in H as [-> H]. now rewrite IH.
Qed.

(** X17.  [removeAll] undoes [addAll] of the same array of primitives or
    entities: on an entity without the list the two calls leave an empty
    list, and on a list that shares no element with the array they give
    the list back. *)
Theorem removeAll_undoes_addAll (field : string) (ys : list value)
    (this : props) :
  Forall (fun y => strict_eq y y = true) ys ->
  (truthy (get field this) = false ->
     exists this1 this2,
       ListField.addAll field (VArr ys) this = Ok this1 /\
       ListField.removeAll field (VArr ys) this1 = Ok this2 /\
       ListField.getList field this2 = VArr []) /\
  (forall xs,
     get field this = VArr xs ->
     forallb (fun x => negb (existsb (strict_eq x) ys)) xs = true ->
     exists this1 this2,
       ListField.addAll field (VArr ys) this = Ok this1 /\
       ListField.removeAll field (VArr ys) this1 = Ok this2 /\
       ListField.getList field this2 = VArr xs).
Proof.
  intros Hself. split.
  - intros Hfalsy. unfold ListField.addAll at 1.
    rewrite Hfalsy, get_set_eq. simpl.
    destruct (removeAll_on_list field ys
                (set field (VArr ys) (set field (VArr []) this)) ys
                (get_set_eq _ _ _))
      as (this2 & Hrun & Hlist & _).
    eexists. exists this2. split; [reflexivity|]. split; [exact Hrun|].
    rewrite Hlist. f_equal. apply filter_all_removed; [exact Hself|].
    intros y Hy. exact Hy.
  - intros xs Hlist Hfresh. unfold ListField.addAll at 1.
    rewrite Hlist. simpl. rewrite Hlist. simpl.
    destruct (removeAll_on_list field ys
                (set field (VArr (xs ++ ys)) this) (xs ++ ys)%list
                (get_set_eq _ _ _))
      as (this2 & Hrun & Hlist2 & _).
    eexists. exists this2. split; [reflexivity|]. split; [exact Hrun|].
    rewrite Hlist2. f_equal. rewrite List.filter_app.
    rewrite (filter_all_kept _ xs Hfresh).
    rewrite filter_all_removed; [apply app_nil_r | exact Hself|].
    intros y Hy. exact Hy.
Qed.

Lemma removeAll_undoes_addAll_witness :
  exists this1 this2,
    EPCISDocument.addEventList
      (VArr [Samples.objectEvent 1; Samples.objectEvent 2])
      (Samples.emptyDocument true) = Ok this1 /\
    EPCISDocument.removeEventList
      (VArr [Samples.objectEvent 1; Samples.objectEvent 2]) this1
      = Ok this2 /\
    EPCISDocument.getEventList this2 = VArr [].
Proof.
  apply (proj1 (removeAll_undoes_addAll "eventList"
                  [Samples.objectEvent 1; Samples.objectEvent 2]
                  (Samples.emptyDocument true)
                  ltac:(repeat constructor))).
  reflexivity.
Defined.
